(** * Qtends backend: order checkout and cancellation

    A shallow embedding of the order workflow of the Qtends e-commerce
    backend (Express handlers over a MongoDB store, accessed through
    mongoose), together with the properties of its specification and
    further properties of the handlers around it.

    Sources embedded here:
    - [controllers/order-controller/order.controller.js]
      ([calcShipping], [calcTax], [createOrderSchema], [createOrder],
       [getOrder], [updateStatusSchema], [updateOrderStatus],
       [cancelMyOrder]);
    - [controllers/product-controller/product.controller.js]
      ([toSlug], [uniqueSlug], [resolveCategoryRefs], [createSchema],
       [getProduct], [createProduct], [updateSchema], [updateProduct],
       [deleteProduct]);
    - [controllers/cart-controller/cart.controller.js]
      ([getOrCreateCart], [computeTotals], [getCart], [addSchema],
       [addItem], [updateSchema], [updateItem], [removeItem],
       [clearCart]) and the cart router;
    - the middlewares ([requireAuth], [requireAdmin], [notFound],
      [errorHandler]) and the admin routes;
    - the mongoose schemas of products, categories, carts and orders.

    Not embedded: the listings ([myOrders], [listAllOrders],
    [listProducts]), which sort by the [createdAt] timestamp, and the
    authentication and category controllers.

    Modelling conventions:
    - a JavaScript [Number] holding money is kept abstract behind the class
      [Number] (the handlers only multiply, add and call [toFixed(2)]); the
      instance [Float64.float_Number] is IEEE 754 binary64, which is what
      the JavaScript engine computes with;
    - [stock] and [qty] are [Number]s that validation keeps integral
      ([z.number().int()]): each is modelled by the integer it is, of type
      [Z], and the sum the store computes for [$inc] on a stock is rounded
      as binary64 rounds it ([add64]): it is exact up to [2^53] only;
    - a collection is a finite map from [_id] to document; the store seen by
      a request is a pair of the committed database and, while a
      transaction is open, the session's working copy;
    - handlers are written in a state-and-exception monad [M]; drivers'
      failures are injected through the oracle [faults]. *)

From Stdlib Require Import ZArith Lia.
From Stdlib Require PrimFloat SpecFloat FloatOps.
From stdpp Require Import gmap strings list pretty.

Open Scope Z_scope.

(** ** JavaScript numbers *)

(** The arithmetic the order code performs on monetary values. *)
Class Number (num : Type) := {
  (** the literal [0] *)
  num_zero : num;
  (** an integral [Number] (a quantity) seen as a number *)
  num_of_int : Z -> num;
  (** [x + y] *)
  num_add : num -> num -> num;
  (** [x * y] *)
  num_mul : num -> num -> num;
  (** [+x.toFixed(2)] *)
  num_round2 : num -> num;
  (** [x >= 0], zod's [nonnegative()] *)
  num_nonneg : num -> bool
}.

(** IEEE 754 binary64, the arithmetic of the JavaScript engine. *)
Module Float64.
Import PrimFloat.

(** The binary64 value nearest to an integer. *)
Definition of_int (z : Z) : float :=
  FloatOps.SF2Prim
    (SpecFloat.binary_normalize FloatOps.prec FloatOps.emax z 0 false).

(** [+x.toFixed(2)].  [Number.prototype.toFixed] picks the integer [n] for
    which [n / 100 - x] is closest to zero (the larger one on a tie), on
    the exact value of [x], prints [n] with two decimals, and the unary
    [+] reads that decimal back to the nearest binary64.  From [2^46] on,
    two neighbouring binary64 values are more than [0.01] apart and the
    result is [x] itself (this also covers the [x >= 1e21] branch of
    [toFixed] and the infinities); below, [n < 2^53] is exact in
    binary64 and the correctly rounded quotient [n / 100] is the nearest
    binary64 to the printed decimal. *)
Definition round2 (x : float) : float :=
  match FloatOps.Prim2SF x with
  | SpecFloat.S754_nan | SpecFloat.S754_infinity _ => x
  | SpecFloat.S754_zero _ => zero
  | SpecFloat.S754_finite s m e =>
      if leb (of_int (2 ^ 46)) (abs x) then x
      else
        let n := if 0 <=? e then 100 * Z.pos m * 2 ^ e
                 else (200 * Z.pos m + 2 ^ (- e)) / 2 ^ (1 - e) in
        let r := div (of_int n) (of_int 100) in
        if s then opp r else r
  end.

(** The binary64 value of the decimal literal [n / 100]. *)
Definition cents (n : Z) : float := div (of_int n) (of_int 100).

(** The integer an integral binary64 value is ([0] for the others). *)
Definition to_int (x : float) : Z :=
  match FloatOps.Prim2SF x with
  | SpecFloat.S754_finite s m e =>
      let a := if 0 <=? e then Z.pos m * 2 ^ e else Z.pos m / 2 ^ (- e) in
      if s then - a else a
  | _ => 0
  end.

#[export] Instance float_Number : Number float := {|
  num_zero := zero;
  num_of_int := of_int;
  num_add := add;
  num_mul := mul;
  num_round2 := round2;
  num_nonneg := leb zero
|}.

End Float64.

(** *** Integral numbers

    An integral [Number] is modelled by the integer it is.  Binary64 holds
    every integer up to [2^53] in magnitude and, beyond, only those with a
    significand of 53 bits: [binary64_int z] is the one nearest to [z], the
    one with the even significand when [z] is half-way between two.
    Comparing two integral [Number]s is comparing the integers; adding them
    is [add64].  (A sum that reaches [2^1024 - 2^970], which binary64
    answers with [Infinity], is not modelled: a stock is a finite binary64
    value, and the quantities the handlers add to it come from the lines
    of a cart, which grow by at most 999 a request.) *)
Definition binary64_int (z : Z) : Z :=
  if Z.abs z <=? 2 ^ 53 then z
  else
    let e := Z.log2 (Z.abs z) - 52 in
    let m := Z.abs z / 2 ^ e in
    let r := Z.abs z mod 2 ^ e in
    let up := (2 ^ (e - 1) <? r) || ((2 ^ (e - 1) =? r) && Z.odd m) in
    Z.sgn z * ((if up then m + 1 else m) * 2 ^ e).

(** [x + y] on two integral [Number]s. *)
Definition add64 (x y : Z) : Z := binary64_int (x + y).

(** ** Documents *)

Abbreviation ObjectId := positive (only parsing).

(** [status] and [paymentStatus] of the order schema. *)
Inductive OrderStatus := Pending | Paid | Shipped | Delivered.
Inductive PaymentStatus := Unpaid | PaymentPaid | Refunded.

#[export] Instance OrderStatus_eq_dec : EqDecision OrderStatus.
Proof. solve_decision. Defined.
#[export] Instance PaymentStatus_eq_dec : EqDecision PaymentStatus.
Proof. solve_decision. Defined.

(** [categorySchema]. *)
Record Category := {
  cat_name : string;
  cat_slug : string;
  cat_parent : option ObjectId;
  cat_isActive : bool
}.

(** [cartItemSchema] and [cartSchema]; the cart collection carries a unique
    index on [user], so it is keyed by the user's id. *)
Record CartItem := { ci_product : ObjectId; ci_qty : Z }.
Record Cart := { cart_items : list CartItem }.

(** The shipping address sub-document. *)
Record Address := {
  fullName : string;
  phone : string;
  address1 : string;
  address2 : option string;
  city : string;
  state : option string;
  postalCode : string;
  country : string
}.

(** What [req.user] holds once [requireAuth] has decoded the token. *)
Record User := { user_id : ObjectId; user_role : string }.

(** A thrown JavaScript [Error]; [err_status] is its optional [status]
    property. *)
Record Error := {
  err_status : option nat;
  err_message : string;
  err_stack : string
}.

(** [new Error(message)]. *)
Definition new_Error (message : string) : Error :=
  {| err_status := None; err_message := message; err_stack := "" |}.

(** The database calls a driver failure can be injected into. *)
Inductive DbOp :=
| OpUpdateStock (i : nat)   (* the [i]-th [Product.updateOne] of a loop *)
| OpOrderCreate             (* [Order.create] *)
| OpCartSave                (* [cart.save] *)
| OpOrderSave               (* [order.save] *)
| OpProductSave             (* [current.save] *)
| OpCommit.                 (* [session.commitTransaction] *)

(** The surroundings of one request. *)
Record Env := {
  (** [new Date()] *)
  now : Z;
  (** [process.env.NODE_ENV] *)
  NODE_ENV : string;
  (** the error a database call throws, if any *)
  faults : DbOp -> option string;
  (** how zod prints the paths of the fields that failed validation into
      the message of its [ZodError] *)
  zod_message : list (list string) -> string;
  (** zod's [url()] check *)
  is_url : string -> bool;
  (** [slugify(input, { lower: true, strict: true, trim: true })] *)
  slugify : string -> string
}.

(** [a || b] on strings: the empty string is falsy. *)
Definition str_or (a b : string) : string :=
  if decide (a = "") then b else a.

(** How a JavaScript computation completes. *)
Inductive Completion (A : Type) :=
| Normal (a : A)
| Throw (e : Error).
Arguments Normal {A} a.
Arguments Throw {A} e.

(** A field of a JSON body: absent, of the JavaScript type the schema
    expects, or of another type. *)
Inductive Raw (A : Type) :=
| Undefined
| Value (a : A)
| Invalid.
Arguments Undefined {A}.
Arguments Value {A} a.
Arguments Invalid {A}.

Record Request (B : Type) := {
  req_user : User;
  req_params_id : ObjectId;
  req_params_slug : string;
  req_body : Raw B
}.
Arguments req_user {B} r.
Arguments req_params_id {B} r.
Arguments req_params_slug {B} r.
Arguments req_body {B} r.

(** ** zod schemas *)

(** [z.string().min(k)] *)
Definition z_string_min (k : nat) (r : Raw string) : option string :=
  match r with
  | Value s => if (k <=? String.length s)%nat then Some s else None
  | _ => None
  end.

(** [z.string()] *)
Definition z_string (r : Raw string) : option string := z_string_min 0 r.

(** [schema.optional()] *)
Definition z_optional {A B} (schema : Raw A -> option B) (r : Raw A)
    : option (option B) :=
  match r with
  | Undefined => Some None
  | _ => Some <$> schema r
  end.

(** [z.enum([...])] *)
Definition z_enum {A} (values : list (string * A)) (r : Raw string)
    : option A :=
  match r with
  | Value s => snd <$> List.find (fun kv => String.eqb (fst kv) s) values
  | _ => None
  end.

(** The issue zod records for a field that fails its schema. *)
Definition issue {A} (path : list string) (o : option A)
    : list (list string) :=
  match o with
  | None => [path]
  | Some _ => []
  end.

(** [new ZodError(issues)]: it has no [status] property. *)
Definition ZodError (env : Env) (issues : list (list string)) : Error :=
  {| err_status := None; err_message := zod_message env issues;
     err_stack := "ZodError" |}.

Record RawAddress := {
  raw_fullName : Raw string;
  raw_phone : Raw string;
  raw_address1 : Raw string;
  raw_address2 : Raw string;
  raw_city : Raw string;
  raw_state : Raw string;
  raw_postalCode : Raw string;
  raw_country : Raw string
}.

Record RawCreateOrder := {
  raw_shippingAddress : Raw RawAddress;
  raw_paymentMethod : Raw string
}.

Record CreateOrderBody := {
  shippingAddress : option Address;
  paymentMethod : option string
}.

(** The [shippingAddress] object schema of [createOrderSchema]. *)
Definition shippingAddressSchema (r : Raw RawAddress) : option Address :=
  match r with
  | Value a =>
      fullName ← z_string_min 2 (raw_fullName a);
      phone ← z_string_min 6 (raw_phone a);
      address1 ← z_string_min 3 (raw_address1 a);
      address2 ← z_optional z_string (raw_address2 a);
      city ← z_string_min 2 (raw_city a);
      state ← z_optional z_string (raw_state a);
      postalCode ← z_string_min 3 (raw_postalCode a);
      country ← z_string_min 2 (raw_country a);
      Some {| fullName := fullName; phone := phone; address1 := address1;
              address2 := address2; city := city; state := state;
              postalCode := postalCode; country := country |}
  | _ => None
  end.

Definition shippingAddress_issues (r : Raw RawAddress)
    : list (list string) :=
  match r with
  | Undefined => []
  | Value a =>
      issue ["shippingAddress"; "fullName"] (z_string_min 2 (raw_fullName a))
      ++ issue ["shippingAddress"; "phone"] (z_string_min 6 (raw_phone a))
      ++ issue ["shippingAddress"; "address1"]
           (z_string_min 3 (raw_address1 a))
      ++ issue ["shippingAddress"; "address2"]
           (z_optional z_string (raw_address2 a))
      ++ issue ["shippingAddress"; "city"] (z_string_min 2 (raw_city a))
      ++ issue ["shippingAddress"; "state"]
           (z_optional z_string (raw_state a))
      ++ issue ["shippingAddress"; "postalCode"]
           (z_string_min 3 (raw_postalCode a))
      ++ issue ["shippingAddress"; "country"]
           (z_string_min 2 (raw_country a))
  | Invalid => [["shippingAddress"]]
  end.

(** [createOrderSchema], as a partial function together with the issues
    it reports. *)
Definition createOrderSchema (r : Raw RawCreateOrder)
    : option CreateOrderBody :=
  match r with
  | Value b =>
      shippingAddress ←
        z_optional shippingAddressSchema (raw_shippingAddress b);
      paymentMethod ←
        z_optional (z_enum [("cod", "cod")]) (raw_paymentMethod b);
      Some {| shippingAddress := shippingAddress;
              paymentMethod := paymentMethod |}
  | _ => None
  end.

Definition createOrderSchema_issues (r : Raw RawCreateOrder)
    : list (list string) :=
  match r with
  | Value b =>
      shippingAddress_issues (raw_shippingAddress b)
      ++ issue ["paymentMethod"]
           (z_optional (z_enum [("cod", "cod")]) (raw_paymentMethod b))
  | _ => [[]]
  end.

Record RawUpdateStatus := {
  raw_status : Raw string;
  raw_paymentStatus : Raw string
}.

Record UpdateStatusBody := {
  status : option OrderStatus;
  paymentStatus : option PaymentStatus
}.

Definition status_enum : list (string * OrderStatus) :=
  [("pending", Pending); ("paid", Paid); ("shipped", Shipped);
   ("delivered", Delivered)].

Definition paymentStatus_enum : list (string * PaymentStatus) :=
  [("unpaid", Unpaid); ("paid", PaymentPaid); ("refunded", Refunded)].

(** [updateStatusSchema]. *)
Definition updateStatusSchema (r : Raw RawUpdateStatus)
    : option UpdateStatusBody :=
  match r with
  | Value b =>
      status ← z_optional (z_enum status_enum) (raw_status b);
      paymentStatus ←
        z_optional (z_enum paymentStatus_enum) (raw_paymentStatus b);
      Some {| status := status; paymentStatus := paymentStatus |}
  | _ => None
  end.

Definition updateStatusSchema_issues (r : Raw RawUpdateStatus)
    : list (list string) :=
  match r with
  | Value b =>
      issue ["status"] (z_optional (z_enum status_enum) (raw_status b))
      ++ issue ["paymentStatus"]
           (z_optional (z_enum paymentStatus_enum) (raw_paymentStatus b))
  | _ => [[]]
  end.

(** ** The error middleware *)

(** [notFound] hands this error to [next]. *)
Definition notFound : Error :=
  {| err_status := Some 404%nat; err_message := "Route not found";
     err_stack := "" |}.

Section Backend.

Context {num : Type} {Num : Number num}.

(** [productSchema].  [stock] is declared [{ type: Number }]; the schemas of
    the product handlers keep it integral and the field holds that
    integer.  The handlers compare it; only the store's [$inc] computes
    on it, with [add64]. *)
Record Product := {
  p_title : string;
  p_slug : string;
  p_description : option string;
  p_price : num;
  p_stock : Z;
  p_images : list string;
  p_category : option ObjectId;
  p_subcategory : option ObjectId;
  p_isActive : bool
}.

(** [orderItemSchema]: the line-item snapshot. *)
Record OrderItem := {
  oi_product : ObjectId;
  oi_title : string;
  oi_slug : string;
  oi_price : num;
  oi_qty : Z;
  oi_lineTotal : num
}.

(** [orderSchema]. *)
Record Order := {
  o_user : ObjectId;
  o_items : list OrderItem;
  o_subtotal : num;
  o_shippingFee : num;
  o_tax : num;
  o_grandTotal : num;
  o_shippingAddress : option Address;
  o_paymentMethod : string;
  o_paymentStatus : PaymentStatus;
  o_status : OrderStatus;
  o_cancelled : bool;
  o_cancelledAt : option Z
}.

(** The four collections. *)
Record Db := {
  products : gmap positive Product;
  categories : gmap positive Category;
  carts : gmap positive Cart;
  orders : gmap positive Order
}.

Definition set_products (f : gmap positive Product -> gmap positive Product)
    (db : Db) : Db :=
  {| products := f (products db); categories := categories db;
     carts := carts db; orders := orders db |}.

Definition set_carts (f : gmap positive Cart -> gmap positive Cart)
    (db : Db) : Db :=
  {| products := products db; categories := categories db;
     carts := f (carts db); orders := orders db |}.

Definition set_orders (f : gmap positive Order -> gmap positive Order)
    (db : Db) : Db :=
  {| products := products db; categories := categories db;
     carts := carts db; orders := f (orders db) |}.

Definition set_stock (s : Z) (p : Product) : Product :=
  {| p_title := p_title p; p_slug := p_slug p;
     p_description := p_description p; p_price := p_price p;
     p_stock := s; p_images := p_images p; p_category := p_category p;
     p_subcategory := p_subcategory p; p_isActive := p_isActive p |}.

(** ** The store and the handler monad *)

(** The committed database and the working copy of the open transaction. *)
Record World := { committed : Db; session : option Db }.

(** What a call made with ([sess = true]) or without [{ session }] reads. *)
Definition view (sess : bool) (w : World) : Db :=
  match sess, session w with
  | true, Some tx => tx
  | _, _ => committed w
  end.

(** What a call made with or without [{ session }] writes. *)
Definition write (sess : bool) (f : Db -> Db) (w : World) : World :=
  match sess, session w with
  | true, Some tx => {| committed := committed w; session := Some (f tx) |}
  | _, _ => {| committed := f (committed w); session := session w |}
  end.

Definition M (A : Type) : Type := Env -> World -> Completion A * World.

Definition ret {A} (a : A) : M A := fun _ w => (Normal a, w).

Definition bind {A B} (m : M A) (k : A -> M B) : M B :=
  fun env w =>
    match m env w with
    | (Normal a, w') => k a env w'
    | (Throw e, w') => (Throw e, w')
    end.

Definition throw {A} (e : Error) : M A := fun _ w => (Throw e, w).

(** [try { m } catch (err) { h err }]. *)
Definition try_catch {A} (m : M A) (h : Error -> M A) : M A :=
  fun env w =>
    match m env w with
    | (Normal a, w') => (Normal a, w')
    | (Throw e, w') => h e env w'
    end.

Definition get_env : M Env := fun env w => (Normal env, w).

#[local] Notation "'do' x <- m ; k" := (bind m (fun x => k))
  (at level 10, x name, m at level 100, k at level 200).

(** A database call: throws the injected failure, if any, and has no
    effect then. *)
Definition db_call {A} (op : DbOp) (m : M A) : M A :=
  fun env w =>
    match faults env op with
    | Some msg => (Throw (new_Error msg), w)
    | None => m env w
    end.

(** [mongoose.startSession()] and [session.endSession()] do not touch the
    data. *)
Definition startSession : M unit := ret tt.
Definition endSession : M unit := ret tt.

(** [session.startTransaction()]: the transaction works on a snapshot. *)
Definition startTransaction : M unit :=
  fun _ w => (Normal tt, {| committed := committed w;
                            session := Some (committed w) |}).

(** [session.commitTransaction()]: the working copy becomes the database. *)
Definition commitTransaction : M unit :=
  db_call OpCommit (fun _ w =>
    match session w with
    | Some tx => (Normal tt, {| committed := tx; session := None |})
    | None => (Normal tt, w)
    end).

(** [session.abortTransaction()]: the working copy is dropped. *)
Definition abortTransaction : M unit :=
  fun _ w => (Normal tt, {| committed := committed w; session := None |}).

(** Runs a handler on a database with no transaction open. *)
Definition run {A} (m : M A) (env : Env) (db : Db) : Completion A * Db :=
  let '(r, w) := m env {| committed := db; session := None |} in
  (r, committed w).

(** ** Requests and responses *)

(** The JSON bodies the handlers send. *)
Inductive Body :=
| JsonMessage (message : string)                    (* [{ message }] *)
| JsonOrder (order : ObjectId * Order)              (* [{ order }] *)
| JsonItem (item : option (ObjectId * Product))     (* [{ item }] *)
| JsonOk                                            (* [{ ok: true }] *)
| JsonError (status : nat) (message : string) (stack : option string).
                                      (* [{ status, message, stack }] *)

Record Response := { res_status : nat; res_body : Body }.

(** The keys of a JSON body; a key whose value is [undefined] is not
    serialised. *)
Definition json_keys (b : Body) : list string :=
  match b with
  | JsonMessage _ => ["message"]
  | JsonOrder _ => ["order"]
  | JsonItem _ => ["item"]
  | JsonOk => ["ok"]
  | JsonError _ _ None => ["status"; "message"]
  | JsonError _ _ (Some _) => ["status"; "message"; "stack"]
  end.

(** [schema.parse(req.body)]: the parsed body, or a thrown [ZodError]. *)
Definition parse {A B} (schema : Raw A -> option B)
    (issues : Raw A -> list (list string)) (body : Raw A) : M B :=
  fun env w =>
    match schema body with
    | Some b => (Normal b, w)
    | None => (Throw (ZodError env (issues body)), w)
    end.

(** ** Database calls *)

(** A cart line after [populate('items.product')]: the referenced product
    document, or [null] when it does not exist. *)
Record PopulatedItem := {
  it_product : option (ObjectId * Product);
  it_qty : Z
}.

Definition populate (db : Db) (it : CartItem) : PopulatedItem :=
  {| it_product :=
       (fun p => (ci_product it, p)) <$> products db !! ci_product it;
     it_qty := ci_qty it |}.

(** [Cart.findOne({ user }).populate('items.product')]: the items of the
    user's cart, or [null]. *)
Definition Cart_findOne_populate (user : ObjectId)
    : M (option (list PopulatedItem)) :=
  fun _ w =>
    let db := view false w in
    (Normal ((fun c => map (populate db) (cart_items c))
               <$> carts db !! user), w).

(** [Product.updateOne({ _id, stock: { $gte } }, { $inc: { stock } },
    { session })]; the [$gte] condition is optional.  [$inc] stores the
    binary64 sum of the stock and the increment.  The result is
    [modifiedCount]: the schema has [timestamps: true], so the update also
    sets [updatedAt] to the current time and a document that matched
    counts as modified, also when the sum leaves the stock as it was
    ([updatedAt] itself is not among the modelled fields; the current
    time is taken to differ from the stored one); [0] when none
    matched. *)
Definition Product_updateOne (op : DbOp) (id : ObjectId) (gte : option Z)
    (inc : Z) (sess : bool) : M nat :=
  db_call op (fun _ w =>
    match products (view sess w) !! id with
    | Some p =>
        if match gte with Some q => q <=? p_stock p | None => true end
        then (Normal 1%nat,
              write sess
                (set_products <[id := set_stock (add64 (p_stock p) inc) p]>)
                w)
        else (Normal 0%nat, w)
    | None => (Normal 0%nat, w)
    end).

(** The validators of [orderSchema] that can reject a document built by
    [createOrder]: [required] on the strings [title] and [slug] of an item
    (an empty string fails it), and [min: 1] on its [qty]. *)
Definition orderItemSchema_valid (it : OrderItem) : bool :=
  negb (String.eqb (oi_title it) "") && negb (String.eqb (oi_slug it) "")
  && (1 <=? oi_qty it).

(** [Order.create([doc], { session })]: validates, then inserts under a
    new [_id]; mongoose's [ValidationError] is abbreviated to its first
    sentence. *)
Definition Order_create (doc : Order) (sess : bool)
    : M (ObjectId * Order) :=
  db_call OpOrderCreate (fun _ w =>
    if forallb orderItemSchema_valid (o_items doc) then
      let id := fresh (dom (orders (view sess w))) in
      (Normal (id, doc), write sess (set_orders <[id := doc]>) w)
    else (Throw (new_Error "Order validation failed"), w)).

(** [cart.save({ session })] for the cart document of [user]. *)
Definition Cart_save (user : ObjectId) (items : list CartItem)
    (sess : bool) : M unit :=
  db_call OpCartSave (fun _ w =>
    (Normal tt,
     write sess (set_carts <[user := {| cart_items := items |}]>) w)).

(** [Order.findById(id)]. *)
Definition Order_findById (id : ObjectId) : M (option Order) :=
  fun _ w => (Normal (orders (view false w) !! id), w).

(** [order.save({ session })] / [order.save()]. *)
Definition Order_save (id : ObjectId) (doc : Order) (sess : bool)
    : M unit :=
  db_call OpOrderSave (fun _ w =>
    (Normal tt, write sess (set_orders <[id := doc]>) w)).

(** ** order.controller.js *)

(** Simple helpers. *)
Definition calcShipping (subtotal : num) : num := num_zero.
Definition calcTax (subtotal : num) : num := num_zero.

Definition respond (status : nat) (body : Body) : M Response :=
  ret {| res_status := status; res_body := body |}.

(** The first loop of [createOrder]: builds the snapshot and the running
    subtotal from the current product data, or answers 400. *)
Fixpoint build_snapshot (items : list PopulatedItem) (subtotal : num)
    (itemsSnapshot : list OrderItem)
    : Response + (num * list OrderItem) :=
  match items with
  | [] => inr (subtotal, itemsSnapshot)
  | it :: rest =>
      match it_product it with
      | None =>
          inl {| res_status := 400;
                 res_body := JsonMessage "Product unavailable in cart" |}
      | Some (id, p) =>
          if negb (p_isActive p) then
            inl {| res_status := 400;
                   res_body := JsonMessage "Product unavailable in cart" |}
          else if p_stock p <? it_qty it then
            inl {| res_status := 400;
                   res_body :=
                     JsonMessage ("Insufficient stock for " +:+ p_slug p) |}
          else
            let lineTotal :=
              num_round2 (num_mul (p_price p) (num_of_int (it_qty it))) in
            build_snapshot rest (num_add subtotal lineTotal)
              (itemsSnapshot ++
               [{| oi_product := id; oi_title := p_title p;
                   oi_slug := p_slug p; oi_price := p_price p;
                   oi_qty := it_qty it; oi_lineTotal := lineTotal |}])
      end
  end.

(** The second loop of [createOrder]: the conditional decrements, the
    [i]-th database call of the loop being the next one. *)
Fixpoint decrement_stock (items : list PopulatedItem) (i : nat) : M unit :=
  match items with
  | [] => ret tt
  | it :: rest =>
      match it_product it with
      | None =>
          throw (new_Error "Cannot read properties of null (reading '_id')")
      | Some (id, p) =>
          do resUpd <- Product_updateOne (OpUpdateStock i) id
                         (Some (it_qty it)) (- it_qty it) true;
          if negb (resUpd =? 1)%nat then
            throw (new_Error ("Stock update failed for " +:+ p_slug p))
          else decrement_stock rest (S i)
      end
  end.

(** The body of the [try] block of [createOrder]. *)
Definition createOrder_try (user : ObjectId) (body : CreateOrderBody)
    (items : list PopulatedItem) (itemsSnapshot : list OrderItem)
    (subtotal shippingFee tax grandTotal : num) : M Response :=
  do _ <- decrement_stock items 0;
  do order <- Order_create
      {| o_user := user;
         o_items := itemsSnapshot;
         o_subtotal := subtotal;
         o_shippingFee := shippingFee;
         o_tax := tax;
         o_grandTotal := grandTotal;
         o_shippingAddress := shippingAddress body;
         o_paymentMethod := default "cod" (paymentMethod body);
         o_paymentStatus := Unpaid;
         o_status := Pending;
         o_cancelled := false;
         o_cancelledAt := None |} true;
  do _ <- Cart_save user [] true;
  do _ <- commitTransaction;
  do _ <- endSession;
  respond 201 (JsonOrder order).

(** [createOrder], from the test of the loaded cart on. *)
Definition createOrder_from (user : ObjectId) (body : CreateOrderBody)
    (cart : option (list PopulatedItem)) : M Response :=
  match cart with
  | None => respond 400 (JsonMessage "Cart is empty")
  | Some [] => respond 400 (JsonMessage "Cart is empty")
  | Some items =>
      match build_snapshot items num_zero [] with
      | inl res => ret res
      | inr (subtotal, itemsSnapshot) =>
          let subtotal := num_round2 subtotal in
          let shippingFee := calcShipping subtotal in
          let tax := calcTax subtotal in
          let grandTotal :=
            num_round2 (num_add (num_add subtotal shippingFee) tax) in
          do _ <- startSession;
          do _ <- startTransaction;
          try_catch
            (createOrder_try user body items itemsSnapshot
               subtotal shippingFee tax grandTotal)
            (fun err =>
               do _ <- abortTransaction;
               do _ <- endSession;
               respond 500
                 (JsonMessage
                    (str_or (err_message err) "Order creation failed")))
      end
  end.

(** [POST /api/orders]. *)
Definition createOrder (req : Request RawCreateOrder) : M Response :=
  do body <- parse createOrderSchema createOrderSchema_issues (req_body req);
  do cart <- Cart_findOne_populate (user_id (req_user req));
  createOrder_from (user_id (req_user req)) body cart.

Definition set_status (st : OrderStatus) (o : Order) : Order :=
  {| o_user := o_user o; o_items := o_items o; o_subtotal := o_subtotal o;
     o_shippingFee := o_shippingFee o; o_tax := o_tax o;
     o_grandTotal := o_grandTotal o;
     o_shippingAddress := o_shippingAddress o;
     o_paymentMethod := o_paymentMethod o;
     o_paymentStatus := o_paymentStatus o; o_status := st;
     o_cancelled := o_cancelled o; o_cancelledAt := o_cancelledAt o |}.

Definition set_paymentStatus (ps : PaymentStatus) (o : Order) : Order :=
  {| o_user := o_user o; o_items := o_items o; o_subtotal := o_subtotal o;
     o_shippingFee := o_shippingFee o; o_tax := o_tax o;
     o_grandTotal := o_grandTotal o;
     o_shippingAddress := o_shippingAddress o;
     o_paymentMethod := o_paymentMethod o;
     o_paymentStatus := ps; o_status := o_status o;
     o_cancelled := o_cancelled o; o_cancelledAt := o_cancelledAt o |}.

Definition set_cancelled (c : bool) (at_ : option Z) (o : Order) : Order :=
  {| o_user := o_user o; o_items := o_items o; o_subtotal := o_subtotal o;
     o_shippingFee := o_shippingFee o; o_tax := o_tax o;
     o_grandTotal := o_grandTotal o;
     o_shippingAddress := o_shippingAddress o;
     o_paymentMethod := o_paymentMethod o;
     o_paymentStatus := o_paymentStatus o; o_status := o_status o;
     o_cancelled := c; o_cancelledAt := at_ |}.

(** [String(order.user) === String(req.user.id)] *)
Definition isOwner (order : Order) (user : User) : bool :=
  bool_decide (o_user order = user_id user).

(** [req.user.role === 'admin'] *)
Definition isAdmin (user : User) : bool := String.eqb (user_role user) "admin".

(** [GET /api/orders/:id]. *)
Definition getOrder {B} (req : Request B) : M Response :=
  do order <- Order_findById (req_params_id req);
  match order with
  | None => respond 404 (JsonMessage "Not found")
  | Some order =>
      if negb (isOwner order (req_user req)) && negb (isAdmin (req_user req))
      then respond 403 (JsonMessage "Forbidden")
      else respond 200 (JsonOrder (req_params_id req, order))
  end.

(** [PATCH /api/orders/:id/status] (the route runs [requireAdmin] first). *)
Definition updateOrderStatus (req : Request RawUpdateStatus) : M Response :=
  do data <- parse updateStatusSchema updateStatusSchema_issues
               (req_body req);
  do order <- Order_findById (req_params_id req);
  match order with
  | None => respond 404 (JsonMessage "Not found")
  | Some order =>
      let order :=
        match status data with
        | Some st => set_status st order
        | None => order
        end in
      let order :=
        match paymentStatus data with
        | Some ps => set_paymentStatus ps order
        | None => order
        end in
      do _ <- Order_save (req_params_id req) order false;
      respond 200 (JsonOrder (req_params_id req, order))
  end.

(** [requireAdmin], the middleware in front of the admin routes. *)
Definition requireAdmin {B} (req : Request B) (next : M Response)
    : M Response :=
  if negb (isAdmin (req_user req))
  then respond 403 (JsonMessage "Admin only")
  else next.

(** [router.patch('/:id/status', requireAuth, requireAdmin,
    updateOrderStatus)], once [requireAuth] has set [req.user]. *)
Definition patch_status (req : Request RawUpdateStatus) : M Response :=
  requireAdmin req (updateOrderStatus req).

(** The loop of [cancelMyOrder]: the unconditional increments; the result
    of [updateOne] is not looked at. *)
Fixpoint restore_stock (items : list OrderItem) (i : nat) : M unit :=
  match items with
  | [] => ret tt
  | it :: rest =>
      do _ <- Product_updateOne (OpUpdateStock i) (oi_product it) None
                (oi_qty it) true;
      restore_stock rest (S i)
  end.

(** The body of the [try] block of [cancelMyOrder]. *)
Definition cancelMyOrder_try (id : ObjectId) (order : Order) : M Response :=
  do _ <- restore_stock (o_items order) 0;
  do env <- get_env;
  let order := set_cancelled true (Some (now env)) order in
  do _ <- Order_save id order true;
  do _ <- commitTransaction;
  do _ <- endSession;
  respond 200 JsonOk.

(** [DELETE /api/orders/:id]. *)
Definition cancelMyOrder {B} (req : Request B) : M Response :=
  do order <- Order_findById (req_params_id req);
  match order with
  | None => respond 404 (JsonMessage "Not found")
  | Some order =>
      if negb (isOwner order (req_user req)) && negb (isAdmin (req_user req))
      then respond 403 (JsonMessage "Forbidden")
      else if o_cancelled order
      then respond 400 (JsonMessage "Already cancelled")
      else if negb (bool_decide (o_paymentStatus order = Unpaid))
              || negb (bool_decide (o_status order = Pending))
      then respond 400
             (JsonMessage "Cannot cancel after payment or processing")
      else
        do _ <- startSession;
        do _ <- startTransaction;
        try_catch (cancelMyOrder_try (req_params_id req) order)
          (fun e =>
             do _ <- abortTransaction;
             do _ <- endSession;
             respond 500 (JsonMessage "Cancel failed"))
  end.

(** ** The error middleware, continued *)

(** [errorHandler]; [err.status || 500] takes [500] for a missing (or
    zero) status. *)
Definition errorHandler (env : Env) (err : Error) : Response :=
  let status :=
    match err_status err with
    | Some (S n) => S n
    | _ => 500%nat
    end in
  {| res_status := status;
     res_body :=
       JsonError status (str_or (err_message err) "Internal Server Error")
         (if String.eqb (NODE_ENV env) "development"
          then Some (err_stack err) else None) |}.

(** Modelled from the spec: the application wiring ([app.js]) is not part
    of the sources.  Following the error-handling design of the
    specification, an error thrown by a handler is formatted by the
    generic error handler, [errorHandler]. *)
Definition app (handler : M Response) (env : Env) (db : Db)
    : Response * Db :=
  match run handler env db with
  | (Normal res, db') => (res, db')
  | (Throw err, db') => (errorHandler env err, db')
  end.

(** ** product.controller.js *)

(** [toSlug]. *)
Definition toSlug (env : Env) (input : string) : string := slugify env input.

(** [Product.findOne(q)] for a query [q] given as a predicate. *)
Definition Product_findOne (q : ObjectId -> Product -> bool)
    : M (option (ObjectId * Product)) :=
  fun _ w =>
    (Normal (List.find (fun kv => q (fst kv) (snd kv))
               (map_to_list (products (view false w)))), w).

(** The loop of [uniqueSlug]: tries [candidate], then [base-n],
    [base-(n+1)], ...; [None] when [fuel] iterations did not suffice. *)
Fixpoint uniqueSlug_loop (fuel : nat) (excludeId : option ObjectId)
    (base candidate : string) (n : N) : M (option string) :=
  match fuel with
  | O => ret None
  | S fuel =>
      do exists_ <- Product_findOne (fun id p =>
                      String.eqb (p_slug p) candidate
                      && match excludeId with
                         | Some ex => negb (bool_decide (id = ex))
                         | None => true
                         end);
      match exists_ with
      | None => ret (Some candidate)
      | Some _ =>
          uniqueSlug_loop fuel excludeId base
            (base +:+ "-" +:+ pretty n) (n + 1)%N
      end
  end.

(** [uniqueSlug(baseText, excludeId)]. *)
Definition uniqueSlug (fuel : nat) (baseText : string)
    (excludeId : option ObjectId) : M (option string) :=
  do env <- get_env;
  let base := toSlug env baseText in
  uniqueSlug_loop fuel excludeId base base 2%N.

(** [Category.findOne({ slug, isActive: true })]. *)
Definition Category_findOne (slug : string)
    : M (option (ObjectId * Category)) :=
  fun _ w =>
    (Normal (List.find (fun kv => String.eqb (cat_slug (snd kv)) slug
                                  && cat_isActive (snd kv))
               (map_to_list (categories (view false w)))), w).

(** A string option used as a condition: [undefined] and [''] are falsy. *)
Definition truthy (o : option string) : option string :=
  match o with
  | Some s => if String.eqb s "" then None else Some s
  | None => None
  end.

(** [resolveCategoryRefs(categorySlug, subcategorySlug)]. *)
Definition resolveCategoryRefs (categorySlug subcategorySlug : option string)
    : M (option ObjectId * option ObjectId) :=
  do category <-
    match truthy categorySlug with
    | Some slug =>
        do c <- Category_findOne slug;
        match c with
        | None => throw (new_Error "categorySlug not found")
        | Some c => ret (Some c)
        end
    | None => ret None
    end;
  do subcategory <-
    match truthy subcategorySlug with
    | Some slug =>
        do c <- Category_findOne slug;
        match c with
        | None => throw (new_Error "subcategorySlug not found")
        | Some c =>
            match cat_parent (snd c) with
            | None => throw (new_Error "subcategorySlug is not a subcategory")
            | Some _ => ret (Some c)
            end
        end
    | None => ret None
    end;
  match subcategory, category with
  | Some sub, Some cat =>
      if negb (bool_decide (cat_parent (snd sub) = Some (fst cat))) then
        throw (new_Error "subcategory does not belong to the given category")
      else ret (Some (fst cat), Some (fst sub))
  | _, _ => ret (fst <$> category, fst <$> subcategory)
  end.

Record RawUpdateProduct := {
  raw_title : Raw string;
  raw_slug : Raw string;
  raw_regenerateSlug : Raw bool;
  raw_description : Raw string;
  raw_price : Raw num;
  raw_stock : Raw Z;          (* [Invalid] also for a fractional number *)
  raw_images : Raw (list (Raw string));
  raw_isActive : Raw bool;
  raw_categorySlug : Raw string;
  raw_subcategorySlug : Raw string
}.

Record UpdateProductBody := {
  u_title : option string;
  u_slug : option string;
  u_regenerateSlug : option bool;
  u_description : option string;
  u_price : option num;
  u_stock : option Z;
  u_images : option (list string);
  u_isActive : option bool;
  u_categorySlug : option string;
  u_subcategorySlug : option string
}.

(** [z.boolean()] *)
Definition z_boolean (r : Raw bool) : option bool :=
  match r with
  | Value b => Some b
  | _ => None
  end.

(** [z.number().nonnegative()] *)
Definition z_number_nonnegative (r : Raw num) : option num :=
  match r with
  | Value x => if num_nonneg x then Some x else None
  | _ => None
  end.

(** [z.number().int().nonnegative()] *)
Definition z_int_nonnegative (r : Raw Z) : option Z :=
  match r with
  | Value x => if 0 <=? x then Some x else None
  | _ => None
  end.

(** [z.array(z.string().url())] *)
Definition z_array_url (env : Env) (r : Raw (list (Raw string)))
    : option (list string) :=
  match r with
  | Value l =>
      mapM (fun x => s ← z_string x; if is_url env s then Some s else None) l
  | _ => None
  end.

(** [updateSchema] of the product controller. *)
Definition updateSchema (env : Env) (r : Raw RawUpdateProduct)
    : option UpdateProductBody :=
  match r with
  | Value b =>
      title ← z_optional (z_string_min 2) (raw_title b);
      slug ← z_optional (z_string_min 2) (raw_slug b);
      regenerateSlug ← z_optional z_boolean (raw_regenerateSlug b);
      description ← z_optional z_string (raw_description b);
      price ← z_optional z_number_nonnegative (raw_price b);
      stock ← z_optional z_int_nonnegative (raw_stock b);
      images ← z_optional (z_array_url env) (raw_images b);
      isActive ← z_optional z_boolean (raw_isActive b);
      categorySlug ← z_optional z_string (raw_categorySlug b);
      subcategorySlug ← z_optional z_string (raw_subcategorySlug b);
      Some {| u_title := title; u_slug := slug;
              u_regenerateSlug := regenerateSlug;
              u_description := description; u_price := price;
              u_stock := stock; u_images := images; u_isActive := isActive;
              u_categorySlug := categorySlug;
              u_subcategorySlug := subcategorySlug |}
  | _ => None
  end.

Definition updateSchema_issues (env : Env) (r : Raw RawUpdateProduct)
    : list (list string) :=
  match r with
  | Value b =>
      issue ["title"] (z_optional (z_string_min 2) (raw_title b))
      ++ issue ["slug"] (z_optional (z_string_min 2) (raw_slug b))
      ++ issue ["regenerateSlug"]
           (z_optional z_boolean (raw_regenerateSlug b))
      ++ issue ["description"] (z_optional z_string (raw_description b))
      ++ issue ["price"] (z_optional z_number_nonnegative (raw_price b))
      ++ issue ["stock"] (z_optional z_int_nonnegative (raw_stock b))
      ++ issue ["images"] (z_optional (z_array_url env) (raw_images b))
      ++ issue ["isActive"] (z_optional z_boolean (raw_isActive b))
      ++ issue ["categorySlug"] (z_optional z_string (raw_categorySlug b))
      ++ issue ["subcategorySlug"]
           (z_optional z_string (raw_subcategorySlug b))
  | _ => [[]]
  end.

(** The validators of [productSchema]: [required] on [title] and [slug],
    [min: 0] on [price]. *)
Definition productSchema_valid (p : Product) : bool :=
  negb (String.eqb (p_title p) "") && negb (String.eqb (p_slug p) "")
  && num_nonneg (p_price p).

(** [current.save()]. *)
Definition Product_save (id : ObjectId) (doc : Product) : M unit :=
  db_call OpProductSave (fun _ w =>
    if productSchema_valid doc then
      (Normal tt, write false (set_products <[id := doc]>) w)
    else (Throw (new_Error "Product validation failed"), w)).

(** [Product.findById(id)]; the populated category names of the answer
    are left out. *)
Definition Product_findById (id : ObjectId)
    : M (option (ObjectId * Product)) :=
  fun _ w =>
    (Normal ((fun p => (id, p)) <$> products (view false w) !! id), w).

(** [PATCH /api/products/:slug] (the route runs [requireAdmin] first).
    The answer is [None] when a [uniqueSlug] loop is cut short by [fuel];
    nothing has been written then. *)
Definition updateProduct (fuel : nat) (req : Request RawUpdateProduct)
    : M (option Response) :=
  do env <- get_env;
  do data <- parse (updateSchema env) (updateSchema_issues env)
               (req_body req);
  do current <- Product_findOne (fun _ p =>
                  String.eqb (p_slug p) (req_params_slug req));
  match current with
  | None => do res <- respond 404 (JsonMessage "Not found"); ret (Some res)
  | Some (id, current) =>
      (* title *)
      let title := default (p_title current) (u_title data) in
      (* slug logic *)
      do slug <-
        match truthy (u_slug data) with
        | Some s => uniqueSlug fuel s (Some id)
        | None =>
            match u_regenerateSlug data, truthy (u_title data) with
            | Some true, Some t => uniqueSlug fuel t (Some id)
            | _, _ => ret (Some (p_slug current))
            end
        end;
      match slug with
      | None => ret None
      | Some slug =>
          (* category and subcategory, if either key is present *)
          do refs <-
            match u_categorySlug data, u_subcategorySlug data with
            | None, None =>
                ret (inr (p_category current, p_subcategory current))
            | _, _ =>
                try_catch
                  (do r <- resolveCategoryRefs (u_categorySlug data)
                             (u_subcategorySlug data);
                   ret (inr r))
                  (fun e =>
                     do res <- respond 400 (JsonMessage (err_message e));
                     ret (inl res))
            end;
          match refs with
          | inl res => ret (Some res)
          | inr (categoryId, subcategoryId) =>
              (* other fields *)
              let current :=
                {| p_title := title;
                   p_slug := slug;
                   p_description :=
                     match u_description data with
                     | Some d => Some d
                     | None => p_description current
                     end;
                   p_price := default (p_price current) (u_price data);
                   p_stock := default (p_stock current) (u_stock data);
                   p_images := default (p_images current) (u_images data);
                   p_category := categoryId;
                   p_subcategory := subcategoryId;
                   p_isActive :=
                     default (p_isActive current) (u_isActive data) |} in
              do _ <- Product_save id current;
              do item <- Product_findById id;
              do res <- respond 200 (JsonItem item);
              ret (Some res)
          end
      end
  end.

(** ** product.controller.js, the other handlers *)

(** The body [createSchema] gives.  zod drops the keys of the raw body a
    schema does not name, so a raw body is the same record for
    [createSchema] and [updateSchema]. *)
Record CreateProductBody := {
  c_title : string;
  c_slug : option string;
  c_description : option string;
  c_price : num;
  c_stock : option Z;
  c_images : option (list string);
  c_categorySlug : option string;
  c_subcategorySlug : option string
}.

(** [createSchema]. *)
Definition createSchema (env : Env) (r : Raw RawUpdateProduct)
    : option CreateProductBody :=
  match r with
  | Value b =>
      title ← z_string_min 2 (raw_title b);
      slug ← z_optional (z_string_min 2) (raw_slug b);
      description ← z_optional z_string (raw_description b);
      price ← z_number_nonnegative (raw_price b);
      stock ← z_optional z_int_nonnegative (raw_stock b);
      images ← z_optional (z_array_url env) (raw_images b);
      categorySlug ← z_optional z_string (raw_categorySlug b);
      subcategorySlug ← z_optional z_string (raw_subcategorySlug b);
      Some {| c_title := title; c_slug := slug;
              c_description := description; c_price := price;
              c_stock := stock; c_images := images;
              c_categorySlug := categorySlug;
              c_subcategorySlug := subcategorySlug |}
  | _ => None
  end.

Definition createSchema_issues (env : Env) (r : Raw RawUpdateProduct)
    : list (list string) :=
  match r with
  | Value b =>
      issue ["title"] (z_string_min 2 (raw_title b))
      ++ issue ["slug"] (z_optional (z_string_min 2) (raw_slug b))
      ++ issue ["description"] (z_optional z_string (raw_description b))
      ++ issue ["price"] (z_number_nonnegative (raw_price b))
      ++ issue ["stock"] (z_optional z_int_nonnegative (raw_stock b))
      ++ issue ["images"] (z_optional (z_array_url env) (raw_images b))
      ++ issue ["categorySlug"] (z_optional z_string (raw_categorySlug b))
      ++ issue ["subcategorySlug"]
           (z_optional z_string (raw_subcategorySlug b))
  | _ => [[]]
  end.

(** [Product.create(doc)]: validates, then inserts under a new [_id]; the
    unique index on [slug] refuses a slug another product has. *)
Definition Product_create (doc : Product) : M (ObjectId * Product) :=
  db_call OpProductSave (fun _ w =>
    if productSchema_valid doc then
      match List.find (fun kv => String.eqb (p_slug (snd kv)) (p_slug doc))
              (map_to_list (products (view false w))) with
      | Some _ => (Throw (new_Error "E11000 duplicate key error"), w)
      | None =>
          let id := fresh (dom (products (view false w))) in
          (Normal (id, doc), write false (set_products <[id := doc]>) w)
      end
    else (Throw (new_Error "Product validation failed"), w)).

(** [GET /api/products/:slug]; the populated category names of the answer
    are left out. *)
Definition getProduct {B} (req : Request B) : M Response :=
  do item <- Product_findOne (fun _ p =>
               String.eqb (p_slug p) (req_params_slug req) && p_isActive p);
  match item with
  | None => respond 404 (JsonMessage "Not found")
  | Some item => respond 200 (JsonItem (Some item))
  end.

(** [POST /api/products] (the route runs [requireAdmin] first).  The
    answer is [None] when the [uniqueSlug] loop is cut short by [fuel];
    nothing has been written then. *)
Definition createProduct (fuel : nat) (req : Request RawUpdateProduct)
    : M (option Response) :=
  do env <- get_env;
  do data <- parse (createSchema env) (createSchema_issues env)
               (req_body req);
  (* base for the slug: explicit or from the title *)
  let baseForSlug :=
    match truthy (c_slug data) with
    | Some s => toSlug env s
    | None => c_title data
    end in
  do finalSlug <- uniqueSlug fuel baseForSlug None;
  match finalSlug with
  | None => ret None
  | Some finalSlug =>
      do refs <-
        try_catch
          (do r <- resolveCategoryRefs (c_categorySlug data)
                     (c_subcategorySlug data);
           ret (inr r))
          (fun e =>
             do res <- respond 400 (JsonMessage (err_message e));
             ret (inl res));
      match refs with
      | inl res => ret (Some res)
      | inr (categoryId, subcategoryId) =>
          do item <- Product_create
              {| p_title := c_title data;
                 p_slug := finalSlug;
                 p_description := c_description data;
                 p_price := c_price data;
                 p_stock := default 0 (c_stock data);
                 p_images := default [] (c_images data);
                 p_category := categoryId;
                 p_subcategory := subcategoryId;
                 p_isActive := true |};
          do res <- respond 201 (JsonItem (Some item));
          ret (Some res)
      end
  end.

Definition set_isActive (b : bool) (p : Product) : Product :=
  {| p_title := p_title p; p_slug := p_slug p;
     p_description := p_description p; p_price := p_price p;
     p_stock := p_stock p; p_images := p_images p;
     p_category := p_category p; p_subcategory := p_subcategory p;
     p_isActive := b |}.

(** [Product.findOneAndUpdate(q, update, { new: true })] for a query [q]
    given as a predicate and an update given as a function: the updated
    document, or [null] when none matches. *)
Definition Product_findOneAndUpdate (q : ObjectId -> Product -> bool)
    (update : Product -> Product) : M (option (ObjectId * Product)) :=
  fun _ w =>
    match List.find (fun kv => q (fst kv) (snd kv))
            (map_to_list (products (view false w))) with
    | Some (id, p) =>
        (Normal (Some (id, update p)),
         write false (set_products <[id := update p]>) w)
    | None => (Normal None, w)
    end.

(** [DELETE /api/products/:slug] (the route runs [requireAdmin] first). *)
Definition deleteProduct {B} (req : Request B) : M Response :=
  do item <- Product_findOneAndUpdate
               (fun _ p => String.eqb (p_slug p) (req_params_slug req))
               (set_isActive false);
  match item with
  | None => respond 404 (JsonMessage "Not found")
  | Some _ => respond 200 JsonOk
  end.

(** ** auth.js *)

(** [requireAuth]: [authorization] is the request's header of that name,
    [verify] stands for [jwt.verify(token, env.JWT_SECRET)], which gives
    the payload of a token it accepts and throws otherwise, [reply] sends
    [res.status(status).json({ message })], and [next] runs the rest of
    the route with [req.user] set to the payload.  The call of [next] is
    inside the [try] block too, but what it runs does not throw into it:
    [requireAdmin] throws nothing and the handlers are [async], so that
    their failures are rejected promises. *)
Definition requireAuth {A} (verify : string -> option User)
    (authorization : option string) (reply : nat -> string -> M A)
    (next : User -> M A) : M A :=
  let token :=
    match authorization with
    | Some header =>
        if String.prefix "Bearer " header
        then Some (String.substring 7 (String.length header - 7) header)
        else None
    | None => None
    end in
  match truthy token with
  | None => reply 401%nat "Missing token"
  | Some token =>
      match verify token with
      | Some payload => next payload
      | None => reply 401%nat "Invalid token"
      end
  end.

(** A route [requireAuth, handler] and a route [requireAuth, requireAdmin,
    handler] of the order and product routers, for a request with the
    given header, parameters and body. *)
Definition user_route {B} (verify : string -> option User)
    (handler : Request B -> M Response) (authorization : option string)
    (id : ObjectId) (slug : string) (body : Raw B) : M Response :=
  requireAuth verify authorization
    (fun status message => respond status (JsonMessage message))
    (fun payload =>
       handler {| req_user := payload; req_params_id := id;
                  req_params_slug := slug; req_body := body |}).

Definition admin_route {B} (verify : string -> option User)
    (handler : Request B -> M Response) (authorization : option string)
    (id : ObjectId) (slug : string) (body : Raw B) : M Response :=
  user_route verify (fun req => requireAdmin req (handler req))
    authorization id slug body.

(** ** cart.controller.js *)

(** A line of a cart document after [populate('items.product', 'title slug
    price stock')]: the stored reference, the product document it stands
    for ([null] when there is none) and the quantity. *)
Record CartDocItem := {
  cd_ref : ObjectId;
  cd_product : option Product;
  cd_qty : Z
}.

Definition populate_doc (db : Db) (it : CartItem) : CartDocItem :=
  {| cd_ref := ci_product it;
     cd_product := products db !! ci_product it;
     cd_qty := ci_qty it |}.

(** What [save] stores for a line. *)
Definition depopulate (it : CartDocItem) : CartItem :=
  {| ci_product := cd_ref it; ci_qty := cd_qty it |}.

(** [Cart.findOne({ user }).populate(...)]. *)
Definition Cart_findOne_doc (user : ObjectId)
    : M (option (list CartDocItem)) :=
  fun _ w =>
    let db := view false w in
    (Normal ((fun c => map (populate_doc db) (cart_items c))
               <$> carts db !! user), w).

(** [cart.populate(...)] on a loaded document. *)
Definition Cart_populate (cart : list CartDocItem) : M (list CartDocItem) :=
  fun _ w =>
    (Normal (map (fun it => populate_doc (view false w) (depopulate it)) cart),
     w).

(** The validators of [cartItemSchema]: [required] on [product] (a
    reference whose document is missing has been populated with [null]) and
    [min: 1] on [qty]. *)
Definition cartItemSchema_valid (it : CartDocItem) : bool :=
  bool_decide (is_Some (cd_product it)) && (1 <=? cd_qty it).

(** [cart.save()] of a loaded and changed cart document: mongoose
    validates the document (all of it: [validateModifiedOnly] is not
    set), then stores the references and quantities.  The [updatedAt]
    date, which no handler reads, is not kept. *)
Definition Cart_save_doc (user : ObjectId) (cart : list CartDocItem)
    : M unit :=
  if forallb cartItemSchema_valid cart
  then Cart_save user (map depopulate cart) false
  else throw (new_Error "Cart validation failed").

(** [getOrCreateCart(userId)]. *)
Definition getOrCreateCart (userId : ObjectId) : M (list CartDocItem) :=
  do cart <- Cart_findOne_doc userId;
  match cart with
  | Some cart => ret cart
  | None =>
      do _ <- Cart_save userId [] false;
      Cart_populate []
  end.

(** A line of the cart as the handlers answer it. *)
Record CartLine := {
  cl_slug : string;
  cl_title : string;
  cl_price : num;
  cl_stock : Z;
  cl_qty : Z;
  cl_lineTotal : num
}.

Record Totals := { t_items : list CartLine; t_subtotal : num }.

(** The callback of the [map] of [computeTotals]; reading [i.product.slug]
    fails on a line whose product is [null]. *)
Definition cart_line (i : CartDocItem) : option CartLine :=
  match cd_product i with
  | Some product =>
      Some {| cl_slug := p_slug product;
              cl_title := p_title product;
              cl_price := p_price product;
              cl_stock := p_stock product;
              cl_qty := cd_qty i;
              cl_lineTotal :=
                num_round2
                  (num_mul (p_price product) (num_of_int (cd_qty i))) |}
  | None => None
  end.

(** [computeTotals(cart)]. *)
Definition computeTotals (cart : list CartDocItem) : M Totals :=
  match mapM cart_line cart with
  | Some items =>
      ret {| t_items := items;
             t_subtotal :=
               num_round2
                 (fold_left (fun s i => num_add s (cl_lineTotal i)) items
                    num_zero) |}
  | None => throw (new_Error "Cannot read properties of null (reading 'slug')")
  end.

(** The JSON bodies the cart handlers send. *)
Inductive CartBody :=
| CartJson (items : list CartLine) (subtotal : num)
                                  (* [{ cart: { items }, subtotal }] *)
| CartMessage (message : string)                    (* [{ message }] *)
| CartOk.                                           (* [{ ok: true }] *)

Record CartResponse := { cres_status : nat; cres_body : CartBody }.

Definition cart_respond (status : nat) (body : CartBody) : M CartResponse :=
  ret {| cres_status := status; cres_body := body |}.

Definition respond_totals (status : nat) (totals : Totals)
    : M CartResponse :=
  cart_respond status (CartJson (t_items totals) (t_subtotal totals)).

(** [GET /api/cart]. *)
Definition getCart {B} (req : Request B) : M CartResponse :=
  do cart <- getOrCreateCart (user_id (req_user req));
  do totals <- computeTotals cart;
  respond_totals 200 totals.

Record RawAddItem := {
  raw_productSlug : Raw string;
  raw_qty : Raw Z             (* [Invalid] also for a fractional number *)
}.

Record AddItemBody := { add_productSlug : string; add_qty : Z }.

(** [z.number().int().min(1).max(999)] *)
Definition z_int_min_max (lo hi : Z) (r : Raw Z) : option Z :=
  match r with
  | Value x => if (lo <=? x) && (x <=? hi) then Some x else None
  | _ => None
  end.

(** [addSchema]. *)
Definition addSchema (r : Raw RawAddItem) : option AddItemBody :=
  match r with
  | Value b =>
      productSlug ← z_string_min 1 (raw_productSlug b);
      qty ← z_int_min_max 1 999 (raw_qty b);
      Some {| add_productSlug := productSlug; add_qty := qty |}
  | _ => None
  end.

Definition addSchema_issues (r : Raw RawAddItem) : list (list string) :=
  match r with
  | Value b =>
      issue ["productSlug"] (z_string_min 1 (raw_productSlug b))
      ++ issue ["qty"] (z_int_min_max 1 999 (raw_qty b))
  | _ => [[]]
  end.

(** [cart.items.findIndex((i) => String(i.product._id) ===
    String(product._id))], from index [n] on: the callback runs on the
    lines up to the first match, and fails on a line whose product is
    [null]. *)
Fixpoint findIndex (product : ObjectId) (items : list CartDocItem) (n : nat)
    : M (option nat) :=
  match items with
  | [] => ret None
  | i :: rest =>
      match cd_product i with
      | None =>
          throw (new_Error "Cannot read properties of null (reading '_id')")
      | Some _ =>
          if bool_decide (cd_ref i = product) then ret (Some n)
          else findIndex product rest (S n)
      end
  end.

Definition set_qty (qty : Z) (i : CartDocItem) : CartDocItem :=
  {| cd_ref := cd_ref i; cd_product := cd_product i; cd_qty := qty |}.

(** What the handlers do once the cart document is changed: save,
    populate, answer the totals. *)
Definition save_and_answer (user : ObjectId) (status : nat)
    (cart : list CartDocItem) : M CartResponse :=
  do _ <- Cart_save_doc user cart;
  do cart <- Cart_populate cart;
  do totals <- computeTotals cart;
  respond_totals status totals.

(** [POST /api/cart/items].  ([newQty] is the plain sum, which is what
    binary64 computes below [2^53]; a line grows by at most 999 a
    request.) *)
Definition addItem (req : Request RawAddItem) : M CartResponse :=
  do data <- parse addSchema addSchema_issues (req_body req);
  let qty := add_qty data in
  do product <- Product_findOne (fun _ p =>
                  String.eqb (p_slug p) (add_productSlug data)
                  && p_isActive p);
  match product with
  | None => cart_respond 404 (CartMessage "Product not found")
  | Some (product_id, product) =>
      if p_stock product <? 1
      then cart_respond 400 (CartMessage "Out of stock")
      else
        do cart <- getOrCreateCart (user_id (req_user req));
        do idx <- findIndex product_id cart 0;
        match idx with
        | Some idx =>
            match cart !! idx with
            | Some i =>
                let newQty := cd_qty i + qty in
                if p_stock product <? newQty
                then cart_respond 400 (CartMessage "Exceeds available stock")
                else
                  save_and_answer (user_id (req_user req)) 201
                    (<[idx := set_qty newQty i]> cart)
            | None =>
                throw (new_Error
                  "Cannot read properties of undefined (reading 'qty')")
            end
        | None =>
            if p_stock product <? qty
            then cart_respond 400 (CartMessage "Exceeds available stock")
            else
              save_and_answer (user_id (req_user req)) 201
                (cart ++ [{| cd_ref := product_id;
                             cd_product := Some product;
                             cd_qty := qty |}])
        end
  end.

Record RawUpdateItem := {
  raw_item_qty : Raw Z        (* [Invalid] also for a fractional number *)
}.

(** [updateSchema] of the cart controller. *)
Definition updateItemSchema (r : Raw RawUpdateItem) : option Z :=
  match r with
  | Value b => z_int_min_max 1 999 (raw_item_qty b)
  | _ => None
  end.

Definition updateItemSchema_issues (r : Raw RawUpdateItem)
    : list (list string) :=
  match r with
  | Value b => issue ["qty"] (z_int_min_max 1 999 (raw_item_qty b))
  | _ => [[]]
  end.

(** [PATCH /api/cart/items/:productSlug]. *)
Definition updateItem (req : Request RawUpdateItem) : M CartResponse :=
  do qty <- parse updateItemSchema updateItemSchema_issues (req_body req);
  do product <- Product_findOne (fun _ p =>
                  String.eqb (p_slug p) (req_params_slug req)
                  && p_isActive p);
  match product with
  | None => cart_respond 404 (CartMessage "Product not found")
  | Some (product_id, product) =>
      if p_stock product <? qty
      then cart_respond 400 (CartMessage "Exceeds available stock")
      else
        do cart <- getOrCreateCart (user_id (req_user req));
        do idx <- findIndex product_id cart 0;
        match idx with
        | None => cart_respond 404 (CartMessage "Item not in cart")
        | Some idx =>
            match cart !! idx with
            | Some i =>
                save_and_answer (user_id (req_user req)) 200
                  (<[idx := set_qty qty i]> cart)
            | None =>
                throw (new_Error
                  "Cannot set properties of undefined (setting 'qty')")
            end
        end
  end.

(** [cart.items.filter((i) => String(i.product._id) !==
    String(product._id))]: the callback runs on every line, and fails on a
    line whose product is [null]. *)
Fixpoint filter_out (product : ObjectId) (items : list CartDocItem)
    : M (list CartDocItem) :=
  match items with
  | [] => ret []
  | i :: rest =>
      match cd_product i with
      | None =>
          throw (new_Error "Cannot read properties of null (reading '_id')")
      | Some _ =>
          do rest <- filter_out product rest;
          if bool_decide (cd_ref i = product) then ret rest
          else ret (i :: rest)
      end
  end.

(** [DELETE /api/cart/items/:productSlug]. *)
Definition removeItem {B} (req : Request B) : M CartResponse :=
  do product <- Product_findOne (fun _ p =>
                  String.eqb (p_slug p) (req_params_slug req));
  match product with
  | None => cart_respond 404 (CartMessage "Product not found")
  | Some (product_id, _) =>
      do cart <- getOrCreateCart (user_id (req_user req));
      let before := length cart in
      do cart <- filter_out product_id cart;
      if (length cart =? before)%nat
      then cart_respond 404 (CartMessage "Item not in cart")
      else save_and_answer (user_id (req_user req)) 200 cart
  end.

(** [DELETE /api/cart]. *)
Definition clearCart {B} (req : Request B) : M CartResponse :=
  do _ <- getOrCreateCart (user_id (req_user req));
  do _ <- Cart_save_doc (user_id (req_user req)) [];
  cart_respond 200 CartOk.

(** ** Vocabulary of the properties *)

(** The world of a request whose transaction is open: [db] is committed,
    [tx] is the session's working copy. *)
Definition open_tx (db tx : Db) : World :=
  {| committed := db; session := Some tx |}.

(** The world of a request with no transaction open. *)
Definition idle (db : Db) : World := {| committed := db; session := None |}.

(** The quantity of product [pid] a populated cart asks for. *)
Fixpoint ordered (pid : ObjectId) (items : list PopulatedItem) : Z :=
  match items with
  | [] => 0
  | it :: rest =>
      match it_product it with
      | Some (id, _) =>
          if decide (id = pid) then it_qty it + ordered pid rest
          else ordered pid rest
      | None => ordered pid rest
      end
  end.

(** The quantity of product [pid] recorded in a line-item snapshot. *)
Fixpoint recorded (pid : ObjectId) (items : list OrderItem) : Z :=
  match items with
  | [] => 0
  | it :: rest =>
      if decide (oi_product it = pid) then oi_qty it + recorded pid rest
      else recorded pid rest
  end.

(** The stock of product [pid], from [s], after the [$inc]s of the checkout
    of a populated cart, one line after the other. *)
Fixpoint decremented (pid : ObjectId) (items : list PopulatedItem) (s : Z)
    : Z :=
  match items with
  | [] => s
  | it :: rest =>
      match it_product it with
      | Some (id, _) =>
          if decide (id = pid)
          then decremented pid rest (add64 s (- it_qty it))
          else decremented pid rest s
      | None => decremented pid rest s
      end
  end.

(** The stock of product [pid], from [s], after the [$inc]s of the
    cancellation of an order with the snapshot [items]. *)
Fixpoint restored (pid : ObjectId) (items : list OrderItem) (s : Z) : Z :=
  match items with
  | [] => s
  | it :: rest =>
      if decide (oi_product it = pid)
      then restored pid rest (add64 s (oi_qty it))
      else restored pid rest s
  end.

(** Two databases that differ at most in their products. *)
Definition same_but_products (db db' : Db) : Prop :=
  categories db' = categories db /\ carts db' = carts db
  /\ orders db' = orders db.

(** One checkout attempt: who checks out, with which parsed body, in which
    surroundings, and the cart as the request read it (possibly before
    other requests committed). *)
Record Attempt := {
  a_env : Env;
  a_user : ObjectId;
  a_body : CreateOrderBody;
  a_cart : option (list PopulatedItem)
}.

Definition checkout (a : Attempt) (db : Db) : Completion Response * Db :=
  run (createOrder_from (a_user a) (a_body a) (a_cart a)) (a_env a) db.

(** An answer with status 201. *)
Definition is_201 (r : Completion Response) : bool :=
  match r with
  | Normal res => (res_status res =? 201)%nat
  | Throw _ => false
  end.

(** A sequence of checkout attempts, each transaction running after the
    previous one; the result is the final database and, for product
    [pid], the sum of the quantities decremented by the attempts that
    succeeded. *)
Fixpoint checkouts (pid : ObjectId) (l : list Attempt) (db : Db) : Db * Z :=
  match l with
  | [] => (db, 0)
  | a :: l =>
      let '(r, db1) := checkout a db in
      let '(db2, sold) := checkouts pid l db1 in
      (db2,
       if is_201 r then ordered pid (default [] (a_cart a)) + sold else sold)
  end.

(** A cart line the first loop of [createOrder] rejects as unavailable,
    and one it rejects for its quantity. *)
Definition unavailable (it : PopulatedItem) : bool :=
  match it_product it with
  | Some (_, p) => negb (p_isActive p)
  | None => true
  end.

Definition insufficient (it : PopulatedItem) : bool :=
  match it_product it with
  | Some (_, p) => p_stock p <? it_qty it
  | None => false
  end.

Definition acceptable (it : PopulatedItem) : bool :=
  negb (unavailable it) && negb (insufficient it).

(** The snapshot line of a cart line: the product's current title, slug
    and price, the quantity, and the rounded line total. *)
Definition line (it : PopulatedItem) (oi : OrderItem) : Prop :=
  exists id p,
    it_product it = Some (id, p)
    /\ oi = {| oi_product := id; oi_title := p_title p;
               oi_slug := p_slug p; oi_price := p_price p;
               oi_qty := it_qty it;
               oi_lineTotal :=
                 num_round2 (num_mul (p_price p) (num_of_int (it_qty it))) |}.

(** The order document [createOrder] hands to [Order.create]. *)
Definition order_doc (user : ObjectId) (body : CreateOrderBody)
    (itemsSnapshot : list OrderItem) (subtotal shippingFee tax grandTotal : num)
    : Order :=
  {| o_user := user; o_items := itemsSnapshot; o_subtotal := subtotal;
     o_shippingFee := shippingFee; o_tax := tax; o_grandTotal := grandTotal;
     o_shippingAddress := shippingAddress body;
     o_paymentMethod := default "cod" (paymentMethod body);
     o_paymentStatus := Unpaid; o_status := Pending;
     o_cancelled := false; o_cancelledAt := None |}.

(** The three effects of a checkout of the populated cart [items] of
    [user], from [db] to [db']: the stock of every product has gone
    through the [$inc] of every line that asks for it, the order is
    persisted under a new [_id], and the cart is emptied. *)
Definition checkout_effects (user : ObjectId) (items : list PopulatedItem)
    (order : ObjectId * Order) (db db' : Db) : Prop :=
  (forall pid,
     products db' !! pid =
     (fun p => set_stock (decremented pid items (p_stock p)) p)
       <$> products db !! pid)
  /\ orders db !! order.1 = None
  /\ orders db' = <[order.1 := order.2]> (orders db)
  /\ carts db' = <[user := {| cart_items := [] |}]> (carts db)
  /\ categories db' = categories db.

(** What the [$inc]s of a checkout do to the stock [s] of product [pid]: a
    stock that is not negative stays so, and from a stock of at most [2^53]
    they take exactly what the cart asks for, which a stock that is not
    negative covers. *)
Definition decrement_ok (pid : ObjectId) (items : list PopulatedItem)
    (s : Z) : Prop :=
  (0 <= s -> 0 <= decremented pid items s)
  /\ (s <= 2 ^ 53 ->
      decremented pid items s = s - ordered pid items
      /\ 0 <= ordered pid items
      /\ (0 <= s -> ordered pid items <= s)).

(** The arguments [createOrder] computes for its [try] block from the
    result [(sub, snap)] of the first loop, and the order document it
    builds from them. *)
Definition checkout_try (env : Env) (user : ObjectId)
    (body : CreateOrderBody) (items : list PopulatedItem) (sub : num)
    (snap : list OrderItem) (db : Db) : Completion Response * World :=
  createOrder_try user body items snap (num_round2 sub)
    (calcShipping (num_round2 sub)) (calcTax (num_round2 sub))
    (num_round2
       (num_add (num_add (num_round2 sub) (calcShipping (num_round2 sub)))
          (calcTax (num_round2 sub))))
    env (open_tx db db).

Definition checkout_order (user : ObjectId) (body : CreateOrderBody)
    (sub : num) (snap : list OrderItem) : Order :=
  order_doc user body snap (num_round2 sub)
    (calcShipping (num_round2 sub)) (calcTax (num_round2 sub))
    (num_round2
       (num_add (num_add (num_round2 sub) (calcShipping (num_round2 sub)))
          (calcTax (num_round2 sub)))).

(** A cart line that passes the checks of [createOrder] and the validators
    of [orderSchema]: its product exists, is active and has a title and a
    slug, and its quantity is at least one and within the stock. *)
Definition purchasable (db : Db) (ci : CartItem) : Prop :=
  exists p,
    products db !! ci_product ci = Some p
    /\ p_isActive p = true /\ p_title p <> "" /\ p_slug p <> ""
    /\ 1 <= ci_qty ci <= p_stock p.

(** The cart of [user] as [createOrder] reads it from [db]. *)
Definition cart_of (db : Db) (user : ObjectId)
    : option (list PopulatedItem) :=
  (fun c => map (populate db) (cart_items c)) <$> carts db !! user.

(** The database calls of the transaction of a checkout of [n] lines. *)
Definition checkout_step (n : nat) (op : DbOp) : Prop :=
  (exists k, (k < n)%nat /\ op = OpUpdateStock k)
  \/ op = OpOrderCreate \/ op = OpCartSave \/ op = OpCommit.

(** A computation that, run with no transaction open, ends with none open
    and has changed at most the products. *)
Definition only_products {A} (m : M A) : Prop :=
  forall env db,
    exists r db', m env (idle db) = (r, idle db') /\ same_but_products db db'.

(** ** Vocabulary of the further properties *)

(** Two databases that differ at most in the cart of [user]. *)
Definition same_but_cart (user : ObjectId) (db db' : Db) : Prop :=
  products db' = products db /\ categories db' = categories db
  /\ orders db' = orders db
  /\ forall u, u <> user -> carts db' !! u = carts db !! u.

(** A computation that, run with no transaction open, ends with none open
    and has changed at most the cart of [user]. *)
Definition only_cart (user : ObjectId) {A} (m : M A) : Prop :=
  forall env db,
    exists r db', m env (idle db) = (r, idle db') /\ same_but_cart user db db'.

(** No two products have the same slug. *)
Definition unique_slugs (db : Db) : Prop :=
  forall i j p q,
    products db !! i = Some p -> products db !! j = Some q ->
    p_slug p = p_slug q -> i = j.

(** The stored lines of the cart of [user]; none when there is no cart. *)
Definition cart_lines (db : Db) (user : ObjectId) : list CartItem :=
  default [] (cart_items <$> carts db !! user).

(** The quantity of product [pid] in a list of cart lines. *)
Fixpoint qty_of (pid : ObjectId) (items : list CartItem) : Z :=
  match items with
  | [] => 0
  | it :: rest =>
      if decide (ci_product it = pid) then ci_qty it + qty_of pid rest
      else qty_of pid rest
  end.

(** Well-formed cart lines: one line per product, each for a product that
    exists and with a quantity of at least 1. *)
Definition cart_wf (db : Db) (items : list CartItem) : Prop :=
  NoDup (map ci_product items)
  /\ Forall (fun it => 1 <= ci_qty it
                       /\ is_Some (products db !! ci_product it)) items.

Definition carts_wf (db : Db) : Prop :=
  forall user, cart_wf db (cart_lines db user).

(** The requests of the cart router ([cart.route.js]) and the handler each
    one reaches, once [requireAuth] has set [req.user]. *)
Inductive CartRequest :=
| GetCart
| AddItem (body : Raw RawAddItem)
| UpdateItem (productSlug : string) (body : Raw RawUpdateItem)
| RemoveItem (productSlug : string)
| ClearCart.

Definition cart_router (user : User) (r : CartRequest) : M CartResponse :=
  let req {B} (slug : string) (body : Raw B) : Request B :=
    {| req_user := user;
       req_params_id := 1%positive;    (* these routes have no [:id] *)
       req_params_slug := slug; req_body := body |} in
  match r with
  | GetCart => getCart (req "" (@Undefined unit))
  | AddItem body => addItem (req "" body)
  | UpdateItem productSlug body => updateItem (req productSlug body)
  | RemoveItem productSlug => removeItem (req productSlug (@Undefined unit))
  | ClearCart => clearCart (req "" (@Undefined unit))
  end.

(** A slug that a product other than [excludeId] has. *)
Definition taken (db : Db) (excludeId : option ObjectId) (slug : string)
    : Prop :=
  exists id p,
    products db !! id = Some p /\ p_slug p = slug /\ excludeId <> Some id.

(** A computation that, run with no transaction open, writes nothing. *)
Definition reads {A} (m : M A) : Prop :=
  forall env db, exists r, m env (idle db) = (r, idle db).

(** The database once [getOrCreateCart] has made sure [user] has a
    cart, and the database in which the cart of [user] holds [items]. *)
Definition set_cart (user : ObjectId) (items : list CartItem) (db : Db)
    : Db :=
  set_carts <[user := {| cart_items := items |}]> db.

Definition ensure_cart (user : ObjectId) (db : Db) : Db :=
  match carts db !! user with
  | Some _ => db
  | None => set_cart user [] db
  end.

(** The subtotal [computeTotals] gives for the lines it answers. *)
Definition subtotal_of (lines : list CartLine) : num :=
  num_round2
    (fold_left (fun s i => num_add s (cl_lineTotal i)) lines num_zero).

(** A loaded cart line that shows the product the database has for its
    reference. *)
Definition populated_from (db : Db) (i : CartDocItem) : Prop :=
  cd_product i = products db !! cd_ref i.

(** A cart handler whose answers of the form [{ cart: { items },
    subtotal }] are what [getCart] answers to [user] afterwards. *)
Definition shown_by_getCart (user : ObjectId) (m : M CartResponse) : Prop :=
  forall env db res db' lines subtotal,
    m env (idle db) = (Normal res, idle db') ->
    cres_body res = CartJson lines subtotal ->
    forall env',
      getCart {| req_user := {| user_id := user; user_role := "user" |};
                 req_params_id := 1%positive; req_params_slug := "";
                 req_body := @Undefined unit |} env' (idle db')
      = (Normal {| cres_status := 200;
                   cres_body := CartJson lines subtotal |}, idle db').

(** The requests of the API that the handlers modelled here serve, once
    the middlewares of their route have let them through, and the
    database each one leaves. *)
Inductive ApiRequest :=
| CartReq (user : User) (r : CartRequest)
| CreateOrderReq (req : Request RawCreateOrder)
| GetOrderReq (req : Request unit)
| CancelOrderReq (req : Request unit)
| UpdateStatusReq (req : Request RawUpdateStatus)
| GetProductReq (req : Request unit)
| CreateProductReq (fuel : nat) (req : Request RawUpdateProduct)
| UpdateProductReq (fuel : nat) (req : Request RawUpdateProduct)
| DeleteProductReq (req : Request unit).

Definition api (env : Env) (r : ApiRequest) (db : Db) : Db :=
  match r with
  | CartReq user r => (run (cart_router user r) env db).2
  | CreateOrderReq req => (run (createOrder req) env db).2
  | GetOrderReq req => (run (getOrder req) env db).2
  | CancelOrderReq req => (run (cancelMyOrder req) env db).2
  | UpdateStatusReq req => (run (updateOrderStatus req) env db).2
  | GetProductReq req => (run (getProduct req) env db).2
  | CreateProductReq fuel req => (run (createProduct fuel req) env db).2
  | UpdateProductReq fuel req => (run (updateProduct fuel req) env db).2
  | DeleteProductReq req => (run (deleteProduct req) env db).2
  end.

(** Requests served one after the other, each in its own surroundings. *)
Definition serve (l : list (Env * ApiRequest)) (db : Db) : Db :=
  fold_left (fun db er => api er.1 er.2 db) l db.

(** Every product of [db] is a product of [db'], with the same slug. *)
Definition same_slugs (db db' : Db) : Prop :=
  dom (products db') = dom (products db)
  /\ forall id p p',
       products db !! id = Some p -> products db' !! id = Some p' ->
       p_slug p' = p_slug p.

(** Two stored versions of an order with the same buyer, snapshot and
    totals. *)
Definition same_snapshot (o o' : Order) : Prop :=
  o_user o' = o_user o /\ o_items o' = o_items o
  /\ o_subtotal o' = o_subtotal o /\ o_shippingFee o' = o_shippingFee o
  /\ o_tax o' = o_tax o /\ o_grandTotal o' = o_grandTotal o.

(** No stock is negative, and every line of every order is for at least
    one unit. *)
Definition stock_ok (db : Db) : Prop :=
  (forall id p, products db !! id = Some p -> 0 <= p_stock p)
  /\ forall id o, orders db !! id = Some o ->
                  Forall (fun it => 1 <= oi_qty it) (o_items o).

End Backend.

(** ** The data of the specification's scenarios *)

(** No injected failure; zod's message lists the paths of the issues. *)
Definition env0 : Env :=
  {| now := 1762041600000;
     NODE_ENV := "production";
     faults := fun _ => None;
     zod_message :=
       fun issues => String.concat "; " (map (String.concat ".") issues);
     is_url := String.prefix "http";
     slugify := fun s => s |}.

(** The driver fails when the order is inserted. *)
Definition env_fault : Env :=
  {| now := now env0;
     NODE_ENV := NODE_ENV env0;
     faults := fun op =>
       match op with
       | OpOrderCreate => Some "connection lost"
       | _ => None
       end;
     zod_message := zod_message env0;
     is_url := is_url env0;
     slugify := slugify env0 |}.

(** Product A: price 10.00, stock 5.  Product B: price 19.99, stock 1. *)
Definition productA : @Product PrimFloat.float :=
  {| p_title := "Product A"; p_slug := "product-a"; p_description := None;
     p_price := Float64.cents 1000; p_stock := 5; p_images := [];
     p_category := None; p_subcategory := None; p_isActive := true |}.

Definition productB : @Product PrimFloat.float :=
  {| p_title := "Product B"; p_slug := "product-b"; p_description := None;
     p_price := Float64.cents 1999; p_stock := 1; p_images := [];
     p_category := None; p_subcategory := None; p_isActive := true |}.

Definition alice : User := {| user_id := 7; user_role := "user" |}.
Definition bob : User := {| user_id := 8; user_role := "user" |}.
Definition root : User := {| user_id := 9; user_role := "admin" |}.

(** Alice's cart holds two A, Bob's two B. *)
Definition db0 : @Db PrimFloat.float :=
  {| products := {[ 1%positive := productA; 2%positive := productB ]};
     categories := ∅;
     carts :=
       {[ 7%positive :=
            {| cart_items := [{| ci_product := 1; ci_qty := 2 |}] |};
          8%positive :=
            {| cart_items := [{| ci_product := 2; ci_qty := 2 |}] |} ]};
     orders := ∅ |}.

Definition no_body : RawCreateOrder :=
  {| raw_shippingAddress := Undefined; raw_paymentMethod := Undefined |}.

Definition checkout_of (user : User) (body : Raw RawCreateOrder)
    : Request RawCreateOrder :=
  {| req_user := user; req_params_id := 1; req_params_slug := "";
     req_body := body |}.

(** The order Alice's checkout creates, and the database after it. *)
Definition orderA : @Order PrimFloat.float :=
  {| o_user := 7;
     o_items :=
       [{| oi_product := 1; oi_title := "Product A"; oi_slug := "product-a";
           oi_price := Float64.cents 1000; oi_qty := 2;
           oi_lineTotal := Float64.cents 2000 |}];
     o_subtotal := Float64.cents 2000; o_shippingFee := PrimFloat.zero; o_tax := PrimFloat.zero;
     o_grandTotal := Float64.cents 2000; o_shippingAddress := None;
     o_paymentMethod := "cod"; o_paymentStatus := Unpaid;
     o_status := Pending; o_cancelled := false; o_cancelledAt := None |}.

Definition db1 : @Db PrimFloat.float :=
  {| products :=
       {[ 1%positive := set_stock 3 productA; 2%positive := productB ]};
     categories := ∅;
     carts :=
       {[ 7%positive := {| cart_items := [] |};
          8%positive :=
            {| cart_items := [{| ci_product := 2; ci_qty := 2 |}] |} ]};
     orders := {[ 1%positive := orderA ]} |}.

(** A database in which that order has been paid, and one in which it has
    been delivered and then flagged as cancelled. *)
Definition db_paid : @Db PrimFloat.float :=
  set_orders <[1%positive := set_paymentStatus PaymentPaid orderA]> db1.

Definition db_delivered_cancelled : @Db PrimFloat.float :=
  set_orders
    <[1%positive :=
        set_cancelled true (Some 0) (set_status Delivered orderA)]> db1.

(** A request on order 1. *)
Definition on_order1 {B} (user : User) (body : Raw B) : Request B :=
  {| req_user := user; req_params_id := 1; req_params_slug := "";
     req_body := body |}.

(** The admin raises the price of product A to 12.50. *)
Definition raise_price : Request (@RawUpdateProduct PrimFloat.float) :=
  {| req_user := root; req_params_id := 1; req_params_slug := "product-a";
     req_body :=
       Value {| raw_title := Undefined; raw_slug := Undefined;
                raw_regenerateSlug := Undefined;
                raw_description := Undefined;
                raw_price := Value (Float64.cents 1250); raw_stock := Undefined;
                raw_images := Undefined; raw_isActive := Undefined;
                raw_categorySlug := Undefined;
                raw_subcategorySlug := Undefined |} |}.

(** Two buyers of the last B, who both read their cart while one B was
    left. *)
Definition last_B (user : ObjectId) : @Attempt PrimFloat.float :=
  {| a_env := env0; a_user := user;
     a_body := {| shippingAddress := None; paymentMethod := None |};
     a_cart := Some [{| it_product := Some (2%positive, productB);
                        it_qty := 1 |}] |}.

(** A body whose payment method is not in the enum. *)
Definition bad_body : RawCreateOrder :=
  {| raw_shippingAddress := Undefined; raw_paymentMethod := Value "card" |}.

(** * Properties *)

(** Requests to the cart and product handlers. *)
Definition on_slug {B} (user : User) (slug : string) (body : Raw B)
    : Request B :=
  {| req_user := user; req_params_id := 1; req_params_slug := slug;
     req_body := body |}.

Definition add_body (slug : string) (qty : Z) : Raw RawAddItem :=
  Value {| raw_productSlug := Value slug; raw_qty := Value qty |}.

Definition qty_body (qty : Z) : Raw RawUpdateItem :=
  Value {| raw_item_qty := Value qty |}.

(** The line of Alice's cart in [db0] as [getCart] shows it. *)
Definition lineA (qty : Z) (cents : Z) : @CartLine PrimFloat.float :=
  {| cl_slug := "product-a"; cl_title := "Product A";
     cl_price := Float64.cents 1000; cl_stock := 5; cl_qty := qty;
     cl_lineTotal := Float64.cents cents |}.

(** The admin creates a second product under the title of product A's
    slug. *)
Definition new_product : Request (@RawUpdateProduct PrimFloat.float) :=
  {| req_user := root; req_params_id := 1; req_params_slug := "";
     req_body :=
       Value {| raw_title := Value "product-a"; raw_slug := Undefined;
                raw_regenerateSlug := Undefined;
                raw_description := Undefined;
                raw_price := Value (Float64.cents 500);
                raw_stock := Undefined; raw_images := Undefined;
                raw_isActive := Undefined; raw_categorySlug := Undefined;
                raw_subcategorySlug := Undefined |} |}.

(** The admin marks order 1 as paid. *)
Definition mark_paid : Request RawUpdateStatus :=
  on_order1 root
    (Value {| raw_status := Undefined; raw_paymentStatus := Value "paid" |}).

(** The admin sets the stock of product A. *)
Definition restock (stock : Z) : Request (@RawUpdateProduct PrimFloat.float) :=
  {| req_user := root; req_params_id := 1; req_params_slug := "product-a";
     req_body :=
       Value {| raw_title := Undefined; raw_slug := Undefined;
                raw_regenerateSlug := Undefined;
                raw_description := Undefined;
                raw_price := Undefined; raw_stock := Value stock;
                raw_images := Undefined; raw_isActive := Undefined;
                raw_categorySlug := Undefined;
                raw_subcategorySlug := Undefined |} |}.

(** [db0] once the admin has set the stock of product A to [2^54] and
    Alice has lowered her line to one unit: between [2^53] and [2^54]
    binary64 has the even integers only, and [2^54 - 1] rounds to
    [2^54]. *)
Definition db_big : @Db PrimFloat.float :=
  {| products :=
       {[ 1%positive := set_stock (2 ^ 54) productA; 2%positive := productB ]};
     categories := ∅;
     carts :=
       {[ 7%positive :=
            {| cart_items := [{| ci_product := 1; ci_qty := 1 |}] |};
          8%positive :=
            {| cart_items := [{| ci_product := 2; ci_qty := 2 |}] |} ]};
     orders := ∅ |}.

(** [db1], with Alice's order of two A, once the admin has set the stock
    of product A to [2^54]: from [2^54] on binary64 has the multiples of
    four only, and [2^54 + 2] rounds to [2^54]. *)
Definition db1_big : @Db PrimFloat.float :=
  set_products <[1%positive := set_stock (2 ^ 54) productA]> db1.

(** A buyer of [qty] units of product A who read their cart while the
    stock was [2^54]. *)
Definition buy_A (qty : Z) : @Attempt PrimFloat.float :=
  {| a_env := env0; a_user := 7;
     a_body := {| shippingAddress := None; paymentMethod := None |};
     a_cart := Some [{| it_product :=
                          Some (1%positive, set_stock (2 ^ 54) productA);
                        it_qty := qty |}] |}.

(** A verifier of tokens that knows two of them. *)
Definition verify0 (token : string) : option User :=
  if String.eqb token "token-of-alice" then Some alice
  else if String.eqb token "token-of-root" then Some root
  else None.

Section Properties.

Context {num : Type} {Num : Number num}.

Lemma set_stock_same (p : @Product num) : set_stock (p_stock p) p = p.
Proof. by destruct p. Qed.

(** *** Sums of integral numbers *)

(** Up to [2^53] in magnitude every integer is a binary64 value. *)
Lemma binary64_int_exact (z : Z) : Z.abs z <= 2 ^ 53 -> binary64_int z = z.
Proof.
  intros Hz. unfold binary64_int.
  by destruct (Z.leb_spec (Z.abs z) (2 ^ 53)); [|lia].
Qed.

(** Rounding keeps the sign. *)
Lemma binary64_int_nonneg (z : Z) : 0 <= z -> 0 <= binary64_int z.
Proof.
  intros Hz. unfold binary64_int.
  destruct (Z.abs z <=? 2 ^ 53); [done|]. cbv zeta.
  set (e := Z.log2 (Z.abs z) - 52).
  assert (0 <= Z.abs z / 2 ^ e)
    by (apply Z_div_nonneg_nonneg; [lia|apply Z.pow_nonneg; lia]).
  assert (0 <= 2 ^ e) by (apply Z.pow_nonneg; lia).
  assert (0 <= Z.sgn z) by (by apply Z.sgn_nonneg).
  destruct (_ || _); apply Z.mul_nonneg_nonneg; try done;
    apply Z.mul_nonneg_nonneg; lia.
Qed.

(** An integer with a significand of 53 bits is a binary64 value. *)
Lemma binary64_int_fixed (m e : Z) :
  2 ^ 52 <= m <= 2 ^ 53 -> 0 <= e -> binary64_int (m * 2 ^ e) = m * 2 ^ e.
Proof.
  intros Hm He. unfold binary64_int.
  assert (H2e : 0 < 2 ^ e) by (apply Z.pow_pos_nonneg; lia).
  assert (Hpos : 0 < m * 2 ^ e) by nia.
  rewrite (Z.abs_eq (m * 2 ^ e)) by lia.
  destruct (Z.leb_spec (m * 2 ^ e) (2 ^ 53)) as [|Hbig]; [done|].
  cbv zeta.
  destruct (Z.eq_dec m (2 ^ 53)) as [->|Hne].
  - assert (Hl : Z.log2 (2 ^ 53 * 2 ^ e) = 53 + e).
    { rewrite <- Z.pow_add_r by lia. apply Z.log2_pow2. lia. }
    rewrite Hl. replace (53 + e - 52) with (e + 1) by lia.
    replace (2 ^ 53 * 2 ^ e) with (2 ^ 52 * 2 ^ (e + 1))
      by (rewrite Z.pow_add_r by lia; change (2 ^ 53) with (2 ^ 52 * 2);
          change (2 ^ 1) with 2; ring).
    rewrite Z.div_mul, Z.mod_mul by (apply Z.pow_nonzero; lia).
    assert (0 < 2 ^ (e + 1 - 1)) by (apply Z.pow_pos_nonneg; lia).
    assert ((2 ^ (e + 1 - 1) <? 0) = false) as -> by (apply Z.ltb_ge; lia).
    assert ((2 ^ (e + 1 - 1) =? 0) = false) as -> by (apply Z.eqb_neq; lia).
    simpl orb. cbv iota.
    rewrite Z.sgn_pos; [lia|]. apply Z.mul_pos_pos; [lia|].
    apply Z.pow_pos_nonneg; lia.
  - assert (Hl : Z.log2 (m * 2 ^ e) = 52 + e).
    { rewrite Z.log2_mul_pow2 by lia.
      assert (Z.log2 m = 52); [|lia].
      apply Z.log2_unique; [lia|]. change (2 ^ (52 + 1)) with (2 ^ 53). lia. }
    rewrite Hl. replace (52 + e - 52) with e by lia.
    rewrite Z.div_mul, Z.mod_mul by lia.
    assert (0 < e)
      by (destruct (Z.eq_dec e 0) as [->|];
            [change (2 ^ 0) with 1 in Hbig; lia|lia]).
    assert (0 < 2 ^ (e - 1)) by (apply Z.pow_pos_nonneg; lia).
    assert ((2 ^ (e - 1) <? 0) = false) as -> by (apply Z.ltb_ge; lia).
    assert ((2 ^ (e - 1) =? 0) = false) as -> by (apply Z.eqb_neq; lia).
    simpl orb. cbv iota. rewrite Z.sgn_pos; lia.
Qed.

(** Rounding is symmetric, and what it gives has a significand of 53
    bits: every sum the store computes is a binary64 value. *)
Lemma binary64_int_opp (z : Z) : binary64_int (- z) = - binary64_int z.
Proof.
  unfold binary64_int. rewrite Z.abs_opp.
  destruct (Z.abs z <=? 2 ^ 53); [done|].
  cbv zeta. rewrite Z.sgn_opp. lia.
Qed.

Lemma binary64_int_form (z : Z) :
  2 ^ 53 < z ->
  exists m e, 2 ^ 52 <= m <= 2 ^ 53 /\ 0 <= e /\ binary64_int z = m * 2 ^ e.
Proof.
  intros Hbig. unfold binary64_int. rewrite (Z.abs_eq z) by lia.
  destruct (Z.leb_spec z (2 ^ 53)) as [Hle|_]; [lia|].
  cbv zeta. rewrite Z.sgn_pos, Z.mul_1_l by lia.
  assert (Hl : 53 <= Z.log2 z) by (apply Z.log2_le_pow2; lia).
  set (e := Z.log2 z - 52).
  assert (He : 0 < e) by (unfold e; lia).
  assert (H2e : 0 < 2 ^ e) by (apply Z.pow_pos_nonneg; lia).
  pose proof (Z.log2_spec z ltac:(lia)) as [Hlo Hhi].
  replace (Z.log2 z) with (52 + e) in Hlo by (unfold e; lia).
  replace (Z.succ (Z.log2 z)) with (53 + e) in Hhi by (unfold e; lia).
  rewrite Z.pow_add_r in Hlo, Hhi by lia.
  assert (2 ^ 52 <= z / 2 ^ e) by (apply Z.div_le_lower_bound; lia).
  assert (z / 2 ^ e < 2 ^ 53) by (apply Z.div_lt_upper_bound; lia).
  destruct (_ || _); eexists _, e; (split; [|split; [|reflexivity]]); lia.
Qed.

Lemma binary64_int_idem (z : Z) : binary64_int (binary64_int z) = binary64_int z.
Proof.
  assert (Hpos : forall z, 0 <= z ->
            binary64_int (binary64_int z) = binary64_int z).
  { clear z. intros z Hz.
    destruct (Z.le_gt_cases z (2 ^ 53)) as [Hle|Hbig].
    - assert (H : binary64_int z = z); [|by rewrite !H].
      unfold binary64_int. rewrite (Z.abs_eq z) by lia.
      by destruct (Z.leb_spec z (2 ^ 53)); [|lia].
    - destruct (binary64_int_form z Hbig) as (m & e & Hm & He & ->).
      by apply binary64_int_fixed. }
  destruct (Z.le_gt_cases 0 z) as [Hz|Hz]; [by apply Hpos|].
  replace z with (- (- z)) by lia. generalize (- z), (Z.opp_pos_neg z).
  intros y Hy.
  rewrite (binary64_int_opp y), (binary64_int_opp (binary64_int y)).
  f_equal. apply Hpos. lia.
Qed.

Lemma add64_exact (x y : Z) : Z.abs (x + y) <= 2 ^ 53 -> add64 x y = x + y.
Proof. apply binary64_int_exact. Qed.

Lemma add64_nonneg (x y : Z) : 0 <= x + y -> 0 <= add64 x y.
Proof. apply binary64_int_nonneg. Qed.

(** The quantities a cart of non-negative quantities asks for, and those a
    snapshot records. *)
Lemma ordered_nonneg (pid : ObjectId) (items : list (@PopulatedItem num)) :
  Forall (fun it => 0 <= it_qty it) items -> 0 <= ordered pid items.
Proof.
  induction 1 as [|it items Hq _ IH]; simpl; [done|].
  destruct (it_product it) as [[id p]|]; [|done].
  destruct (decide (id = pid)); lia.
Qed.

Lemma recorded_nonneg (pid : ObjectId) (items : list (@OrderItem num)) :
  Forall (fun it => 0 <= oi_qty it) items -> 0 <= recorded pid items.
Proof.
  induction 1 as [|it items Hq _ IH]; simpl; [done|].
  destruct (decide (oi_product it = pid)); lia.
Qed.

(** Restoring non-negative quantities to a non-negative stock is exact as
    long as the result is at most [2^53], and never gives a negative
    stock. *)
Lemma restored_exact (pid : ObjectId) (items : list (@OrderItem num))
    (s : Z) :
  0 <= s -> Forall (fun it => 0 <= oi_qty it) items ->
  s + recorded pid items <= 2 ^ 53 ->
  restored pid items s = s + recorded pid items.
Proof.
  intros Hs Hq. revert s Hs.
  induction Hq as [|it items Hq Hrest IH]; intros s Hs Hle; simpl in *;
    [lia|].
  pose proof (recorded_nonneg pid items Hrest).
  destruct (decide (oi_product it = pid)); [|by apply IH].
  rewrite add64_exact by lia. rewrite IH; lia.
Qed.

Lemma restored_nonneg (pid : ObjectId) (items : list (@OrderItem num))
    (s : Z) :
  0 <= s -> Forall (fun it => 0 <= oi_qty it) items ->
  0 <= restored pid items s.
Proof.
  intros Hs Hq. revert s Hs.
  induction Hq as [|it items Hq Hrest IH]; intros s Hs; simpl; [done|].
  destruct (decide (oi_product it = pid)); [|by apply IH].
  apply IH, add64_nonneg. lia.
Qed.

(** A snapshot without a line for a product leaves its stock alone. *)
Lemma restored_absent (pid : ObjectId) (items : list (@OrderItem num))
    (s : Z) :
  pid ∉ map oi_product items -> restored pid items s = s.
Proof.
  revert s. induction items as [|it items IH]; intros s Hno; simpl; [done|].
  simpl in Hno. apply not_elem_of_cons in Hno as [Hne Hno].
  destruct (decide (oi_product it = pid)); [done|]. by apply IH.
Qed.

(** The conditional decrement inside an open transaction. *)
Lemma Product_updateOne_open (env : Env) (op : DbOp) (id : ObjectId)
    (gte : option Z) (inc : Z) (db tx : @Db num) :
  Product_updateOne op id gte inc true env (open_tx db tx) =
  match faults env op with
  | Some msg => (Throw (new_Error msg), open_tx db tx)
  | None =>
      match products tx !! id with
      | Some p =>
          if match gte with Some q => q <=? p_stock p | None => true end
          then (Normal 1%nat,
                open_tx db
                  (set_products
                     <[id := set_stock (add64 (p_stock p) inc) p]> tx))
          else (Normal 0%nat, open_tx db tx)
      | None => (Normal 0%nat, open_tx db tx)
      end
  end.
Proof.
  unfold Product_updateOne, db_call. destruct (faults env op); [done|].
  simpl. destruct (products tx !! id) as [p|]; [|done].
  by destruct (match gte with Some q => q <=? p_stock p | None => true end).
Qed.

(** Closes the case of a loop that throws in the working copy [tx]. *)
#[local] Ltac stuck tx :=
  eexists _, tx; simpl; unfold throw; repeat split; try done;
  let q := fresh "q" in intros ? q ? ?; by exists q.

(** The decrement loop never leaves the transaction and touches nothing
    but the products of its working copy; no stock that was non-negative
    becomes negative (also when the loop throws half-way); when it
    completes, every stock has gone through the [$inc]s of its lines,
    which, for quantities that are not negative, have taken exactly what
    the cart asks for from every stock of at most [2^53]. *)
Lemma decrement_stock_open (env : Env) (items : list (@PopulatedItem num))
    (i : nat) (db tx : @Db num) :
  exists r tx',
    decrement_stock items i env (open_tx db tx) = (r, open_tx db tx')
    /\ same_but_products tx tx'
    /\ (forall pid p, products tx !! pid = Some p -> 0 <= p_stock p ->
        exists p', products tx' !! pid = Some p' /\ 0 <= p_stock p')
    /\ (r = Normal tt ->
        (forall pid,
           products tx' !! pid =
           (fun p => set_stock (decremented pid items (p_stock p)) p)
             <$> products tx !! pid)
        /\ (forall pid p,
              products tx !! pid = Some p ->
              Forall (fun it => 0 <= it_qty it) items ->
              p_stock p <= 2 ^ 53 ->
              decremented pid items (p_stock p)
              = p_stock p - ordered pid items
              /\ (0 <= p_stock p -> ordered pid items <= p_stock p))
        /\ (forall k, (k < length items)%nat ->
             faults env (OpUpdateStock (i + k)) = None)).
Proof.
  revert i tx. induction items as [|it rest IH]; intros i tx.
  - exists (Normal tt), tx. simpl. repeat split; try done.
    + intros pid p Hp Hs. by exists p.
    + intros pid. destruct (products tx !! pid) as [p|]; simpl; [|done].
      by rewrite set_stock_same.
    + lia.
    + intros k Hk. lia.
  - simpl. destruct (it_product it) as [[id p0]|] eqn:Hit.
    2:{ stuck tx. }
    unfold bind at 1. rewrite Product_updateOne_open.
    destruct (faults env (OpUpdateStock i)) as [msg|] eqn:Hfault;
      [stuck tx|].
    destruct (products tx !! id) as [p|] eqn:Hp; [|stuck tx].
    destruct (it_qty it <=? p_stock p) eqn:Hle; [|stuck tx].
    apply Z.leb_le in Hle. simpl.
    destruct (IH (S i)
      (set_products
         <[id := set_stock (add64 (p_stock p) (- it_qty it)) p]> tx))
      as (r & tx' & Hrun & Hframe & Hpos & Hok).
    exists r, tx'. split; [exact Hrun|]. split; [exact Hframe|]. split.
    + intros pid q Hq Hs. simpl in Hpos.
      destruct (decide (id = pid)) as [->|Hne].
      * apply (Hpos pid (set_stock (add64 (p_stock p) (- it_qty it)) p)).
        -- by rewrite lookup_insert_eq.
        -- simpl. apply add64_nonneg. lia.
      * apply (Hpos pid q); [|done]. by rewrite lookup_insert_ne.
    + intros Hr. destruct (Hok Hr) as (Hstock & Hexact & Hnofault).
      split; [|split].
      * intros pid. rewrite (Hstock pid). simpl.
        destruct (decide (id = pid)) as [->|Hne].
        -- by rewrite lookup_insert_eq, Hp.
        -- by rewrite lookup_insert_ne.
      * intros pid q Hq Hall Hsafe.
        apply Forall_cons in Hall as [Hq0 Hall]. simpl in Hexact.
        destruct (decide (id = pid)) as [->|Hne].
        -- assert (q = p) as -> by congruence.
           assert (Hadd : add64 (p_stock p) (- it_qty it)
                          = p_stock p - it_qty it)
             by (rewrite add64_exact; lia).
           destruct (Hexact pid
                       (set_stock (add64 (p_stock p) (- it_qty it)) p))
             as [Hdec Hle']; [by rewrite lookup_insert_eq|done| |].
           { simpl. lia. }
           simpl in Hdec, Hle'. rewrite Hdec, Hadd. rewrite Hadd in Hle'.
           split; lia.
        -- apply Hexact; [|done..]. by rewrite lookup_insert_ne.
      * intros [|k] Hk.
        -- by rewrite Nat.add_0_r.
        -- replace (i + S k)%nat with (S i + k)%nat by lia.
           apply Hnofault. simpl in Hk. lia.
Qed.

(** *** The first loop of [createOrder] *)

Lemma build_snapshot_inr (items : list (@PopulatedItem num)) (acc : num)
    (snap : list (@OrderItem num)) (sub : num) (out : list (@OrderItem num)) :
  build_snapshot items acc snap = inr (sub, out) ->
  exists lines,
    out = snap ++ lines
    /\ Forall2 line items lines
    /\ sub = fold_left num_add (map oi_lineTotal lines) acc
    /\ Forall (fun it => acceptable it = true) items.
Proof.
  revert acc snap. induction items as [|it rest IH]; intros acc snap Hb.
  - simpl in Hb. injection Hb as <- <-. exists []. rewrite app_nil_r.
    repeat split; constructor.
  - simpl in Hb. unfold acceptable, unavailable, insufficient.
    destruct (it_product it) as [[id p]|] eqn:Hit; [|done].
    destruct (p_isActive p) eqn:Hact; [|done]. simpl in Hb.
    destruct (p_stock p <? it_qty it) eqn:Hlt; [done|].
    apply IH in Hb as (lines & -> & Hl & -> & Hacc).
    eexists (_ :: lines). rewrite <- app_assoc. simpl.
    repeat split; try done.
    + constructor; [|done]. by exists id, p.
    + constructor; [|done]. by rewrite Hit, Hact, Hlt.
Qed.

Lemma build_snapshot_inl (items : list (@PopulatedItem num)) (acc : num)
    (snap : list (@OrderItem num)) (res : @Response num) :
  build_snapshot items acc snap = inl res ->
  exists pre it post,
    items = pre ++ it :: post
    /\ Forall (fun it => acceptable it = true) pre
    /\ ((unavailable it = true
         /\ res = {| res_status := 400;
                     res_body := JsonMessage "Product unavailable in cart" |})
        \/ (exists id p,
              it_product it = Some (id, p) /\ unavailable it = false
              /\ insufficient it = true
              /\ res = {| res_status := 400;
                          res_body :=
                            JsonMessage
                              ("Insufficient stock for " +:+ p_slug p) |})).
Proof.
  revert acc snap. induction items as [|it rest IH]; intros acc snap Hb;
    [done|].
  simpl in Hb.
  destruct (it_product it) as [[id p]|] eqn:Hit.
  2:{ injection Hb as <-. exists [], it, rest. repeat split; [constructor|].
      left. unfold unavailable. by rewrite Hit. }
  destruct (p_isActive p) eqn:Hact; simpl in Hb.
  2:{ injection Hb as <-. exists [], it, rest. repeat split; [constructor|].
      left. unfold unavailable. by rewrite Hit, Hact. }
  destruct (p_stock p <? it_qty it) eqn:Hlt.
  { injection Hb as <-. exists [], it, rest. repeat split; [constructor|].
    right. exists id, p. unfold unavailable, insufficient.
    by rewrite Hit, Hact, Hlt. }
  apply IH in Hb as (pre & it' & post & -> & Hpre & Hres).
  exists (it :: pre), it', post. repeat split; [|done].
  constructor; [|done]. unfold acceptable, unavailable, insufficient.
  by rewrite Hit, Hact, Hlt.
Qed.

(** The first offending line decides the answer. *)
Lemma build_snapshot_first (pre post : list (@PopulatedItem num))
    (it : @PopulatedItem num) (acc : num) (snap : list (@OrderItem num)) :
  Forall (fun it => acceptable it = true) pre ->
  acceptable it = false ->
  build_snapshot (pre ++ it :: post) acc snap =
  inl {| res_status := 400;
         res_body :=
           JsonMessage
             match it_product it with
             | Some (_, p) =>
                 if p_isActive p then "Insufficient stock for " +:+ p_slug p
                 else "Product unavailable in cart"
             | None => "Product unavailable in cart"
             end |}.
Proof.
  intros Hpre Hit. revert acc snap.
  induction Hpre as [|x pre Hx Hpre IH]; intros acc snap; simpl.
  - unfold acceptable, unavailable, insufficient in Hit.
    destruct (it_product it) as [[id p]|]; [|done].
    destruct (p_isActive p); simpl in *; [|done].
    by destruct (p_stock p <? it_qty it).
  - unfold acceptable, unavailable, insufficient in Hx.
    destruct (it_product x) as [[id p]|]; [|done].
    destruct (p_isActive p); simpl in *; [|done].
    destruct (p_stock p <? it_qty x); [done|]. apply IH.
Qed.

(** *** The transaction of [createOrder] *)

(** The [try] block either commits the three effects and answers 201, or
    throws with the committed database untouched. *)
Lemma createOrder_try_open (env : Env) (user : ObjectId)
    (body : CreateOrderBody) (items : list (@PopulatedItem num))
    (snap : list (@OrderItem num)) (sub ship tax grand : num) (db : @Db num) :
  exists r w',
    createOrder_try user body items snap sub ship tax grand env
      (open_tx db db) = (r, w')
    /\ committed w' = (match r with
                       | Normal _ => committed w'
                       | Throw _ => db
                       end)
    /\ (forall res, r = Normal res ->
        let order := (fresh (dom (orders db)),
                      order_doc user body snap sub ship tax grand) in
        res = {| res_status := 201; res_body := JsonOrder order |}
        /\ session w' = None
        /\ checkout_effects user items order db (committed w')
        /\ (forall pid p,
              products db !! pid = Some p ->
              (0 <= p_stock p -> 0 <= decremented pid items (p_stock p))
              /\ (Forall (fun it => 0 <= it_qty it) items ->
                  p_stock p <= 2 ^ 53 ->
                  decremented pid items (p_stock p)
                  = p_stock p - ordered pid items
                  /\ (0 <= p_stock p -> ordered pid items <= p_stock p)))
        /\ forallb orderItemSchema_valid snap = true
        /\ (forall k, (k < length items)%nat ->
             faults env (OpUpdateStock k) = None)
        /\ faults env OpOrderCreate = None
        /\ faults env OpCartSave = None
        /\ faults env OpCommit = None).
Proof.
  unfold createOrder_try.
  destruct (decrement_stock_open env items 0 db db)
    as (r & tx & Hdec & (Hcat & Hcarts & Hord) & Hpos & Hok).
  unfold bind at 1. rewrite Hdec. destruct r as [[]|e].
  2:{ by eexists _, _. }
  destruct (Hok eq_refl) as (Hstock & Hexact & Hnofault). clear Hok.
  unfold bind at 1. unfold Order_create at 1, db_call at 1.
  destruct (faults env OpOrderCreate) eqn:Hf1; [by eexists _, _|].
  simpl. rewrite Hord.
  destruct (forallb orderItemSchema_valid snap) eqn:Hvalid;
    [|by eexists _, _].
  unfold bind at 1. unfold Cart_save at 1, db_call at 1.
  destruct (faults env OpCartSave) eqn:Hf2; [by eexists _, _|].
  simpl. unfold bind at 1. unfold commitTransaction at 1, db_call at 1.
  destruct (faults env OpCommit) eqn:Hf3; [by eexists _, _|].
  simpl. eexists _, _. split; [reflexivity|]. split; [done|].
  intros res [= <-]. simpl. repeat split; try done.
  - simpl. apply not_elem_of_dom, is_fresh.
  - simpl. by rewrite Hord.
  - simpl. by rewrite Hcarts.
  - intros Hs. destruct (Hpos pid p H Hs) as (p' & Hp' & Hs').
    rewrite Hstock, H in Hp'. by injection Hp' as <-.
  - by apply Hexact.
  - by apply Hexact.
Qed.

(** Once the cart has passed the first loop, [createOrder] is its
    transaction: the answer of the [try] block, or 500 with the message of
    what it threw. *)
Lemma createOrder_from_validated (env : Env) (user : ObjectId)
    (body : CreateOrderBody) (items : list (@PopulatedItem num)) (sub : num)
    (snap : list (@OrderItem num)) (db : @Db num) :
  items <> [] ->
  build_snapshot items num_zero [] = inr (sub, snap) ->
  run (createOrder_from user body (Some items)) env db =
  match checkout_try env user body items sub snap db with
  | (Normal res, w') => (Normal res, committed w')
  | (Throw e, w') =>
      (Normal {| res_status := 500;
                 res_body :=
                   JsonMessage
                     (str_or (err_message e) "Order creation failed") |},
       committed w')
  end.
Proof.
  intros Hne Hb. unfold run, createOrder_from.
  destruct items as [|it rest]; [done|]. rewrite Hb.
  unfold bind, startSession, startTransaction, ret, try_catch. simpl.
  fold (open_tx db db). unfold checkout_try.
  by destruct (createOrder_try _ _ _ _ _ _ _ _ env (open_tx db db))
    as [[res|e] w'].
Qed.

(** A cart that is absent or empty, or does not pass the first loop, is
    answered without a transaction. *)
Lemma createOrder_from_rejected (env : Env) (user : ObjectId)
    (body : CreateOrderBody) (cart : option (list (@PopulatedItem num))) (db : @Db num) :
  let res :=
    match cart with
    | None | Some [] =>
        Some {| res_status := 400; res_body := JsonMessage "Cart is empty" |}
    | Some items =>
        match build_snapshot items num_zero [] with
        | inl res => Some res
        | inr _ => None
        end
    end in
  forall r, res = Some r ->
  run (createOrder_from user body cart) env db = (Normal r, db).
Proof.
  intros res r Hres. subst res. unfold run, createOrder_from.
  destruct cart as [[|it rest]|]; try by injection Hres as <-.
  destruct (build_snapshot (it :: rest) num_zero []) as [res|]; [|done].
  by injection Hres as <-.
Qed.

(** The lines of a snapshot that passes the validators of [orderSchema]
    come from cart lines with a quantity of at least one. *)
Lemma valid_snapshot_qty (items : list (@PopulatedItem num))
    (lines : list (@OrderItem num)) :
  Forall2 line items lines ->
  forallb orderItemSchema_valid lines = true ->
  Forall (fun it => 1 <= it_qty it) items.
Proof.
  induction 1 as [|it oi items lines (id & p & Hit & ->) _ IH]; intros Hv;
    [constructor|].
  simpl in Hv. apply andb_true_iff in Hv as [Hoi Hv].
  constructor; [|by apply IH].
  unfold orderItemSchema_valid in Hoi. simpl in Hoi.
  apply andb_true_iff in Hoi as [_ Hq]. by apply Z.leb_le.
Qed.

(** No line of a snapshot that passes the validators has a negative
    quantity. *)
Lemma valid_order_qty (lines : list (@OrderItem num)) :
  forallb orderItemSchema_valid lines = true ->
  Forall (fun oi => 0 <= oi_qty oi) lines.
Proof.
  intros Hv. rewrite Forall_forall. intros oi Hoi.
  pose proof (proj1 (forallb_forall _ _) Hv oi
                (proj1 (list_elem_of_In _ _) Hoi)) as Hq.
  unfold orderItemSchema_valid in Hq.
  apply andb_true_iff in Hq as [_ Hq]. apply Z.leb_le in Hq. lia.
Qed.

(** [createOrder] parses the body, reads the cart, and goes on. *)
Lemma createOrder_unfold (env : Env) (req : Request RawCreateOrder)
    (db : @Db num) :
  run (createOrder req) env db =
  match createOrderSchema (req_body req) with
  | Some body =>
      run (createOrder_from (user_id (req_user req)) body
             (cart_of db (user_id (req_user req)))) env db
  | None =>
      (Throw (ZodError env (createOrderSchema_issues (req_body req))), db)
  end.
Proof.
  unfold run, createOrder, bind, parse.
  by destruct (createOrderSchema (req_body req)).
Qed.

(** The four ways [createOrder] ends once the body is parsed and the
    cart is read, whatever cart was read: an absent or empty cart, a cart
    line rejected by the first loop, a transaction that throws, and a
    committed checkout. *)
Lemma createOrder_from_cases (env : Env) (user : ObjectId)
    (body : CreateOrderBody) (cart : option (list (@PopulatedItem num))) (db : @Db num) :
  ((cart = None \/ cart = Some [])
   /\ run (createOrder_from user body cart) env db =
      (Normal {| res_status := 400;
                 res_body := JsonMessage "Cart is empty" |}, db))
  \/ exists items, cart = Some items /\ items <> [] /\
     ((exists res,
         build_snapshot items num_zero [] = inl res
         /\ run (createOrder_from user body cart) env db = (Normal res, db))
      \/ exists sub snap,
         build_snapshot items num_zero [] = inr (sub, snap) /\
         ((exists e w',
             checkout_try env user body items sub snap db = (Throw e, w')
             /\ run (createOrder_from user body cart) env db =
                (Normal {| res_status := 500;
                           res_body :=
                             JsonMessage
                               (str_or (err_message e)
                                  "Order creation failed") |}, db))
          \/ exists db',
             let order := (fresh (dom (orders db)),
                           checkout_order user body sub snap) in
             run (createOrder_from user body cart) env db =
             (Normal {| res_status := 201; res_body := JsonOrder order |},
              db')
             /\ checkout_effects user items order db db'
             /\ (forall pid p,
                   products db !! pid = Some p ->
                   decrement_ok pid items (p_stock p))
             /\ forallb orderItemSchema_valid snap = true
             /\ forall op, checkout_step (length items) op ->
                           faults env op = None)).
Proof.
  destruct cart as [items|].
  2:{ left. split; [by left|].
      by apply (createOrder_from_rejected env user body None db). }
  destruct (decide (items = [])) as [->|Hne].
  { left. split; [by right|].
    by apply (createOrder_from_rejected env user body (Some []) db). }
  right. exists items. repeat split; try done.
  destruct (build_snapshot items num_zero []) as [res|[sub snap]] eqn:Hb.
  { left. exists res. split; [done|].
    apply (createOrder_from_rejected env user body (Some items) db).
    destruct items; [done|]. by rewrite Hb. }
  right. exists sub, snap. split; [done|].
  rewrite (createOrder_from_validated env user body items sub snap db Hne Hb).
  unfold checkout_try.
  destruct (createOrder_try_open env user body items snap (num_round2 sub)
              (calcShipping (num_round2 sub)) (calcTax (num_round2 sub))
              (num_round2
                 (num_add (num_add (num_round2 sub)
                             (calcShipping (num_round2 sub)))
                    (calcTax (num_round2 sub)))) db)
    as (r & w' & -> & Hcommitted & Hok).
  destruct r as [res|e].
  - right. exists (committed w').
    destruct (Hok res eq_refl)
      as (-> & _ & Heff & Hkept & Hvalid & Hk & H1 & H2 & H3).
    split; [done|]. split; [exact Heff|]. split.
    { intros pid p Hp. destruct (Hkept pid p Hp) as [Hpos Hexact].
      split; [done|]. intros Hsafe.
      destruct (build_snapshot_inr _ _ _ _ _ Hb) as (lines & -> & Hl & _).
      pose proof (valid_snapshot_qty items lines Hl Hvalid) as Hq.
      assert (Hq0 : Forall (fun it => 0 <= it_qty it) items)
        by (eapply Forall_impl; [exact Hq|]; simpl; intros; lia).
      destruct (Hexact Hq0 Hsafe) as [Hdec Hle].
      split; [done|]. split; [|done]. by apply ordered_nonneg. }
    split; [done|].
    intros op [(k & Hlt & ->)|[->|[->| ->]]]; auto.
  - left. exists e, w'. by rewrite Hcommitted.
Qed.

(** The five ways [createOrder] ends: a body that does not parse, and the
    four above with the cart as the database has it. *)
Lemma createOrder_cases (env : Env) (req : Request RawCreateOrder)
    (db : @Db num) :
  let user := user_id (req_user req) in
  (createOrderSchema (req_body req) = None
   /\ run (createOrder req) env db =
      (Throw (ZodError env (createOrderSchema_issues (req_body req))), db))
  \/ exists body, createOrderSchema (req_body req) = Some body /\
     (((cart_of db user = None \/ cart_of db user = Some [])
       /\ run (createOrder req) env db =
          (Normal {| res_status := 400;
                     res_body := JsonMessage "Cart is empty" |}, db))
      \/ exists items, cart_of db user = Some items /\ items <> [] /\
         ((exists res,
             build_snapshot items num_zero [] = inl res
             /\ run (createOrder req) env db = (Normal res, db))
          \/ exists sub snap,
             build_snapshot items num_zero [] = inr (sub, snap) /\
             ((exists e w',
                 checkout_try env user body items sub snap db = (Throw e, w')
                 /\ run (createOrder req) env db =
                    (Normal {| res_status := 500;
                               res_body :=
                                 JsonMessage
                                   (str_or (err_message e)
                                      "Order creation failed") |}, db))
              \/ exists db',
                 let order := (fresh (dom (orders db)),
                               checkout_order user body sub snap) in
                 run (createOrder req) env db =
                 (Normal {| res_status := 201; res_body := JsonOrder order |},
                  db')
                 /\ checkout_effects user items order db db'
                 /\ forallb orderItemSchema_valid snap = true
                 /\ forall op, checkout_step (length items) op ->
                               faults env op = None))).
Proof.
  intros user. rewrite createOrder_unfold. fold user.
  destruct (createOrderSchema (req_body req)) as [body|]; [|by left].
  right. exists body. split; [done|].
  destruct (createOrder_from_cases env user body (cart_of db user) db)
    as [?|(items & Hcart & Hne & [?|(sub & snap & Hb &
         [?|(db' & Hrun & Heff & _ & Hvalid & Hnofault)])])];
    [by left|right; exists items; rewrite Hcart in *..].
  - repeat split; try done. by left.
  - repeat split; try done. right. exists sub, snap. split; [done|]. by left.
  - repeat split; try done. right. exists sub, snap. split; [done|].
    right. by exists db'.
Qed.

(** What a checkout answered 201 has done. *)
Lemma createOrder_committed (env : Env) (req : Request RawCreateOrder)
    (db db' : @Db num) (res : @Response num) :
  run (createOrder req) env db = (Normal res, db') ->
  res_status res = 201%nat ->
  let user := user_id (req_user req) in
  exists body items sub snap,
    createOrderSchema (req_body req) = Some body
    /\ cart_of db user = Some items
    /\ items <> []
    /\ build_snapshot items num_zero [] = inr (sub, snap)
    /\ res = {| res_status := 201;
                res_body :=
                  JsonOrder (fresh (dom (orders db)),
                             checkout_order user body sub snap) |}
    /\ checkout_effects user items
         (fresh (dom (orders db)), checkout_order user body sub snap) db db'
    /\ forallb orderItemSchema_valid snap = true.
Proof.
  intros Hrun Hst user.
  destruct (createOrder_cases env req db)
    as [[_ H]|(body & Hbody & [[_ H]|(items & Hcart & Hne & [(r & Hb & H)|
         (sub & snap & Hb & [(e & w' & _ & H)|(db2 & H & Heff & Hv & _)])])])];
    rewrite H in Hrun; try discriminate.
  - injection Hrun as <- <-. discriminate Hst.
  - injection Hrun as <- <-.
    apply build_snapshot_inl in Hb
      as (pre & it & post & _ & _ & [[_ ->]|(id & p & _ & _ & _ & ->)]);
      discriminate Hst.
  - injection Hrun as <- <-. discriminate Hst.
  - injection Hrun as <- <-. by exists body, items, sub, snap.
Qed.

(** The [$inc]s of a checkout answered 201, stock by stock. *)
Lemma createOrder_decrements (env : Env) (req : Request RawCreateOrder)
    (db db' : @Db num) (res : @Response num)
    (items : list (@PopulatedItem num)) :
  run (createOrder req) env db = (Normal res, db') ->
  res_status res = 201%nat ->
  cart_of db (user_id (req_user req)) = Some items ->
  forall pid p,
    products db !! pid = Some p -> decrement_ok pid items (p_stock p).
Proof.
  intros Hrun Hst Hcart. rewrite createOrder_unfold in Hrun.
  destruct (createOrderSchema (req_body req)) as [body|]; [|done].
  rewrite Hcart in Hrun.
  destruct (createOrder_from_cases env (user_id (req_user req)) body
              (Some items) db)
    as [[_ H]|(items' & [= <-] & Hne & [(r & Hb & H)|
         (sub & snap & Hb & [(e & w' & _ & H)|(db2 & H & _ & Hok & _)])])];
    rewrite H in Hrun; try discriminate.
  - injection Hrun as <- <-. discriminate Hst.
  - injection Hrun as <- <-.
    apply build_snapshot_inl in Hb
      as (pre & it & post & _ & _ & [[_ ->]|(id & p & _ & _ & _ & ->)]);
      discriminate Hst.
  - injection Hrun as <- <-. discriminate Hst.
  - done.
Qed.

(** *** Claims about [createOrder] *)

(** C1 — Checkout is all-or-nothing.  Whatever the request, the
    database and the injected failures, [createOrder] either answers 201
    with all three effects committed (the stock of every product has gone
    through the [$inc] of every line that asks for it, the order is
    persisted, the cart is emptied), or leaves the database exactly as it
    was.  The [$inc]s compute in binary64: they take exactly what the cart
    asks for from every stock of at most [2^53], and make no stock
    negative that was not.  When the [try] block throws an error [e], the
    transaction is aborted and the answer is 500 with the message of [e]
    (['Order creation failed'] when that message is empty); a failure
    injected into any of the decrement, persist, clear or commit calls
    ends in such a 500. *)
Theorem checkout_all_or_nothing (env : Env) (req : Request RawCreateOrder)
    (db : @Db num) :
  let user := user_id (req_user req) in
  exists r db',
    run (createOrder req) env db = (r, db')
    /\ ((exists order items,
           r = Normal {| res_status := 201; res_body := JsonOrder order |}
           /\ cart_of db user = Some items
           /\ checkout_effects user items order db db'
           /\ forall pid p,
                products db !! pid = Some p ->
                decrement_ok pid items (p_stock p))
        \/ (db' = db
            /\ forall res, r = Normal res ->
               res_status res = 400%nat \/ res_status res = 500%nat))
    /\ (forall body items sub snap e w',
          createOrderSchema (req_body req) = Some body ->
          cart_of db user = Some items -> items <> [] ->
          build_snapshot items num_zero [] = inr (sub, snap) ->
          checkout_try env user body items sub snap db = (Throw e, w') ->
          r = Normal {| res_status := 500;
                        res_body :=
                          JsonMessage
                            (str_or (err_message e)
                               "Order creation failed") |}
          /\ db' = db)
    /\ (forall body items sub snap op msg,
          createOrderSchema (req_body req) = Some body ->
          cart_of db user = Some items -> items <> [] ->
          build_snapshot items num_zero [] = inr (sub, snap) ->
          checkout_step (length items) op -> faults env op = Some msg ->
          exists cause,
            r = Normal {| res_status := 500;
                          res_body := JsonMessage cause |}
            /\ db' = db).
Proof.
  pose proof (createOrder_cases env req db) as Hcases.
  cbv zeta in Hcases |- *. set (user := user_id (req_user req)) in *.
  destruct Hcases
    as [[Hparse ->]|(body & Hparse & [[Hcart ->]|(items & Hcart & Hne &
         [(res & Hb & ->)|(sub & snap & Hb &
           [(e & w' & Htry & ->)|(db' & Hrun & Heff & Hvalid & Hnofault)])])])];
    eexists _, _; (split; [first [reflexivity|exact Hrun]|]).
  - (* the body does not parse *)
    split; [right; split; [done|]; intros res; discriminate|].
    split; intros; congruence.
  - (* no cart, or an empty one *)
    split; [right; split; [done|]; intros res [= <-]; by left|].
    split; intros ? items; intros; destruct Hcart; congruence.
  - (* a line is rejected *)
    split.
    + right. split; [done|]. intros res' [= <-].
      apply build_snapshot_inl in Hb
        as (pre & it & post & _ & _ & [[_ ->]|(id & p & _ & _ & _ & ->)]);
        by left.
    + split; intros; congruence.
  - (* the transaction throws *)
    split; [right; split; [done|]; intros res [= <-]; by right|].
    split.
    + intros body' items' sub' snap' e' w'' Hp Hc _ Hb' Htry'.
      assert (body' = body) as -> by congruence.
      assert (items' = items) as -> by congruence.
      assert (sub' = sub /\ snap' = snap) as [-> ->]
        by (split; congruence).
      assert (e' = e) as -> by congruence. done.
    + intros. by eexists.
  - (* the transaction commits *)
    split.
    { left. eexists _, items. split; [done|]. split; [done|].
      split; [done|].
      by apply (createOrder_decrements env req db db' _ items Hrun). }
    split.
    + intros body' items' sub' snap' e' w'' Hp Hc _ Hb' Htry'.
      assert (body' = body) as -> by congruence.
      assert (items' = items) as -> by congruence.
      assert (sub' = sub /\ snap' = snap) as [-> ->]
        by (split; congruence).
      exfalso.
      pose proof (createOrder_from_validated env user body items sub snap db
                    Hne Hb) as Hv.
      rewrite Htry' in Hv.
      pose proof (createOrder_unfold env req db) as Hu.
      rewrite Hparse in Hu. fold user in Hu. rewrite Hcart in Hu.
      congruence.
    + intros body' items' sub' snap' op msg Hp Hc _ Hb' Hstep Hfault.
      assert (items' = items) as -> by congruence.
      rewrite (Hnofault op Hstep) in Hfault. discriminate.
Qed.

(** The first element of a list that fails a boolean test. *)
Lemma first_failing {A} (f : A -> bool) (l : list A) :
  Exists (fun x => f x = false) l ->
  exists pre x post,
    l = pre ++ x :: post /\ Forall (fun x => f x = true) pre /\ f x = false.
Proof.
  induction l as [|a l IH]; intros Hex; [by apply Exists_nil in Hex|].
  destruct (f a) eqn:Ha.
  - apply Exists_cons in Hex as [Hex|Hex]; [congruence|].
    destruct (IH Hex) as (pre & x & post & -> & Hpre & Hx).
    exists (a :: pre), x, post. repeat split; [|done]. by constructor.
  - exists [], a, l. repeat split; [constructor|done].
Qed.

(** C8 — Validation before the transaction, with no mutation.  For a
    request whose body parses: when the user has no cart or an empty one
    the answer is 400 ['Cart is empty']; when the first cart line the loop
    rejects references a missing or inactive product it is 400 ['Product
    unavailable in cart']; when that line asks for more than the
    product's current stock it is 400 ['Insufficient stock for <slug>'];
    so any cart with such a line is answered 400.  In all these cases the
    database is returned as it was: no order, no stock change, the cart
    unchanged. *)
Theorem checkout_validation_no_mutation (env : Env)
    (req : Request RawCreateOrder) (db : @Db num) (body : CreateOrderBody) :
  createOrderSchema (req_body req) = Some body ->
  let user := user_id (req_user req) in
  let answer msg :=
    (Normal {| res_status := 400; res_body := JsonMessage msg |}, db) in
  (carts db !! user = None \/ carts db !! user = Some {| cart_items := [] |} ->
   run (createOrder req) env db = answer "Cart is empty")
  /\ (forall cart pre ci post,
        carts db !! user = Some cart ->
        cart_items cart = pre ++ ci :: post ->
        Forall (fun c => acceptable (populate db c) = true) pre ->
        (products db !! ci_product ci = None
         \/ exists p, products db !! ci_product ci = Some p
                      /\ p_isActive p = false) ->
        run (createOrder req) env db = answer "Product unavailable in cart")
  /\ (forall cart pre ci post p,
        carts db !! user = Some cart ->
        cart_items cart = pre ++ ci :: post ->
        Forall (fun c => acceptable (populate db c) = true) pre ->
        products db !! ci_product ci = Some p ->
        p_isActive p = true ->
        p_stock p < ci_qty ci ->
        run (createOrder req) env db =
        answer ("Insufficient stock for " +:+ p_slug p))
  /\ (forall cart,
        carts db !! user = Some cart ->
        Exists (fun c => acceptable (populate db c) = false)
          (cart_items cart) ->
        exists msg, run (createOrder req) env db = answer msg).
Proof.
  intros Hparse user answer. subst answer. cbv beta.
  assert (Hfirst : forall cart pre ci post,
    carts db !! user = Some cart ->
    cart_items cart = pre ++ ci :: post ->
    Forall (fun c => acceptable (populate db c) = true) pre ->
    acceptable (populate db ci) = false ->
    run (createOrder req) env db =
    (Normal {| res_status := 400;
               res_body :=
                 JsonMessage
                   match it_product (populate db ci) with
                   | Some (_, p) =>
                       if p_isActive p
                       then "Insufficient stock for " +:+ p_slug p
                       else "Product unavailable in cart"
                   | None => "Product unavailable in cart"
                   end |}, db)).
  { intros cart pre ci post Hcart Hitems Hpre Hci.
    rewrite createOrder_unfold, Hparse. fold user.
    apply createOrder_from_rejected. unfold cart_of. rewrite Hcart. simpl.
    rewrite Hitems, map_app. simpl.
    rewrite (build_snapshot_first (map (populate db) pre)
               (map (populate db) post) (populate db ci) num_zero []);
      [|by apply Forall_map|done].
    by destruct pre. }
  repeat split.
  - intros Hcart. rewrite createOrder_unfold, Hparse. fold user.
    apply createOrder_from_rejected. unfold cart_of.
    by destruct Hcart as [-> | ->].
  - intros cart pre ci post Hcart Hitems Hpre Hci.
    rewrite (Hfirst cart pre ci post Hcart Hitems Hpre).
    + unfold populate. simpl.
      destruct Hci as [-> | (p & -> & Hact)]; simpl; [done|].
      by rewrite Hact.
    + unfold acceptable, unavailable, populate. simpl.
      destruct Hci as [-> | (p & -> & Hact)]; simpl; [done|].
      by rewrite Hact.
  - intros cart pre ci post p Hcart Hitems Hpre Hp Hact Hlt.
    rewrite (Hfirst cart pre ci post Hcart Hitems Hpre).
    + unfold populate. simpl. rewrite Hp. simpl. by rewrite Hact.
    + unfold acceptable, unavailable, insufficient, populate. simpl.
      rewrite Hp. simpl. rewrite Hact. simpl.
      apply Z.ltb_lt in Hlt. by rewrite Hlt.
  - intros cart Hcart Hex.
    apply first_failing in Hex as (pre & ci & post & Hitems & Hpre & Hci).
    eexists. apply (Hfirst cart pre ci post Hcart Hitems Hpre Hci).
Qed.

(** The first loop accepts a cart of lines that can be bought, and its
    snapshot passes the validators of [orderSchema]. *)
Lemma build_snapshot_purchasable (db : @Db num) (lines : list CartItem)
    (acc : num) (snap : list (@OrderItem num)) :
  Forall (purchasable db) lines ->
  forallb orderItemSchema_valid snap = true ->
  exists sub out,
    build_snapshot (map (populate db) lines) acc snap = inr (sub, out)
    /\ forallb orderItemSchema_valid out = true.
Proof.
  intros Hall. revert acc snap.
  induction Hall as [|ci lines (p & Hp & Hact & Ht & Hs & Hq1 & Hq2) _ IH];
    intros acc snap Hsnap; simpl; [by eexists _, _|].
  rewrite Hp. simpl. rewrite Hact. simpl.
  assert ((p_stock p <? ci_qty ci) = false) as -> by (apply Z.ltb_ge; lia).
  apply IH. rewrite forallb_app, Hsnap. simpl.
  unfold orderItemSchema_valid. simpl.
  assert (String.eqb (p_title p) "" = false) as ->
    by (by apply String.eqb_neq).
  assert (String.eqb (p_slug p) "" = false) as ->
    by (by apply String.eqb_neq).
  assert ((1 <=? ci_qty ci) = true) as -> by (apply Z.leb_le; lia).
  done.
Qed.

(** With no failing call, the decrement loop completes on a cart with one
    line per product when every line finds its product with enough
    stock. *)
Lemma decrement_stock_succeeds (env : Env) (lines : list CartItem) (i : nat)
    (db0 db tx : @Db num) :
  (forall op, faults env op = None) ->
  NoDup (map ci_product lines) ->
  Forall (fun ci =>
            is_Some (products db0 !! ci_product ci)
            /\ exists p, products tx !! ci_product ci = Some p
                         /\ ci_qty ci <= p_stock p) lines ->
  exists tx',
    decrement_stock (map (populate db0) lines) i env (open_tx db tx)
    = (Normal tt, open_tx db tx').
Proof.
  intros Hnone. revert i tx.
  induction lines as [|ci lines IH]; intros i tx Hnd Hall; simpl;
    [by eexists|].
  apply NoDup_cons in Hnd as [Hci Hnd].
  apply Forall_cons in Hall as [([p0 Hp0] & p & Hp & Hq) Hall].
  rewrite Hp0. simpl. unfold bind at 1.
  rewrite Product_updateOne_open, Hnone, Hp.
  assert ((ci_qty ci <=? p_stock p) = true) as -> by (by apply Z.leb_le).
  simpl. apply IH; [done|].
  rewrite Forall_forall in Hall |- *. intros cj Hcj.
  destruct (Hall cj Hcj) as (Hsome & q & Hq' & Hle). split; [done|].
  exists q. split; [|done]. simpl. rewrite lookup_insert_ne; [done|].
  intros Heq. apply Hci. rewrite Heq.
  apply list_elem_of_In, in_map, list_elem_of_In, Hcj.
Qed.

(** With no failing call, the checkout of a cart with at least one line,
    one line per product, each of which can be bought, is answered
    201. *)
Lemma createOrder_succeeds (env : Env) (req : Request RawCreateOrder)
    (db : @Db num) (body : CreateOrderBody) (cart : Cart) :
  createOrderSchema (req_body req) = Some body ->
  carts db !! user_id (req_user req) = Some cart ->
  (forall op, faults env op = None) ->
  cart_items cart <> [] ->
  NoDup (map ci_product (cart_items cart)) ->
  Forall (purchasable db) (cart_items cart) ->
  exists res db',
    run (createOrder req) env db = (Normal res, db')
    /\ res_status res = 201%nat.
Proof.
  intros Hparse Hcart Hnone Hne Hnd Hall.
  assert (Hc : cart_of db (user_id (req_user req))
               = Some (map (populate db) (cart_items cart)))
    by (unfold cart_of; by rewrite Hcart).
  rewrite createOrder_unfold, Hparse, Hc.
  destruct (build_snapshot_purchasable db (cart_items cart) num_zero []
              Hall eq_refl) as (sub & snap & Hb & Hvalid).
  rewrite (createOrder_from_validated env _ body _ sub snap db);
    [|by destruct (cart_items cart)|done].
  unfold checkout_try, createOrder_try. unfold bind at 1.
  destruct (decrement_stock_succeeds env (cart_items cart) 0 db db db Hnone
              Hnd) as (tx & ->).
  { eapply Forall_impl; [exact Hall|].
    intros ci (p & Hp & _ & _ & _ & _ & Hq). split; [by eexists|].
    by exists p. }
  unfold bind at 1, Order_create at 1, db_call at 1.
  rewrite Hnone. simpl. rewrite Hvalid.
  unfold bind at 1, Cart_save at 1, db_call at 1.
  rewrite Hnone. simpl.
  unfold bind at 1, commitTransaction at 1, db_call at 1.
  rewrite Hnone. simpl. by eexists _, _.
Qed.

(** C6 — Order totals.  (1) An order that [createOrder] answers with 201
    is stored as it is answered and has one line per line of the buyer's
    cart, in the cart's order; each line carries the current price of its
    product, read from the database with the cart, the quantity of the
    cart line and the line total [round2 (price * qty)]; the subtotal is
    [round2] of the plain left-to-right sum, from [0], of these rounded
    line totals; shipping fee and tax are [0]; the grand total is
    [round2 (subtotal + shippingFee + tax)].  (2) Every validated cart
    gets such an order: when the body parses, no database call fails and
    the cart has at least one line, one line per product, each for an
    active product with a title and a slug and for a quantity between one
    and the stock, the answer is 201. *)
Theorem order_totals (env : Env) (req : Request RawCreateOrder) (db : @Db num)
    (body : CreateOrderBody) (cart : Cart) :
  createOrderSchema (req_body req) = Some body ->
  carts db !! user_id (req_user req) = Some cart ->
  (forall res db',
     run (createOrder req) env db = (Normal res, db') ->
     res_status res = 201%nat ->
     exists id order,
       res_body res = JsonOrder (id, order)
       /\ orders db' !! id = Some order
       /\ Forall2 (fun ci oi =>
            exists p,
              products db !! ci_product ci = Some p
              /\ oi_product oi = ci_product ci
              /\ oi_price oi = p_price p
              /\ oi_qty oi = ci_qty ci
              /\ oi_lineTotal oi =
                 num_round2 (num_mul (p_price p) (num_of_int (ci_qty ci))))
            (cart_items cart) (o_items order)
       /\ o_subtotal order =
          num_round2
            (fold_left num_add (map oi_lineTotal (o_items order)) num_zero)
       /\ o_shippingFee order = num_zero
       /\ o_tax order = num_zero
       /\ o_grandTotal order =
          num_round2
            (num_add (num_add (o_subtotal order) (o_shippingFee order))
               (o_tax order)))
  /\ ((forall op, faults env op = None) ->
      cart_items cart <> [] ->
      NoDup (map ci_product (cart_items cart)) ->
      Forall (purchasable db) (cart_items cart) ->
      exists res db',
        run (createOrder req) env db = (Normal res, db')
        /\ res_status res = 201%nat).
Proof.
  intros Hparse Hcart. split;
    [|by apply (createOrder_succeeds env req db body)].
  intros res db' Hrun Hst.
  destruct (createOrder_committed env req db db' res Hrun Hst)
    as (body' & items & sub & snap & _ & Hitems & _ & Hb & -> & Heff & _).
  destruct Heff as (_ & _ & Hord & _). simpl in Hord.
  destruct (build_snapshot_inr _ _ _ _ _ Hb) as (lines & Hsnap & Hl & Hs & _).
  simpl in Hsnap. subst lines.
  eexists _, _. split; [reflexivity|].
  split; [by rewrite Hord, lookup_insert_eq|]. simpl.
  split; [|by rewrite Hs].
  unfold cart_of in Hitems. rewrite Hcart in Hitems. simpl in Hitems.
  injection Hitems as <-.
  change (map (populate db) (cart_items cart))
    with (populate db <$> cart_items cart) in Hl.
  rewrite Forall2_fmap_l in Hl.
  eapply Forall2_impl; [exact Hl|].
  intros ci oi (id & p & Hit & ->). simpl in *. exists p.
  unfold populate in Hit. simpl in Hit.
  destruct (products db !! ci_product ci) as [p'|] eqn:Hp; [|done].
  by injection Hit as <- <-.
Qed.

(** *** No oversell *)

Lemma view_write (sess : bool) (f : Db -> Db) (w : @World num) :
  view sess (write sess f w) = f (view sess w).
Proof. unfold view, write. destruct sess, (session w); done. Qed.

(** The decrement loop on a cart split in two. *)
Lemma decrement_stock_app (env : Env) (pre rest : list (@PopulatedItem num))
    (i : nat) (w : @World num) :
  decrement_stock (pre ++ rest) i env w =
  match decrement_stock pre i env w with
  | (Normal _, w1) => decrement_stock rest (i + length pre) env w1
  | (Throw e, w1) => (Throw e, w1)
  end.
Proof.
  revert i w. induction pre as [|it pre IH]; intros i w; simpl.
  - by rewrite Nat.add_0_r.
  - destruct (it_product it) as [[id p]|]; [|done].
    unfold bind.
    destruct (Product_updateOne (OpUpdateStock i) id (Some (it_qty it))
                (- it_qty it) true env w) as [[n|e] w1]; [|done].
    destruct (negb (n =? 1)%nat); [done|].
    rewrite IH. by replace (S i + length pre)%nat with (i + S (length pre))%nat
      by lia.
Qed.

(** What one checkout attempt does to the stock of a product. *)
Lemma checkout_stock (a : @Attempt num) (db : @Db num) (pid : ObjectId)
    (p : @Product num) :
  products db !! pid = Some p -> 0 <= p_stock p ->
  exists r db1 p1,
    checkout a db = (r, db1)
    /\ products db1 !! pid = Some p1
    /\ 0 <= p_stock p1
    /\ (p_stock p <= 2 ^ 53 ->
        let sold :=
          if is_201 r then ordered pid (default [] (a_cart a)) else 0 in
        p_stock p1 = p_stock p - sold /\ 0 <= sold).
Proof.
  intros Hp Hs. unfold checkout.
  destruct (createOrder_from_cases (a_env a) (a_user a) (a_body a) (a_cart a)
              db)
    as [[_ ->]|(items & Hcart & Hne & [(res & Hb & ->)|(sub & snap & Hb &
         [(e & w' & _ & ->)|(db' & -> & Heff & Hkept & _)])])].
  - eexists _, db, p. repeat split; try done; simpl; lia.
  - eexists _, db, p. repeat split; try done.
    + apply build_snapshot_inl in Hb
        as (pre & it & post & _ & _ & [[_ ->]|(id & q & _ & _ & _ & ->)]);
        simpl; lia.
    + apply build_snapshot_inl in Hb
        as (pre & it & post & _ & _ & [[_ ->]|(id & q & _ & _ & _ & ->)]);
        simpl; lia.
  - eexists _, db, p. repeat split; try done; simpl; lia.
  - destruct Heff as (Hstock & _).
    destruct (Hkept pid p Hp) as [Hpos Hexact].
    eexists _, db', _. split; [done|]. rewrite Hstock, Hp, Hcart. simpl.
    split; [done|]. split; [by apply Hpos|].
    intros Hsafe. destruct (Hexact Hsafe) as (-> & H0 & _). done.
Qed.

(** C2 — No oversell.  (1) The decrement [createOrder] issues is a
    conditional write: it modifies one record only when the product's
    stock, as the write sees it, is at least the requested quantity, and
    then stores the binary64 difference, which is the stock minus that
    quantity when the stock is at most [2^53]; otherwise (no product, or
    a stock below the quantity) it modifies none and changes nothing.
    (2) When, after the lines before it were decremented, the conditional
    update of a line modifies no record, the whole checkout fails: the
    answer is 500 ['Stock update failed for <slug>'], naming the product
    of that line, and the database is as before, whatever cart the
    request had read.  (3) Along any sequence of checkout attempts, each
    with its own possibly stale reading of the cart and its own injected
    failures, a product that starts with a non-negative stock never gets
    a negative one; when the initial stock is at most [2^53], the
    product ends with the initial stock minus the quantities decremented
    by the attempts that succeeded, so those quantities never exceed the
    initial stock. *)
Theorem no_oversell :
  (forall env op id q sess (w w' : @World num) n,
     Product_updateOne op id (Some q) (- q) sess env w = (Normal n, w') ->
     (n = 1%nat
      /\ exists p, products (view sess w) !! id = Some p
                   /\ q <= p_stock p
                   /\ products (view sess w') !! id =
                      Some (set_stock (add64 (p_stock p) (- q)) p)
                   /\ (0 <= q -> p_stock p <= 2 ^ 53 ->
                       add64 (p_stock p) (- q) = p_stock p - q))
     \/ (n = 0%nat /\ w' = w
         /\ forall p, products (view sess w) !! id = Some p ->
                      p_stock p < q))
  /\ (forall env user body pre it post id p sub snap (db tx : @Db num),
        it_product it = Some (id, p) ->
        build_snapshot (pre ++ it :: post) num_zero [] = inr (sub, snap) ->
        decrement_stock pre 0 env (open_tx db db)
        = (Normal tt, open_tx db tx) ->
        Product_updateOne (OpUpdateStock (length pre)) id (Some (it_qty it))
          (- it_qty it) true env (open_tx db tx)
        = (Normal 0%nat, open_tx db tx) ->
        run (createOrder_from user body (Some (pre ++ it :: post))) env db =
        (Normal {| res_status := 500;
                   res_body :=
                     JsonMessage ("Stock update failed for " +:+ p_slug p) |},
         db))
  /\ (forall (l : list (@Attempt num)) db pid p,
        products db !! pid = Some p -> 0 <= p_stock p ->
        exists p',
          products (checkouts pid l db).1 !! pid = Some p'
          /\ 0 <= p_stock p'
          /\ (p_stock p <= 2 ^ 53 ->
              p_stock p' = p_stock p - (checkouts pid l db).2
              /\ 0 <= (checkouts pid l db).2 <= p_stock p)).
Proof.
  split; [|split].
  - intros env op id q sess w n w' Hupd.
    unfold Product_updateOne, db_call in Hupd.
    destruct (faults env op); [done|].
    destruct (products (view sess w) !! id) as [p|] eqn:Hp;
      [|injection Hupd as <- <-; by right].
    destruct (q <=? p_stock p) eqn:Hle.
    2:{ injection Hupd as <- <-. right. repeat split; try done.
        intros p' [= <-]. by apply Z.leb_gt. }
    injection Hupd as <- <-.
    left. split; [done|]. exists p. apply Z.leb_le in Hle.
    split; [done|]. split; [done|]. split.
    + rewrite view_write. simpl. by rewrite lookup_insert_eq.
    + intros Hq Hsafe. rewrite add64_exact; lia.
  - intros env user body pre it post id p sub snap db tx Hit Hb Hpre Hupd.
    rewrite (createOrder_from_validated env user body _ sub snap db);
      [|by destruct pre|done].
    unfold checkout_try, createOrder_try. unfold bind at 1.
    rewrite decrement_stock_app, Hpre. simpl. rewrite Hit.
    unfold bind at 1. rewrite Hupd. by simpl.
  - induction l as [|a l IH]; intros db pid p Hp Hs; simpl.
    + exists p. repeat split; try done; lia.
    + destruct (checkout_stock a db pid p Hp Hs)
        as (r & db1 & p1 & -> & Hp1 & Hpos1 & Hs1).
      destruct (IH db1 pid p1 Hp1 Hpos1) as (p' & Hp' & Hpos' & Hs').
      destruct (checkouts pid l db1) as [db2 sold]. simpl in *.
      exists p'. split; [done|]. split; [done|].
      intros Hsafe. destruct (Hs1 Hsafe) as [Heq1 Hsold1].
      destruct Hs' as [Heq' Hsold']; [lia|].
      destruct (is_201 r); lia.
Qed.

(** *** Cancellation *)

(** The restoring loop never leaves the transaction and touches nothing
    but the products of its working copy; it throws only on an injected
    failure; when it completes, the stock of every product that exists has
    gone through the [$inc]s of the snapshot lines that record it. *)
Lemma restore_stock_open (env : Env) (items : list (@OrderItem num)) (i : nat)
    (db tx : @Db num) :
  exists r tx',
    restore_stock items i env (open_tx db tx) = (r, open_tx db tx')
    /\ same_but_products tx tx'
    /\ (r = Normal tt ->
        forall pid,
          products tx' !! pid =
          (fun p => set_stock (restored pid items (p_stock p)) p)
            <$> products tx !! pid)
    /\ (r = Normal tt
        \/ exists k msg, faults env (OpUpdateStock k) = Some msg).
Proof.
  revert i tx. induction items as [|it rest IH]; intros i tx.
  - exists (Normal tt), tx. simpl. split; [done|]. split; [done|].
    split; [|by left].
    intros _ pid. destruct (products tx !! pid) as [p|]; simpl; [|done].
    by rewrite set_stock_same.
  - simpl. unfold bind at 1. rewrite Product_updateOne_open.
    destruct (faults env (OpUpdateStock i)) as [msg|] eqn:Hfault.
    { eexists _, tx. split; [done|]. split; [done|]. split; [done|].
      right. eauto. }
    destruct (products tx !! oi_product it) as [p|] eqn:Hp.
    2:{ destruct (IH (S i) tx) as (r & tx' & Hrun & Hframe & Hok & Hno).
        exists r, tx'. split; [done|]. split; [done|]. split; [|done].
        intros Hr pid. rewrite (Hok Hr pid). simpl.
        destruct (decide (oi_product it = pid)) as [<-|Hne]; [|done].
        by rewrite Hp. }
    destruct (IH (S i)
      (set_products
         <[oi_product it := set_stock (add64 (p_stock p) (oi_qty it)) p]> tx))
      as (r & tx' & Hrun & Hframe & Hok & Hno).
    exists r, tx'. split; [done|]. split; [exact Hframe|]. split; [|done].
    intros Hr pid. rewrite (Hok Hr pid). simpl.
    destruct (decide (oi_product it = pid)) as [<-|Hne].
    + by rewrite lookup_insert_eq, Hp.
    + by rewrite lookup_insert_ne.
Qed.

(** The answers of [cancelMyOrder] before its transaction. *)
Lemma cancelMyOrder_unfold {B} (env : Env) (req : Request B) (db : @Db num) :
  run (cancelMyOrder req) env db =
  match orders db !! req_params_id req with
  | None =>
      (Normal {| res_status := 404; res_body := JsonMessage "Not found" |},
       db)
  | Some order =>
      if negb (isOwner order (req_user req)) && negb (isAdmin (req_user req))
      then (Normal {| res_status := 403;
                      res_body := JsonMessage "Forbidden" |}, db)
      else if o_cancelled order
      then (Normal {| res_status := 400;
                      res_body := JsonMessage "Already cancelled" |}, db)
      else if negb (bool_decide (o_paymentStatus order = Unpaid))
              || negb (bool_decide (o_status order = Pending))
      then (Normal {| res_status := 400;
                      res_body :=
                        JsonMessage
                          "Cannot cancel after payment or processing" |},
            db)
      else
        match cancelMyOrder_try (req_params_id req) order env
                (open_tx db db) with
        | (Normal res, w') => (Normal res, committed w')
        | (Throw _, w') =>
            (Normal {| res_status := 500;
                       res_body := JsonMessage "Cancel failed" |},
             committed w')
        end
  end.
Proof.
  unfold run, cancelMyOrder, bind at 1, Order_findById. simpl.
  destruct (orders db !! req_params_id req) as [order|]; [|done].
  destruct (negb (isOwner order (req_user req))
            && negb (isAdmin (req_user req))); [done|].
  destruct (o_cancelled order); [done|].
  destruct (negb (bool_decide (o_paymentStatus order = Unpaid))
            || negb (bool_decide (o_status order = Pending))); [done|].
  unfold bind, startSession, startTransaction, ret, try_catch. simpl.
  fold (open_tx db db).
  by destruct (cancelMyOrder_try (req_params_id req) order env
                 (open_tx db db)) as [[res|e] w'].
Qed.

#[local] Ltac thrown :=
  eexists _, _; split; [reflexivity|]; right; by eexists.

(** The [try] block of [cancelMyOrder] answers 200 or throws. *)
Lemma cancellation_outcome (env : Env) (id : ObjectId) (order : @Order num)
    (db : @Db num) :
  exists r w',
    cancelMyOrder_try id order env (open_tx db db) = (r, w')
    /\ (r = Normal {| res_status := 200; res_body := JsonOk |}
        \/ exists e, r = Throw e).
Proof.
  unfold cancelMyOrder_try.
  destruct (restore_stock_open env (o_items order) 0 db db)
    as (r & tx & Hrun & _).
  unfold bind at 1. rewrite Hrun.
  destruct r as [[]|e]; [|thrown].
  unfold bind at 1, get_env at 1, bind at 1, Order_save at 1, db_call at 1.
  destruct (faults env OpOrderSave); [thrown|].
  simpl. unfold bind at 1, commitTransaction at 1, db_call at 1.
  destruct (faults env OpCommit); [thrown|].
  simpl. eexists _, _. split; [reflexivity|]. by left.
Qed.

(** C5 — Cancellation eligibility.  For an order that exists: a
    requester who is neither its owner nor an administrator is answered
    403 ['Forbidden']; the owner and an administrator alike are answered
    400 ['Already cancelled'] when the order is cancelled, and otherwise
    400 ['Cannot cancel after payment or processing'] unless
    [paymentStatus] is [unpaid] and [status] is [pending].  The database
    is left as it was in each case. *)
Theorem cancellation_eligibility {B} (env : Env) (req : Request B) (db : @Db num)
    (order : @Order num) :
  orders db !! req_params_id req = Some order ->
  let answer status msg :=
    (Normal {| res_status := status; res_body := JsonMessage msg |}, db) in
  (isOwner order (req_user req) = false ->
   isAdmin (req_user req) = false ->
   run (cancelMyOrder req) env db = answer 403%nat "Forbidden")
  /\ (isOwner order (req_user req) = true
      \/ isAdmin (req_user req) = true ->
      (o_cancelled order = true ->
       run (cancelMyOrder req) env db = answer 400%nat "Already cancelled")
      /\ (o_cancelled order = false ->
          o_paymentStatus order <> Unpaid \/ o_status order <> Pending ->
          run (cancelMyOrder req) env db =
          answer 400%nat "Cannot cancel after payment or processing")).
Proof.
  intros Horder answer. subst answer. cbv beta.
  rewrite cancelMyOrder_unfold, Horder. split.
  - by intros -> ->.
  - intros Hwho.
    assert (negb (isOwner order (req_user req))
            && negb (isAdmin (req_user req)) = false) as ->.
    { destruct Hwho as [-> | ->]; [done|]. apply andb_false_r. }
    split; [by intros ->|]. intros -> Hnot.
    assert (negb (bool_decide (o_paymentStatus order = Unpaid))
            || negb (bool_decide (o_status order = Pending)) = true) as ->;
      [|done].
    destruct Hnot as [Hnot|Hnot].
    + by rewrite (bool_decide_eq_false_2 _ Hnot).
    + rewrite (bool_decide_eq_false_2 _ Hnot). apply orb_true_r.
Qed.

(** C4 — Cancellation symmetry.  For an eligible order (it exists, the
    requester is its owner or an administrator, it is not cancelled,
    unpaid and pending), [cancelMyOrder] either answers 200 [{ ok: true }]
    having committed, as one unit, the [$inc] of every existing product's
    stock by the quantity of every snapshot line that records it, with no
    condition on that stock, and the order with [cancelled = true] and
    [cancelledAt = now], or answers 500 ['Cancel failed'] with the
    database as it was, which only an injected failure causes: with none,
    the cancellation succeeds.  The [$inc]s compute in binary64: with
    the quantities of the snapshot not negative ([orderSchema] wants them
    to be at least one), a stock that is not negative increases by
    exactly the quantity the snapshot records for the product whenever
    the result is at most [2^53]. *)
Theorem cancellation_symmetry {B} (env : Env) (req : Request B) (db : @Db num)
    (order : @Order num) :
  orders db !! req_params_id req = Some order ->
  isOwner order (req_user req) = true \/ isAdmin (req_user req) = true ->
  o_cancelled order = false ->
  o_paymentStatus order = Unpaid ->
  o_status order = Pending ->
  exists res db',
    run (cancelMyOrder req) env db = (Normal res, db')
    /\ ((res = {| res_status := 200; res_body := JsonOk |}
         /\ (forall pid,
               products db' !! pid =
               (fun p =>
                  set_stock (restored pid (o_items order) (p_stock p)) p)
                 <$> products db !! pid)
         /\ (forall pid p,
               products db !! pid = Some p -> 0 <= p_stock p ->
               Forall (fun it => 0 <= oi_qty it) (o_items order) ->
               p_stock p + recorded pid (o_items order) <= 2 ^ 53 ->
               products db' !! pid =
               Some (set_stock (p_stock p + recorded pid (o_items order)) p))
         /\ orders db' =
            <[req_params_id req :=
                set_cancelled true (Some (now env)) order]> (orders db)
         /\ carts db' = carts db
         /\ categories db' = categories db)
        \/ (res = {| res_status := 500;
                     res_body := JsonMessage "Cancel failed" |}
            /\ db' = db
            /\ exists op msg, faults env op = Some msg))
    /\ ((forall op, faults env op = None) -> res_status res = 200%nat).
Proof.
  intros Horder Hwho Hc Hpay Hst.
  rewrite cancelMyOrder_unfold, Horder, Hc, Hpay, Hst.
  assert (negb (isOwner order (req_user req))
          && negb (isAdmin (req_user req)) = false) as ->.
  { destruct Hwho as [-> | ->]; [done|]. apply andb_false_r. }
  simpl. unfold cancelMyOrder_try.
  destruct (restore_stock_open env (o_items order) 0 db db)
    as (r & tx & Hrun & (Hcat & Hcarts & Hord) & Hok & Hno).
  unfold bind at 1. rewrite Hrun. destruct r as [[]|e].
  2:{ destruct Hno as [?|(k & msg & Hfault)]; [done|].
      eexists _, _. split; [reflexivity|]. split; [right; eauto|].
      intros Hnone. by rewrite Hnone in Hfault. }
  specialize (Hok eq_refl).
  unfold bind at 1, get_env at 1, bind at 1, Order_save at 1, db_call at 1.
  destruct (faults env OpOrderSave) as [msg|] eqn:Hf1.
  { eexists _, _. split; [reflexivity|]. split; [right; eauto|].
    intros Hnone. by rewrite Hnone in Hf1. }
  simpl. unfold bind at 1, commitTransaction at 1, db_call at 1.
  destruct (faults env OpCommit) as [msg|] eqn:Hf2.
  { eexists _, _. split; [reflexivity|]. split; [right; eauto|].
    intros Hnone. by rewrite Hnone in Hf2. }
  simpl. eexists _, _. split; [reflexivity|]. split; [|done].
  left. split; [done|]. split; [done|]. split.
  { intros pid p Hp Hs Hq Hsafe. simpl.
    rewrite Hok, Hp. simpl. by rewrite restored_exact. }
  repeat split; try done; simpl; by rewrite ?Hord.
Qed.

(** *** Status updates *)

Lemma updateOrderStatus_unfold (env : Env) (req : Request RawUpdateStatus)
    (db : @Db num) :
  run (updateOrderStatus req) env db =
  match updateStatusSchema (req_body req) with
  | None =>
      (Throw (ZodError env (updateStatusSchema_issues (req_body req))), db)
  | Some data =>
      match orders db !! req_params_id req with
      | None =>
          (Normal {| res_status := 404;
                     res_body := JsonMessage "Not found" |}, db)
      | Some order =>
          let order1 :=
            match status data with
            | Some st => set_status st order
            | None => order
            end in
          let order2 :=
            match paymentStatus data with
            | Some ps => set_paymentStatus ps order1
            | None => order1
            end in
          match faults env OpOrderSave with
          | Some msg => (Throw (new_Error msg), db)
          | None =>
              (Normal {| res_status := 200;
                         res_body := JsonOrder (req_params_id req, order2) |},
               set_orders <[req_params_id req := order2]> db)
          end
      end
  end.
Proof.
  unfold run, updateOrderStatus, bind at 1, parse.
  destruct (updateStatusSchema (req_body req)) as [data|]; [|done].
  unfold bind at 1, Order_findById. simpl.
  destruct (orders db !! req_params_id req) as [order|]; [|done].
  unfold bind, Order_save, db_call.
  by destruct (faults env OpOrderSave).
Qed.

(** C10 — [updateOrderStatus] is unconditionally permissive.  For an
    order that exists, whatever its current [status], [paymentStatus] and
    [cancelled] flag, and a body that selects a new [status] and/or a new
    [paymentStatus] from their enums, the order is saved with exactly the
    selected fields replaced, each independently of the other and of the
    current values; [cancelled], [cancelledAt], the snapshot and the
    totals are kept and no product is touched.  Every choice of enum
    values, each optional, is a body the schema accepts, and the route
    hands every request of an administrator to the handler. *)
Theorem status_update_permissive :
  (forall env (req : Request RawUpdateStatus) (db : @Db num) order data,
     orders db !! req_params_id req = Some order ->
     updateStatusSchema (req_body req) = Some data ->
     faults env OpOrderSave = None ->
     exists order',
       run (updateOrderStatus req) env db =
       (Normal {| res_status := 200;
                  res_body := JsonOrder (req_params_id req, order') |},
        set_orders <[req_params_id req := order']> db)
       /\ o_status order' = default (o_status order) (status data)
       /\ o_paymentStatus order' =
          default (o_paymentStatus order) (paymentStatus data)
       /\ o_cancelled order' = o_cancelled order
       /\ o_cancelledAt order' = o_cancelledAt order
       /\ o_items order' = o_items order
       /\ o_subtotal order' = o_subtotal order
       /\ o_grandTotal order' = o_grandTotal order
       /\ products (set_orders <[req_params_id req := order']> db) =
          products db)
  /\ (forall (st : option OrderStatus) (ps : option PaymentStatus),
        exists raw,
          updateStatusSchema (Value raw) =
          Some {| status := st; paymentStatus := ps |})
  /\ (forall req : Request RawUpdateStatus,
        isAdmin (req_user req) = true ->
        patch_status (num := num) req = updateOrderStatus req).
Proof.
  split; [|split].
  - intros env req db order data Horder Hparse Hfault.
    rewrite updateOrderStatus_unfold, Hparse, Horder, Hfault.
    eexists. split; [reflexivity|].
    by destruct (status data), (paymentStatus data).
  - intros st ps.
    exists {| raw_status :=
                match st with
                | Some Pending => Value "pending"
                | Some Paid => Value "paid"
                | Some Shipped => Value "shipped"
                | Some Delivered => Value "delivered"
                | None => Undefined
                end;
              raw_paymentStatus :=
                match ps with
                | Some Unpaid => Value "unpaid"
                | Some PaymentPaid => Value "paid"
                | Some Refunded => Value "refunded"
                | None => Undefined
                end |}.
    by destruct st as [[]|], ps as [[]|].
  - intros req Hadmin. unfold patch_status, requireAdmin. by rewrite Hadmin.
Qed.

(** *** Errors *)

Lemma getOrder_unfold {B} (env : Env) (req : Request B) (db : @Db num) :
  run (getOrder req) env db =
  match orders db !! req_params_id req with
  | None =>
      (Normal {| res_status := 404; res_body := JsonMessage "Not found" |},
       db)
  | Some order =>
      if negb (isOwner order (req_user req)) && negb (isAdmin (req_user req))
      then (Normal {| res_status := 403;
                      res_body := JsonMessage "Forbidden" |}, db)
      else (Normal {| res_status := 200;
                      res_body := JsonOrder (req_params_id req, order) |},
            db)
  end.
Proof.
  unfold run, getOrder, bind, Order_findById. simpl.
  destruct (orders db !! req_params_id req) as [order|]; [|done].
  by destruct (negb (isOwner order (req_user req))
               && negb (isAdmin (req_user req))).
Qed.

(** C9, as the code has it — A malformed body makes [createOrder] and
    [updateOrderStatus] throw a [ZodError] before they touch the
    database.  The [ZodError] has no [status], so [errorHandler], which
    answers with [err.status || 500], surfaces it as 500 (not 400), in a
    [{ status, message }] body whose message is the [ZodError]'s, with its
    field detail (and the stack in development).  The error answers the
    handlers write themselves (400, 403, 404, 500) carry a [{ message }]
    body without [status]. *)
Theorem validation_error_surfaced :
  (forall env (req : Request RawCreateOrder) (db : @Db num),
     createOrderSchema (req_body req) = None ->
     let err := ZodError env (createOrderSchema_issues (req_body req)) in
     let res :=
       {| res_status := 500;
          res_body :=
            JsonError 500
              (str_or
                 (zod_message env (createOrderSchema_issues (req_body req)))
                 "Internal Server Error")
              (if String.eqb (NODE_ENV env) "development"
               then Some (err_stack err) else None) |} in
     run (createOrder req) env db = (Throw err, db)
     /\ errorHandler env err = res
     /\ app (createOrder req) env db = (res, db))
  /\ (forall env (req : Request RawUpdateStatus) (db : @Db num),
        updateStatusSchema (req_body req) = None ->
        let err := ZodError env (updateStatusSchema_issues (req_body req)) in
        let res :=
          {| res_status := 500;
             res_body :=
               JsonError 500
                 (str_or
                    (zod_message env
                       (updateStatusSchema_issues (req_body req)))
                    "Internal Server Error")
                 (if String.eqb (NODE_ENV env) "development"
                  then Some (err_stack err) else None) |} in
        run (updateOrderStatus req) env db = (Throw err, db)
        /\ errorHandler env err = res
        /\ app (updateOrderStatus req) env db = (res, db))
  /\ (forall env err,
        exists message stack,
          errorHandler (num := num) env err =
          {| res_status :=
               match err_status err with Some (S n) => S n | _ => 500%nat end;
             res_body :=
               JsonError
                 match err_status err with Some (S n) => S n | _ => 500%nat end
                 message stack |})
  /\ (forall env (req : Request RawCreateOrder) (db db' : @Db num) res,
        run (createOrder req) env db = (Normal res, db') ->
        res_status res <> 201%nat ->
        (res_status res = 400%nat \/ res_status res = 500%nat)
        /\ json_keys (res_body res) = ["message"])
  /\ (forall env (req : Request RawUpdateStatus) (db db' : @Db num) res,
        run (updateOrderStatus req) env db = (Normal res, db') ->
        res_status res <> 200%nat ->
        res_status res = 404%nat /\ json_keys (res_body res) = ["message"])
  /\ (forall env (req : Request RawUpdateStatus) (db db' : @Db num) res,
        run (cancelMyOrder req) env db = (Normal res, db') ->
        res_status res <> 200%nat ->
        json_keys (res_body res) = ["message"]).
Proof.
  split; [|split; [|split; [|split; [|split]]]].
  - intros env req db Hparse. cbv zeta. unfold app.
    by rewrite createOrder_unfold, Hparse.
  - intros env req db Hparse. cbv zeta. unfold app.
    by rewrite updateOrderStatus_unfold, Hparse.
  - intros env err. by eexists _, _.
  - intros env req db res db' H Hstatus.
    pose proof (createOrder_cases env req db) as Hcases.
    cbv zeta in Hcases.
    destruct Hcases
      as [[_ Hr]|(body & _ & [[_ Hr]|(items & _ & _ &
           [(res' & Hb & Hr)|(sub & snap & _ &
             [(e & w' & _ & Hr)|(db'' & Hr & _)])])])];
      rewrite Hr in H; try injection H as <- <-; try done; auto.
    by apply build_snapshot_inl in Hb
      as (pre & it & post & _ & _ & [[_ ->]|(id & p & _ & _ & _ & ->)]);
      auto.
  - intros env req db res db' H Hstatus.
    rewrite updateOrderStatus_unfold in H.
    destruct (updateStatusSchema (req_body req)); [|done].
    destruct (orders db !! req_params_id req);
      [|by injection H as <- <-].
    destruct (faults env OpOrderSave); [done|]. by injection H as <- <-.
  - intros env req db res db' H Hstatus.
    rewrite cancelMyOrder_unfold in H.
    destruct (orders db !! req_params_id req) as [order|];
      [|by injection H as <- <-].
    destruct (negb (isOwner order (req_user req))
              && negb (isAdmin (req_user req)));
      [by injection H as <- <-|].
    destruct (o_cancelled order); [by injection H as <- <-|].
    destruct (negb (bool_decide (o_paymentStatus order = Unpaid))
              || negb (bool_decide (o_status order = Pending)));
      [by injection H as <- <-|].
    destruct (cancellation_outcome env (req_params_id req) order db)
      as (r & w' & Hc & [-> | [e ->]]); rewrite Hc in H;
      by injection H as <- <-.
Qed.

(** *** Price immutability *)

Lemma same_but_products_trans (db1 db2 db3 : @Db num) :
  same_but_products db1 db2 -> same_but_products db2 db3 ->
  same_but_products db1 db3.
Proof. intros (? & ? & ?) (? & ? & ?). repeat split; congruence. Qed.

Lemma only_products_pure {A} (f : Env -> Completion A) :
  only_products (num := num) (fun env w => (f env, w)).
Proof. intros env db. exists (f env), db. by split. Qed.

Lemma only_products_read {A} (f : Db -> A) :
  only_products (num := num) (fun _ w => (Normal (f (view false w)), w)).
Proof. intros env db. eexists _, db. by split. Qed.

Lemma only_products_bind {A B} (m : M A) (k : A -> M B) :
  only_products (num := num) m -> (forall a, only_products (k a)) ->
  only_products (num := num) (bind m k).
Proof.
  intros Hm Hk env db. unfold bind.
  destruct (Hm env db) as (r & db1 & -> & H1).
  destruct r as [a|e]; [|by exists (Throw e), db1].
  destruct (Hk a env db1) as (r & db2 & -> & H2).
  exists r, db2. split; [done|]. by eapply same_but_products_trans.
Qed.

Lemma only_products_try_catch {A} (m : M A) (h : Error -> M A) :
  only_products (num := num) m -> (forall e, only_products (h e)) ->
  only_products (num := num) (try_catch m h).
Proof.
  intros Hm Hh env db. unfold try_catch.
  destruct (Hm env db) as (r & db1 & -> & H1).
  destruct r as [a|e]; [by exists (Normal a), db1|].
  destruct (Hh e env db1) as (r & db2 & -> & H2).
  exists r, db2. split; [done|]. by eapply same_but_products_trans.
Qed.

Lemma only_products_parse {A B} (schema : Raw A -> option B)
    (issues : Raw A -> list (list string)) (body : Raw A) :
  only_products (num := num) (parse schema issues body).
Proof.
  intros env db. unfold parse. destruct (schema body); by eexists _, db.
Qed.

Lemma only_products_Product_save (id : ObjectId) (doc : @Product num) :
  only_products (num := num) (Product_save id doc).
Proof.
  intros env db. unfold Product_save, db_call.
  destruct (faults env OpProductSave); [by eexists _, db|].
  destruct (productSchema_valid doc); [|by eexists _, db].
  by eexists _, (set_products _ db).
Qed.

Lemma only_products_Product_findOne (q : ObjectId -> Product -> bool) :
  only_products (num := num) (Product_findOne q).
Proof.
  apply (only_products_read
           (fun db => List.find _ (map_to_list (products db)))).
Qed.

Lemma only_products_Product_findById (id : ObjectId) :
  only_products (num := num) (Product_findById id).
Proof. apply (only_products_read (fun db => _ <$> products db !! id)). Qed.

Lemma only_products_Category_findOne (slug : string) :
  only_products (num := num) (Category_findOne slug).
Proof.
  apply (only_products_read
           (fun db => List.find _ (map_to_list (categories db)))).
Qed.

(** Decomposes a goal [only_products m] along the structure of [m]. *)
#[local] Ltac only_products :=
  repeat first
    [ apply only_products_parse
    | apply only_products_Product_save
    | apply only_products_Product_findOne
    | apply only_products_Product_findById
    | apply only_products_Category_findOne
    | apply (only_products_pure (fun _ => Normal _))
    | apply (only_products_pure (fun _ => Throw _))
    | apply (only_products_pure (fun env => Normal env))
    | match goal with
      | |- only_products (match ?x with _ => _ end) => destruct x
      | |- only_products (if ?x then _ else _) => destruct x
      | |- only_products (let (_, _) := ?x in _) => destruct x
      end
    | apply only_products_bind; [|intros ?]
    | apply only_products_try_catch; [|intros ?] ].

Lemma only_products_uniqueSlug_loop (fuel : nat) (excludeId : option ObjectId)
    (base candidate : string) (n : N) :
  only_products (num := num) (uniqueSlug_loop fuel excludeId base candidate n).
Proof.
  revert candidate n. induction fuel as [|fuel IH]; intros candidate n;
    simpl; only_products. apply IH.
Qed.

Lemma only_products_updateProduct (fuel : nat)
    (req : Request (@RawUpdateProduct num)) :
  only_products (num := num) (updateProduct fuel req).
Proof.
  unfold updateProduct. only_products;
    apply only_products_uniqueSlug_loop.
Qed.

Lemma app_cons_neq (s : string) (c : Ascii.ascii) (t : string) :
  s <> s +:+ String c t.
Proof.
  induction s as [|a s IH]; simpl; [done|]. intros [= Heq]. by apply IH.
Qed.

(** [uniqueSlug] ends: one more iteration than there are products
    suffices, and the slug it returns is that of no product but, possibly,
    the excluded one.  [seen] collects the products found under the
    candidates tried so far. *)
Lemma uniqueSlug_loop_finds (env : Env) (db : @Db num)
    (excludeId : option ObjectId) (base : string) (fuel : nat)
    (candidate : string) (n : N) (seen : gset positive) :
  (forall id, id ∈ seen ->
     exists p, products db !! id = Some p /\ p_slug p <> candidate
               /\ forall m, (n <= m)%N ->
                            p_slug p <> base +:+ "-" +:+ pretty m) ->
  (forall m, (n <= m)%N -> candidate <> base +:+ "-" +:+ pretty m) ->
  (size (products db) < fuel + size seen)%nat ->
  exists slug,
    uniqueSlug_loop fuel excludeId base candidate n env (idle db)
    = (Normal (Some slug), idle db)
    /\ forall id p, products db !! id = Some p -> p_slug p = slug ->
                    excludeId = Some id.
Proof.
  revert candidate n seen.
  induction fuel as [|fuel IH]; intros candidate n seen Hseen Hfresh Hsize.
  - exfalso. assert (seen ⊆ dom (products db)) as Hsub.
    { intros id Hid. destruct (Hseen id Hid) as (p & Hp & _).
      apply elem_of_dom. eauto. }
    apply subseteq_size in Hsub. rewrite size_dom in Hsub. lia.
  - simpl. unfold bind, Product_findOne. simpl.
    destruct (List.find _ (map_to_list (products db))) as [[id p]|] eqn:Hfind.
    + apply find_some in Hfind as [Hin Hq]. simpl in Hq.
      apply list_elem_of_In, elem_of_map_to_list in Hin.
      apply andb_true_iff in Hq as [Hslug _].
      apply String.eqb_eq in Hslug.
      apply (IH _ _ ({[id]} ∪ seen)).
      * intros id' [->%elem_of_singleton|Hid']%elem_of_union.
        -- exists p. rewrite Hslug. repeat split; [done|apply Hfresh; lia|].
           intros m Hm. apply Hfresh. lia.
        -- destruct (Hseen id' Hid') as (p' & Hp' & _ & Hlater).
           exists p'. repeat split; [done|apply Hlater; lia|].
           intros m Hm. apply Hlater. lia.
      * intros m Hm Heq. apply (inj (String.app base)) in Heq.
        apply (inj (String.app "-")) in Heq. apply (inj pretty) in Heq. lia.
      * assert (id ∉ seen) as Hnew.
        { intros Hid. destruct (Hseen id Hid) as (p' & Hp' & Hne & _).
          congruence. }
        rewrite size_union by set_solver. rewrite size_singleton. lia.
    + exists candidate. split; [done|]. intros id p Hp Hslug.
      assert (Hin : In (id, p) (map_to_list (products db)))
        by (by apply list_elem_of_In, elem_of_map_to_list).
      pose proof (find_none _ _ Hfind (id, p) Hin) as Hq.
      simpl in Hq. rewrite Hslug, String.eqb_refl in Hq. simpl in Hq.
      destruct excludeId as [ex|]; [|done].
      apply negb_false_iff, bool_decide_eq_true in Hq. by subst.
Qed.

Lemma uniqueSlug_ends (env : Env) (db : @Db num) (baseText : string)
    (excludeId : option ObjectId) (fuel : nat) :
  (size (products db) < fuel)%nat ->
  exists slug,
    uniqueSlug fuel baseText excludeId env (idle db)
    = (Normal (Some slug), idle db)
    /\ forall id p, products db !! id = Some p -> p_slug p = slug ->
                    excludeId = Some id.
Proof.
  intros Hfuel. unfold uniqueSlug, bind, get_env.
  apply (uniqueSlug_loop_finds env db excludeId _ fuel _ 2 ∅).
  - intros id Hid. by apply not_elem_of_empty in Hid.
  - intros m _. apply app_cons_neq.
  - rewrite size_empty. lia.
Qed.

(** With more fuel than there are products, [updateProduct] is never cut
    short: it answers or throws. *)
Lemma updateProduct_answers (fuel : nat) (req : Request (@RawUpdateProduct num))
    (env : Env) (db : @Db num) :
  (size (products db) < fuel)%nat ->
  (run (updateProduct fuel req) env db).1 <> Normal None.
Proof.
  intros Hfuel. unfold run, updateProduct.
  unfold bind at 1, get_env at 1. unfold bind at 1, parse at 1.
  destruct (updateSchema env (req_body req)) as [data|]; [|done].
  unfold bind at 1, Product_findOne at 1. simpl.
  destruct (List.find _ (map_to_list (products db))) as [[id current]|];
    [|done].
  fold (idle db). unfold bind at 1.
  assert (Hslug : exists slug,
    match truthy (u_slug data) with
    | Some s => uniqueSlug fuel s (Some id)
    | None =>
        match u_regenerateSlug data, truthy (u_title data) with
        | Some true, Some t => uniqueSlug fuel t (Some id)
        | _, _ => ret (Some (p_slug current))
        end
    end env (idle db) = (Normal (Some slug), idle db)).
  { destruct (truthy (u_slug data)) as [s|].
    { destruct (uniqueSlug_ends env db s (Some id) fuel Hfuel)
        as (slug & -> & _). eauto. }
    destruct (u_regenerateSlug data) as [[]|]; try by eexists.
    destruct (truthy (u_title data)) as [t|]; try by eexists.
    destruct (uniqueSlug_ends env db t (Some id) fuel Hfuel)
      as (slug & -> & _). eauto. }
  destruct Hslug as (slug & ->).
  unfold bind at 1.
  match goal with
  | |- context [match ?m env (idle db) with _ => _ end] =>
      destruct (m env (idle db)) as [[[res|[c sc]]|e] w]; try done
  end.
  unfold bind at 1.
  destruct (Product_save id _ env w) as [[[]|e] w1]; [|done].
  unfold bind at 1.
  by destruct (Product_findById id env w1) as [[item|e] w2].
Qed.

(** C7 — Price immutability.  Whatever the admin product update does
    (to the price or to any other field of any product), whether it is
    answered, rejected or cut short, the order collection is after it what
    it was before: every stored order keeps its per-line prices, line
    totals, subtotal and grand total, and [getOrder] answers the owner or
    an administrator with that stored order, not with anything recomputed
    from the products. *)
Theorem price_immutability {B} (fuel : nat) (env env' : Env)
    (upd : Request (@RawUpdateProduct num)) (req : Request B) (db : @Db num) :
  let db' := (run (updateProduct fuel upd) env db).2 in
  orders db' = orders db
  /\ (forall id order,
        orders db !! id = Some order ->
        exists order',
          orders db' !! id = Some order'
          /\ map oi_price (o_items order') = map oi_price (o_items order)
          /\ map oi_lineTotal (o_items order')
             = map oi_lineTotal (o_items order)
          /\ o_subtotal order' = o_subtotal order
          /\ o_grandTotal order' = o_grandTotal order)
  /\ (forall order,
        orders db !! req_params_id req = Some order ->
        isOwner order (req_user req) = true
        \/ isAdmin (req_user req) = true ->
        run (getOrder req) env' db' =
        (Normal {| res_status := 200;
                   res_body := JsonOrder (req_params_id req, order) |}, db')).
Proof.
  intros db'.
  assert (Hord : orders db' = orders db).
  { subst db'. unfold run.
    destruct (only_products_updateProduct fuel upd env db)
      as (r & db' & Hrun & _ & _ & Hord).
    fold (idle db). by rewrite Hrun. }
  clearbody db'. split; [done|]. split.
  - intros id order Horder. exists order. by rewrite Hord.
  - intros order Horder Hwho. rewrite getOrder_unfold, Hord, Horder.
    assert (negb (isOwner order (req_user req))
            && negb (isAdmin (req_user req)) = false) as ->; [|done].
    destruct Hwho as [-> | ->]; [done|]. apply andb_false_r.
Qed.

(** *** A checkout that succeeds *)

(** With no injected failure, the checkout of a cart of one line for an
    active product with enough stock commits; the stock is the binary64
    difference. *)
Lemma createOrder_single_line (env : Env) (req : Request RawCreateOrder)
    (db : @Db num) (body : CreateOrderBody) (idA : ObjectId) (A : @Product num)
    (q : Z) :
  let user := user_id (req_user req) in
  let lineTotal := num_round2 (num_mul (p_price A) (num_of_int q)) in
  let order :=
    checkout_order user body (num_add num_zero lineTotal)
      [{| oi_product := idA; oi_title := p_title A; oi_slug := p_slug A;
          oi_price := p_price A; oi_qty := q; oi_lineTotal := lineTotal |}] in
  (forall op, faults env op = None) ->
  createOrderSchema (req_body req) = Some body ->
  carts db !! user
  = Some {| cart_items := [{| ci_product := idA; ci_qty := q |}] |} ->
  products db !! idA = Some A ->
  p_isActive A = true ->
  1 <= q <= p_stock A ->
  p_title A <> "" -> p_slug A <> "" ->
  run (createOrder req) env db =
  (Normal {| res_status := 201;
             res_body := JsonOrder (fresh (dom (orders db)), order) |},
   {| products :=
        <[idA := set_stock (add64 (p_stock A) (- q)) A]> (products db);
      categories := categories db;
      carts := <[user := {| cart_items := [] |}]> (carts db);
      orders := <[fresh (dom (orders db)) := order]> (orders db) |}).
Proof.
  intros user lineTotal order Hnofault Hparse Hcart HA Hact [Hq1 Hq2] Ht Hs.
  rewrite createOrder_unfold, Hparse. fold user.
  assert (Hc : cart_of db user
               = Some [{| it_product := Some (idA, A); it_qty := q |}]).
  { unfold cart_of. rewrite Hcart. simpl. unfold populate. simpl.
    by rewrite HA. }
  assert (Hlt : (p_stock A <? q) = false) by (apply Z.ltb_ge; lia).
  rewrite Hc.
  erewrite createOrder_from_validated; [|done|].
  2:{ simpl. rewrite Hact, Hlt. simpl. reflexivity. }
  unfold checkout_try, createOrder_try. simpl.
  unfold bind at 1. unfold bind at 1. rewrite Product_updateOne_open.
  rewrite Hnofault, HA.
  assert ((q <=? p_stock A) = true) as -> by (apply Z.leb_le; lia).
  simpl. unfold bind at 1, Order_create at 1, db_call at 1.
  rewrite Hnofault. simpl. unfold orderItemSchema_valid. simpl.
  assert (String.eqb (p_title A) "" = false) as ->
    by (by apply String.eqb_neq).
  assert (String.eqb (p_slug A) "" = false) as ->
    by (by apply String.eqb_neq).
  assert ((1 <=? q) = true) as -> by (apply Z.leb_le; lia).
  simpl. unfold bind at 1, Cart_save at 1, db_call at 1.
  rewrite Hnofault. simpl.
  unfold bind at 1, commitTransaction at 1, db_call at 1.
  rewrite Hnofault. simpl. reflexivity.
Qed.

(** *** The order handlers together *)

(** X1 — An order can be read back.  After a checkout answered 201, a
    [getOrder] for the new order's id answers 200 with exactly the order
    of the 201 answer when the requester is the buyer or an
    administrator, and 403 ['Forbidden'] to everybody else; the id was
    that of no order before. *)
Theorem order_read_back {B} (env env' : Env) (req : Request RawCreateOrder)
    (db db' : @Db num) (res : @Response num) :
  run (createOrder req) env db = (Normal res, db') ->
  res_status res = 201%nat ->
  exists order,
    res_body res = JsonOrder order
    /\ orders db !! order.1 = None
    /\ forall req' : Request B,
         req_params_id req' = order.1 ->
         run (getOrder req') env' db' =
         (Normal
            (if bool_decide (user_id (req_user req) = user_id (req_user req'))
                || isAdmin (req_user req')
             then {| res_status := 200; res_body := JsonOrder order |}
             else {| res_status := 403;
                     res_body := JsonMessage "Forbidden" |}), db').
Proof.
  intros Hrun Hst.
  destruct (createOrder_committed env req db db' res Hrun Hst)
    as (body & items & sub & snap & _ & _ & _ & _ & -> & Heff & _).
  destruct Heff as (_ & Hnew & Hord & _).
  eexists. split; [reflexivity|]. split; [exact Hnew|].
  intros req' Hid. rewrite getOrder_unfold, Hid, Hord.
  simpl. rewrite lookup_insert_eq. unfold isOwner. simpl.
  by destruct (bool_decide _), (isAdmin _).
Qed.

(** The snapshot of a cart records, for every product, the quantity the
    cart asks for. *)
Lemma recorded_lines (pid : ObjectId) (items : list (@PopulatedItem num))
    (snap : list (@OrderItem num)) :
  Forall2 line items snap -> recorded pid snap = ordered pid items.
Proof.
  induction 1 as [|it oi items snap (id & p & Hit & ->) _ IH]; [done|].
  simpl. rewrite Hit, IH. by destruct (decide (id = pid)).
Qed.

(** The [try] block of [cancelMyOrder]: what it has done when it
    completes, that it completes when no database call fails, and that a
    failure leaves the committed database alone. *)
Lemma cancelMyOrder_try_open (env : Env) (id : ObjectId)
    (order : @Order num) (db : @Db num) :
  exists r w',
    cancelMyOrder_try id order env (open_tx db db) = (r, w')
    /\ (forall res, r = Normal res ->
        res = {| res_status := 200; res_body := JsonOk |}
        /\ (forall pid,
              products (committed w') !! pid =
              (fun p => set_stock (restored pid (o_items order) (p_stock p)) p)
                <$> products db !! pid)
        /\ orders (committed w') =
           <[id := set_cancelled true (Some (now env)) order]> (orders db)
        /\ carts (committed w') = carts db
        /\ categories (committed w') = categories db)
    /\ (forall e, r = Throw e -> committed w' = db)
    /\ ((forall op, faults env op = None) -> exists res, r = Normal res).
Proof.
  unfold cancelMyOrder_try.
  destruct (restore_stock_open env (o_items order) 0 db db)
    as (r & tx & Hrun & (Hcat & Hcarts & Hord) & Hok & Hno).
  unfold bind at 1. rewrite Hrun. destruct r as [[]|e].
  2:{ eexists _, _. split; [reflexivity|]. split; [done|]. split; [done|].
      intros Hnone. destruct Hno as [?|(k & msg & Hfault)]; [done|].
      by rewrite Hnone in Hfault. }
  specialize (Hok eq_refl).
  unfold bind at 1, get_env at 1, bind at 1, Order_save at 1, db_call at 1.
  destruct (faults env OpOrderSave) as [msg|] eqn:Hf1.
  { eexists _, _. split; [reflexivity|]. split; [done|]. split; [done|].
    intros Hnone. by rewrite Hnone in Hf1. }
  simpl. unfold bind at 1, commitTransaction at 1, db_call at 1.
  destruct (faults env OpCommit) as [msg|] eqn:Hf2.
  { eexists _, _. split; [reflexivity|]. split; [done|]. split; [done|].
    intros Hnone. by rewrite Hnone in Hf2. }
  simpl. eexists _, _. split; [reflexivity|]. split; [|split; [done|eauto]].
  intros res [= <-]. simpl. by rewrite Hord.
Qed.

(** What a cancellation answered 200 has found and done. *)
Lemma cancelMyOrder_done {B} (env : Env) (req : Request B)
    (db db' : @Db num) (res : @Response num) :
  run (cancelMyOrder req) env db = (Normal res, db') ->
  res_status res = 200%nat ->
  exists order,
    orders db !! req_params_id req = Some order
    /\ o_cancelled order = false
    /\ (forall pid,
          products db' !! pid =
          (fun p => set_stock (restored pid (o_items order) (p_stock p)) p)
            <$> products db !! pid)
    /\ orders db' =
       <[req_params_id req := set_cancelled true (Some (now env)) order]>
         (orders db)
    /\ carts db' = carts db
    /\ categories db' = categories db.
Proof.
  intros Hrun Hst. rewrite cancelMyOrder_unfold in Hrun.
  destruct (orders db !! req_params_id req) as [order|];
    [|injection Hrun as <- <-; discriminate].
  destruct (negb (isOwner order (req_user req)) && _);
    [injection Hrun as <- <-; discriminate|].
  destruct (o_cancelled order) eqn:Hc;
    [injection Hrun as <- <-; discriminate|].
  destruct (negb (bool_decide (o_paymentStatus order = Unpaid)) || _);
    [injection Hrun as <- <-; discriminate|].
  destruct (cancelMyOrder_try_open env (req_params_id req) order db)
    as (r & w' & Htry & Hok & _). rewrite Htry in Hrun.
  destruct r as [res'|e]; [|injection Hrun as <- <-; discriminate].
  injection Hrun as <- <-.
  destruct (Hok res' eq_refl) as (_ & Hp & Ho & Hc' & Hcat).
  by exists order.
Qed.

(** X2 — A cancellation is final.  After a cancellation answered 200, the
    order is stored as cancelled, and every further [cancelMyOrder] for
    it, by whomever and whatever fails, is answered 400 ['Already
    cancelled'] (403 to a stranger) and leaves the database, and so the
    restored stock, as it is. *)
Theorem cancel_is_final {B C} (env env' : Env) (req : Request B)
    (req' : Request C) (db db' : @Db num) (res : @Response num) :
  run (cancelMyOrder req) env db = (Normal res, db') ->
  res_status res = 200%nat ->
  req_params_id req' = req_params_id req ->
  exists order,
    orders db' !! req_params_id req = Some order
    /\ o_cancelled order = true
    /\ run (cancelMyOrder req') env' db' =
       (Normal
          (if isOwner order (req_user req') || isAdmin (req_user req')
           then {| res_status := 400;
                   res_body := JsonMessage "Already cancelled" |}
           else {| res_status := 403;
                   res_body := JsonMessage "Forbidden" |}), db').
Proof.
  intros Hrun Hst Hid.
  destruct (cancelMyOrder_done env req db db' res Hrun Hst)
    as (order & _ & _ & _ & Hord & _).
  exists (set_cancelled true (Some (now env)) order).
  split; [by rewrite Hord, lookup_insert_eq|]. split; [done|].
  rewrite cancelMyOrder_unfold, Hid, Hord, lookup_insert_eq. simpl.
  unfold isOwner. simpl.
  by destruct (bool_decide _), (isAdmin _).
Qed.

Lemma set_stock_twice (p : @Product num) (s s' : Z) :
  set_stock s (set_stock s' p) = set_stock s p.
Proof. done. Qed.

(** X3 — Checkout, then cancellation, is a round trip on the stock.
    Take a database whose stocks are between [0] and [2^53], the range on
    which the store's [$inc] is exact.  When the order of a checkout
    answered 201 is cancelled by its buyer (or an administrator) and no
    database call fails, the cancellation is answered 200 and every
    product is stored as it was before the checkout; the cart stays empty
    and the order stays, flagged. *)
Theorem checkout_cancel_round_trip {B} (env env' : Env)
    (req : Request RawCreateOrder) (req' : Request B) (db db' : @Db num)
    (order : @Order num) :
  (forall pid p, products db !! pid = Some p -> 0 <= p_stock p <= 2 ^ 53) ->
  run (createOrder req) env db =
  (Normal {| res_status := 201;
             res_body := JsonOrder (req_params_id req', order) |}, db') ->
  user_id (req_user req') = user_id (req_user req)
  \/ isAdmin (req_user req') = true ->
  (forall op, faults env' op = None) ->
  exists db'',
    run (cancelMyOrder req') env' db' =
    (Normal {| res_status := 200; res_body := JsonOk |}, db'')
    /\ products db'' = products db
    /\ carts db'' = carts db'
    /\ cart_lines db'' (user_id (req_user req)) = []
    /\ orders db'' =
       <[req_params_id req' := set_cancelled true (Some (now env')) order]>
         (orders db').
Proof.
  intros Hsafe Hrun Hwho Hnone.
  destruct (createOrder_committed env req db db' _ Hrun eq_refl)
    as (body & items & sub & snap & _ & Hcart & _ & Hb & [= Hid Horder]
        & Heff & Hvalid).
  pose proof (createOrder_decrements env req db db' _ items Hrun eq_refl
                Hcart) as Hdec.
  destruct Heff as (Hstock & _ & Hord & Hcarts & _). simpl in Hord.
  rewrite <- Hid, <- Horder in Hord.
  apply build_snapshot_inr in Hb as (lines & -> & Hlines & _).
  simpl in Hvalid.
  assert (Hlook : orders db' !! req_params_id req' = Some order)
    by (by rewrite Hord, lookup_insert_eq).
  rewrite cancelMyOrder_unfold, Hlook.
  assert (negb (isOwner order (req_user req'))
          && negb (isAdmin (req_user req')) = false) as ->.
  { destruct Hwho as [Hu| ->]; [|apply andb_false_r].
    unfold isOwner. rewrite Horder. simpl. rewrite Hu.
    by rewrite bool_decide_eq_true_2. }
  assert (o_cancelled order = false) as -> by (by rewrite Horder).
  assert (o_paymentStatus order = Unpaid) as -> by (by rewrite Horder).
  assert (o_status order = Pending) as -> by (by rewrite Horder).
  simpl.
  destruct (cancelMyOrder_try_open env' (req_params_id req') order db')
    as (r & w' & -> & Hok & _ & Hends).
  destruct (Hends Hnone) as (res & ->).
  destruct (Hok res eq_refl) as (-> & Hp & Ho & Hc & _).
  eexists. split; [reflexivity|]. split; [|split; [done|split; [|done]]].
  - apply map_eq. intros pid. rewrite Hp, Hstock.
    destruct (products db !! pid) as [p|] eqn:Hpid; [|done]. simpl. f_equal.
    rewrite Horder. simpl.
    destruct (Hsafe pid p Hpid) as [Hs0 Hs53].
    destruct (Hdec pid p Hpid) as [_ Hexact].
    destruct (Hexact Hs53) as (-> & Hord0 & Hle). specialize (Hle Hs0).
    rewrite set_stock_twice, restored_exact.
    + rewrite (recorded_lines pid items lines Hlines).
      replace (p_stock p - ordered pid items + ordered pid items)
        with (p_stock p) by lia.
      apply set_stock_same.
    + lia.
    + by apply valid_order_qty.
    + rewrite (recorded_lines pid items lines Hlines). lia.
  - unfold cart_lines. by rewrite Hc, Hcarts, lookup_insert_eq.
Qed.

(** X4 — A processed order can no longer be cancelled.  After an
    [updateOrderStatus] answered 200 that set a status other than
    [pending] or a payment status other than [unpaid], every
    [cancelMyOrder] for the order is refused with 400 (403 to a stranger)
    and leaves the database as it is. *)
Theorem processed_order_not_cancellable {B} (env env' : Env)
    (req : Request RawUpdateStatus) (req' : Request B) (db db' : @Db num)
    (res : @Response num) (data : UpdateStatusBody) :
  updateStatusSchema (req_body req) = Some data ->
  (exists st, status data = Some st /\ st <> Pending)
  \/ (exists ps, paymentStatus data = Some ps /\ ps <> Unpaid) ->
  run (updateOrderStatus req) env db = (Normal res, db') ->
  res_status res = 200%nat ->
  req_params_id req' = req_params_id req ->
  exists res',
    run (cancelMyOrder req') env' db' = (Normal res', db')
    /\ (res_status res' = 400%nat \/ res_status res' = 403%nat).
Proof.
  intros Hdata Hset Hrun Hst Hid.
  rewrite updateOrderStatus_unfold, Hdata in Hrun.
  destruct (orders db !! req_params_id req) as [order|];
    [|injection Hrun as <- <-; discriminate Hst].
  cbv zeta in Hrun. destruct (faults env OpOrderSave); [discriminate|].
  injection Hrun as _ <-.
  rewrite cancelMyOrder_unfold, Hid. simpl. rewrite lookup_insert_eq.
  destruct (negb (isOwner _ (req_user req')) && _); [eauto|].
  match goal with |- context [o_cancelled ?o] => destruct (o_cancelled o) end;
    [eauto|].
  assert (negb (bool_decide
                  (o_paymentStatus
                     match paymentStatus data with
                     | Some ps =>
                         set_paymentStatus ps
                           match status data with
                           | Some st => set_status st order
                           | None => order
                           end
                     | None =>
                         match status data with
                         | Some st => set_status st order
                         | None => order
                         end
                     end = Unpaid))
          || negb (bool_decide
                     (o_status
                        match paymentStatus data with
                        | Some ps =>
                            set_paymentStatus ps
                              match status data with
                              | Some st => set_status st order
                              | None => order
                              end
                        | None =>
                            match status data with
                            | Some st => set_status st order
                            | None => order
                            end
                        end = Pending)) = true) as ->; [|eauto].
  apply orb_true_iff.
  destruct Hset as [(st & -> & Hne)|(ps & -> & Hne)].
  - right. apply negb_true_iff, bool_decide_eq_false.
    by destruct (paymentStatus data).
  - left. by apply negb_true_iff, bool_decide_eq_false.
Qed.

(** X5 — What a checkout never touches.  Whatever [createOrder] answers
    and whatever fails, it leaves the categories, the carts of the other
    users and every order that exists as they are, it adds and removes no
    product, and it changes no field of a product but its stock. *)
Theorem checkout_frame (env : Env) (req : Request RawCreateOrder)
    (db : @Db num) :
  let db' := (run (createOrder req) env db).2 in
  categories db' = categories db
  /\ (forall u, u <> user_id (req_user req) ->
               carts db' !! u = carts db !! u)
  /\ (forall id o, orders db !! id = Some o -> orders db' !! id = Some o)
  /\ (forall pid,
        exists s, products db' !! pid = set_stock s <$> products db !! pid).
Proof.
  assert (Hsame : forall r, run (createOrder req) env db = (r, db) ->
    let db' := (run (createOrder req) env db).2 in
    categories db' = categories db
    /\ (forall u, u <> user_id (req_user req) ->
                 carts db' !! u = carts db !! u)
    /\ (forall id o, orders db !! id = Some o -> orders db' !! id = Some o)
    /\ (forall pid,
          exists s, products db' !! pid = set_stock s <$> products db !! pid)).
  { intros r ->. simpl. repeat split; try done. intros pid.
    destruct (products db !! pid) as [p|]; [|by exists 0].
    exists (p_stock p). simpl. by rewrite set_stock_same. }
  destruct (createOrder_cases env req db)
    as [[_ H]|(body & Hbody & [[_ H]|(items & Hcart & Hne & [(r & Hb & H)|
         (sub & snap & Hb & [(e & w' & _ & H)|(db2 & H & Heff & _)])])])];
    try (by eapply Hsame).
  rewrite H. simpl.
  destruct Heff as (Hstock & Hnew & Hord & Hcarts & Hcat). simpl in *.
  split; [done|]. split; [|split].
  - intros u Hu. by rewrite Hcarts, lookup_insert_ne.
  - intros id o Ho. rewrite Hord, lookup_insert_ne; [done|]. congruence.
  - intros pid. rewrite Hstock.
    destruct (products db !! pid) as [p|]; [|by exists 0].
    by eexists.
Qed.

(** X6 — No second order from the same cart.  After a checkout answered
    201 the buyer's cart is stored empty, so their next [createOrder],
    with any body the schema accepts, is answered 400 ['Cart is empty']
    and changes nothing. *)
Theorem checkout_empties_cart (env env' : Env)
    (req req' : Request RawCreateOrder) (db db' : @Db num)
    (res : @Response num) (body' : CreateOrderBody) :
  run (createOrder req) env db = (Normal res, db') ->
  res_status res = 201%nat ->
  user_id (req_user req') = user_id (req_user req) ->
  createOrderSchema (req_body req') = Some body' ->
  carts db' !! user_id (req_user req) = Some {| cart_items := [] |}
  /\ run (createOrder req') env' db' =
     (Normal {| res_status := 400; res_body := JsonMessage "Cart is empty" |},
      db').
Proof.
  intros Hrun Hst Hu Hbody.
  destruct (createOrder_committed env req db db' res Hrun Hst)
    as (body & items & sub & snap & _ & _ & _ & _ & _ & Heff & _).
  destruct Heff as (_ & _ & _ & Hcarts & _).
  assert (Hcart : carts db' !! user_id (req_user req)
                  = Some {| cart_items := [] |})
    by (by rewrite Hcarts, lookup_insert_eq).
  split; [done|].
  rewrite createOrder_unfold, Hbody, Hu.
  apply createOrder_from_rejected. unfold cart_of. by rewrite Hcart.
Qed.

(** *** The middlewares *)

Lemma substring_all (s : string) : String.substring 0 (String.length s) s = s.
Proof. induction s as [|a s IH]; simpl; [done|]. by rewrite IH. Qed.

Lemma prefix_split (p s : string) :
  String.prefix p s = true ->
  s = p +:+ String.substring (String.length p)
              (String.length s - String.length p) s.
Proof.
  revert s. induction p as [|a p IH]; intros s Hp; simpl.
  - by rewrite Nat.sub_0_r, substring_all.
  - destruct s as [|b s]; [done|]. simpl in Hp.
    destruct (Ascii.ascii_dec a b) as [->|]; [|done].
    simpl. change (String b p +:+ ?x) with (String b (p +:+ x)).
    f_equal. by apply IH.
Qed.

Lemma prefix_app (p t : string) : String.prefix p (p +:+ t) = true.
Proof.
  induction p as [|a p IH]; [by destruct t|].
  change (String a p +:+ t) with (String a (p +:+ t)). simpl.
  by destruct (Ascii.ascii_dec a a).
Qed.

Lemma substring_app (p t : string) :
  String.substring (String.length p)
    (String.length (p +:+ t) - String.length p) (p +:+ t) = t.
Proof.
  induction p as [|a p IH].
  - change ("" +:+ t) with t. simpl. by rewrite Nat.sub_0_r, substring_all.
  - change (String a p +:+ t) with (String a (p +:+ t)). simpl. exact IH.
Qed.

(** X7 — [requireAuth] lets a request through only with a token.  The
    rest of the route runs only for a header of the form
    ['Bearer <token>'] whose token is not empty and is accepted by
    [jwt.verify], and then with the token's payload as [req.user]; every
    such header is let through.  Every other request is answered 401
    without the rest of the route being run: with ['Invalid token'] when
    the header is ['Bearer <token>'] with a token, not empty, that
    [jwt.verify] rejects, and with ['Missing token'] when there is no
    header, when the header does not start with ['Bearer '] and when
    nothing follows ['Bearer ']. *)
Theorem requireAuth_guard {A} (verify : string -> option User)
    (reply : nat -> string -> M (num := num) A) (next : User -> M A) :
  (forall authorization,
     (exists token payload,
        authorization = Some ("Bearer " +:+ token) /\ token <> ""
        /\ verify token = Some payload
        /\ requireAuth verify authorization reply next = next payload)
     \/ (exists message,
           requireAuth verify authorization reply next = reply 401%nat message
           /\ (message = "Missing token" \/ message = "Invalid token")))
  /\ (forall token payload,
        token <> "" -> verify token = Some payload ->
        requireAuth verify (Some ("Bearer " +:+ token)) reply next
        = next payload)
  /\ (forall token,
        token <> "" -> verify token = None ->
        requireAuth verify (Some ("Bearer " +:+ token)) reply next
        = reply 401%nat "Invalid token")
  /\ (forall header,
        String.prefix "Bearer " header = false ->
        requireAuth verify (Some header) reply next
        = reply 401%nat "Missing token")
  /\ requireAuth verify None reply next = reply 401%nat "Missing token"
  /\ requireAuth verify (Some "Bearer ") reply next
     = reply 401%nat "Missing token".
Proof.
  split; [|split; [|split; [|split; [|done]]]].
  - intros [header|]; [|right; eauto]. unfold requireAuth.
    destruct (String.prefix "Bearer " header) eqn:Hp; [|right; eauto].
    apply prefix_split in Hp. simpl String.length in Hp.
    set (token := String.substring 7 (String.length header - 7) header) in *.
    unfold truthy. destruct (String.eqb token "") eqn:Hempty; [right; eauto|].
    apply String.eqb_neq in Hempty.
    destruct (verify token) as [payload|] eqn:Hv; [|right; eauto].
    left. exists token, payload. by rewrite Hp at 1.
  - intros token payload Hne Hv. unfold requireAuth.
    rewrite prefix_app.
    change 7%nat with (String.length "Bearer "). rewrite substring_app.
    unfold truthy. apply String.eqb_neq in Hne. by rewrite Hne, Hv.
  - intros token Hne Hv. unfold requireAuth.
    rewrite prefix_app.
    change 7%nat with (String.length "Bearer "). rewrite substring_app.
    unfold truthy. apply String.eqb_neq in Hne. by rewrite Hne, Hv.
  - intros header Hp. unfold requireAuth. by rewrite Hp.
Qed.

(** X8 — An admin route runs its handler only for an administrator.
    Whatever the handler is, a request gets to it only with a token
    whose payload has the role [admin]; every other request is answered
    401 or 403 and the store is left exactly as it was. *)
Theorem admin_route_guard {B} (verify : string -> option User)
    (handler : Request B -> M (num := num) Response)
    (authorization : option string) (id : ObjectId) (slug : string)
    (body : Raw B) (env : Env) (w : @World num) :
  (exists token payload,
     authorization = Some ("Bearer " +:+ token)
     /\ verify token = Some payload
     /\ user_role payload = "admin"
     /\ admin_route verify handler authorization id slug body env w =
        handler {| req_user := payload; req_params_id := id;
                   req_params_slug := slug; req_body := body |} env w)
  \/ (exists res,
        admin_route verify handler authorization id slug body env w
        = (Normal res, w)
        /\ (res_status res = 401%nat \/ res_status res = 403%nat)).
Proof.
  unfold admin_route, user_route, requireAuth.
  destruct authorization as [header|]; [|right; eauto].
  destruct (String.prefix "Bearer " header) eqn:Hp; [|right; eauto].
  apply prefix_split in Hp. simpl String.length in Hp.
  set (token := String.substring 7 (String.length header - 7) header) in *.
  unfold truthy. destruct (String.eqb token ""); [right; eauto|].
  destruct (verify token) as [payload|] eqn:Hv; [|right; eauto].
  unfold requireAdmin. simpl.
  destruct (isAdmin payload) eqn:Hadmin; [|right; eauto].
  left. exists token, payload. apply String.eqb_eq in Hadmin.
  by rewrite Hp at 1.
Qed.

(** *** The product handlers *)

(** The query of [uniqueSlug] finds nothing exactly when the candidate is
    free. *)
Lemma find_slug_None (db : @Db num) (excludeId : option ObjectId)
    (candidate : string) :
  List.find (fun kv : ObjectId * Product =>
               String.eqb (p_slug kv.2) candidate
               && match excludeId with
                  | Some ex => negb (bool_decide (kv.1 = ex))
                  | None => true
                  end)
    (map_to_list (products db)) = None
  <-> ~ taken db excludeId candidate.
Proof.
  split.
  - intros Hfind (id & p & Hp & Hs & Hex).
    assert (Hin : In (id, p) (map_to_list (products db)))
      by (by apply list_elem_of_In, elem_of_map_to_list).
    pose proof (find_none _ _ Hfind (id, p) Hin) as Hq. simpl in Hq.
    rewrite Hs, String.eqb_refl in Hq. simpl in Hq.
    destruct excludeId as [ex|]; [|done].
    apply negb_false_iff, bool_decide_eq_true in Hq. by subst.
  - intros Hfree.
    destruct (List.find _ _) as [[id p]|] eqn:Hfind; [|done].
    apply find_some in Hfind as [Hin Hq]. simpl in Hq.
    apply list_elem_of_In, elem_of_map_to_list in Hin.
    apply andb_true_iff in Hq as [Hslug Hex].
    apply String.eqb_eq in Hslug.
    exfalso. apply Hfree. exists id, p. split; [done|]. split; [done|].
    destruct excludeId as [ex|]; [|done].
    apply negb_true_iff, bool_decide_eq_false in Hex. congruence.
Qed.

(** The slug the loop of [uniqueSlug] returns is the first free one of
    the candidates it tries, in their order. *)
Lemma uniqueSlug_loop_first (env : Env) (db : @Db num)
    (excludeId : option ObjectId) (base : string) (fuel : nat)
    (candidate : string) (n : N) (slug : string) (w : @World num) :
  uniqueSlug_loop fuel excludeId base candidate n env (idle db)
  = (Normal (Some slug), w) ->
  w = idle db
  /\ ~ taken db excludeId slug
  /\ (slug = candidate
      \/ (taken db excludeId candidate
          /\ exists m,
               (n <= m)%N /\ slug = base +:+ "-" +:+ pretty m
               /\ forall k, (n <= k < m)%N ->
                            taken db excludeId (base +:+ "-" +:+ pretty k))).
Proof.
  revert candidate n. induction fuel as [|fuel IH]; intros candidate n;
    [done|].
  simpl. unfold bind at 1, Product_findOne at 1. simpl.
  destruct (List.find _ (map_to_list (products db))) as [found|] eqn:Hfind.
  - intros Hrun. fold (idle db) in Hrun.
    assert (Htaken : taken db excludeId candidate).
    { destruct (decide (taken db excludeId candidate)) as [|Hfree];
        [done|].
      apply find_slug_None in Hfree. congruence. }
    destruct (IH _ _ Hrun) as (-> & Hfree & [->|(Hc & m & Hm & -> & Hk)]).
    + split; [done|]. split; [done|]. right. split; [done|].
      exists n. split; [lia|]. split; [done|]. intros k Hk. lia.
    + split; [done|]. split; [done|]. right. split; [done|].
      exists m. split; [lia|]. split; [done|]. intros k Hk'.
      destruct (decide (k = n)) as [->|]; [done|]. apply Hk. lia.
  - intros [= <- <-]. split; [done|]. split; [|by left].
    by apply find_slug_None.
Qed.

(** X9 — [uniqueSlug] returns the first free slug.  With more fuel than
    there are products the loop ends, without writing anything; the slug
    it returns is that of no product other than the excluded one, and it
    is the slugified base text itself when that is free, and otherwise
    [base-m] for the least [m >= 2] for which that is free. *)
Theorem uniqueSlug_first_free (env : Env) (db : @Db num) (baseText : string)
    (excludeId : option ObjectId) (fuel : nat) :
  (size (products db) < fuel)%nat ->
  let base := toSlug env baseText in
  exists slug,
    uniqueSlug fuel baseText excludeId env (idle db)
    = (Normal (Some slug), idle db)
    /\ ~ taken db excludeId slug
    /\ (slug = base
        \/ (taken db excludeId base
            /\ exists m,
                 (2 <= m)%N /\ slug = base +:+ "-" +:+ pretty m
                 /\ forall k, (2 <= k < m)%N ->
                              taken db excludeId (base +:+ "-" +:+ pretty k))).
Proof.
  intros Hfuel base.
  destruct (uniqueSlug_ends env db baseText excludeId fuel Hfuel)
    as (slug & Hrun & _).
  exists slug. split; [done|].
  by destruct (uniqueSlug_loop_first env db excludeId base fuel base 2 slug
                 (idle db) Hrun) as (_ & ? & ?).
Qed.

(** What [Category.findOne({ slug, isActive: true })] finds. *)
Lemma Category_findOne_Some (db : @Db num) (slug : string) (id : ObjectId)
    (c : Category) :
  List.find (fun kv : ObjectId * Category =>
               String.eqb (cat_slug kv.2) slug && cat_isActive kv.2)
    (map_to_list (categories db)) = Some (id, c) ->
  categories db !! id = Some c /\ cat_slug c = slug /\ cat_isActive c = true.
Proof.
  intros [Hin Hq]%find_some. simpl in Hq.
  apply list_elem_of_In, elem_of_map_to_list in Hin.
  apply andb_true_iff in Hq as [Hslug Hact].
  by apply String.eqb_eq in Hslug.
Qed.

(** X10 — [resolveCategoryRefs] answers with references that hold.  It
    writes nothing.  An id it returns is that of an active category with
    the slug given; a slug that is absent or empty gives no id; the
    subcategory returned has a parent, and that parent is the category
    returned when both are given.  It throws nothing but its four
    errors. *)
Theorem resolveCategoryRefs_sound (categorySlug subcategorySlug : option string)
    (env : Env) (db : @Db num) :
  exists r,
    resolveCategoryRefs categorySlug subcategorySlug env (idle db)
    = (r, idle db)
    /\ match r with
       | Normal (categoryId, subcategoryId) =>
           match categoryId with
           | Some id =>
               exists c, categories db !! id = Some c
                         /\ cat_isActive c = true
                         /\ categorySlug = Some (cat_slug c)
           | None => truthy categorySlug = None
           end
           /\ match subcategoryId with
              | Some id =>
                  exists s, categories db !! id = Some s
                            /\ cat_isActive s = true
                            /\ subcategorySlug = Some (cat_slug s)
                            /\ is_Some (cat_parent s)
                            /\ (is_Some categoryId ->
                                cat_parent s = categoryId)
              | None => truthy subcategorySlug = None
              end
       | Throw e =>
           err_status e = None
           /\ In (err_message e)
                ["categorySlug not found"; "subcategorySlug not found";
                 "subcategorySlug is not a subcategory";
                 "subcategory does not belong to the given category"]
       end.
Proof.
  assert (Htruthy : forall o s, truthy o = Some s -> o = Some s).
  { intros [s'|] s; simpl; [|done]. by destruct (String.eqb s' ""). }
  unfold resolveCategoryRefs. unfold bind at 1.
  destruct (truthy categorySlug) as [slug|] eqn:Hc.
  - apply Htruthy in Hc as ->.
    unfold bind at 1, Category_findOne at 1. simpl.
    destruct (List.find _ (map_to_list (categories db))) as [[cid c]|] eqn:Hfc.
    2:{ eexists. split; [reflexivity|]. simpl. split; [done|]. by left. }
    apply Category_findOne_Some in Hfc as (Hcat & <- & Hact).
    simpl. unfold bind at 1.
    destruct (truthy subcategorySlug) as [sslug|] eqn:Hs.
    + apply Htruthy in Hs as ->.
      unfold bind at 1, Category_findOne at 1. simpl.
      destruct (List.find _ (map_to_list (categories db)))
        as [[sid s]|] eqn:Hfs.
      2:{ eexists. split; [reflexivity|]. simpl. split; [done|].
          right. by left. }
      apply Category_findOne_Some in Hfs as (Hsub & <- & Hsact).
      simpl. destruct (cat_parent s) as [parent|] eqn:Hparent.
      2:{ eexists. split; [reflexivity|]. simpl. split; [done|].
          right. right. by left. }
      simpl. rewrite Hparent.
      destruct (bool_decide (Some parent = Some cid)) eqn:Hbelongs; simpl.
      * apply bool_decide_eq_true in Hbelongs.
        eexists. split; [reflexivity|]. simpl. split; [by exists c|].
        exists s. rewrite Hparent. by eauto 10.
      * eexists. split; [reflexivity|]. simpl. split; [done|].
        right. right. right. by left.
    + eexists. split; [reflexivity|]. simpl. split; [by exists c|done].
  - simpl. unfold bind at 1.
    destruct (truthy subcategorySlug) as [sslug|] eqn:Hs.
    + apply Htruthy in Hs as ->.
      unfold bind at 1, Category_findOne at 1. simpl.
      destruct (List.find _ (map_to_list (categories db)))
        as [[sid s]|] eqn:Hfs.
      2:{ eexists. split; [reflexivity|]. simpl. split; [done|].
          right. by left. }
      apply Category_findOne_Some in Hfs as (Hsub & <- & Hsact).
      simpl. destruct (cat_parent s) as [parent|] eqn:Hparent.
      2:{ eexists. split; [reflexivity|]. simpl. split; [done|].
          right. right. by left. }
      simpl. eexists. split; [reflexivity|]. simpl. split; [done|].
      exists s. rewrite Hparent. repeat split; try done;
        by intros [? [=]].
    + eexists. split; [reflexivity|]. by simpl.
Qed.

(** The loop of [uniqueSlug] reads only, and does not throw. *)
Lemma uniqueSlug_loop_reads (env : Env) (db : @Db num)
    (excludeId : option ObjectId) (base : string) (fuel : nat)
    (candidate : string) (n : N) :
  exists x,
    uniqueSlug_loop fuel excludeId base candidate n env (idle db)
    = (Normal x, idle db).
Proof.
  revert candidate n. induction fuel as [|fuel IH]; intros candidate n;
    [by eexists|].
  simpl. unfold bind at 1, Product_findOne at 1. simpl.
  destruct (List.find _ (map_to_list (products db))); [|by eexists].
  apply IH.
Qed.

(** Computations that only read. *)
Lemma reads_pure {A} (f : Env -> Db -> Completion A) :
  reads (num := num) (fun env w => (f env (view false w), w)).
Proof. intros env db. by eexists. Qed.

Lemma reads_bind {A B} (m : M A) (k : A -> M B) :
  reads (num := num) m -> (forall a, reads (k a)) -> reads (bind m k).
Proof.
  intros Hm Hk env db. unfold bind.
  destruct (Hm env db) as ([a|e] & ->); [apply Hk|by eexists].
Qed.

Lemma reads_try_catch {A} (m : M A) (h : Error -> M A) :
  reads (num := num) m -> (forall e, reads (h e)) -> reads (try_catch m h).
Proof.
  intros Hm Hh env db. unfold try_catch.
  destruct (Hm env db) as ([a|e] & ->); [by eexists|apply Hh].
Qed.

(** Decomposes a goal [reads m] along the structure of [m]. *)
#[local] Ltac reads :=
  repeat first
    [ apply reads_bind; [|intros ?]
    | apply reads_try_catch; [|intros ?]
    | apply (reads_pure (fun _ _ => Normal _))
    | apply (reads_pure (fun _ _ => Throw _))
    | apply (reads_pure (fun env _ => Normal env))
    | apply (reads_pure
               (fun _ db => Normal (List.find _ (map_to_list (products db)))))
    | apply (reads_pure
               (fun _ db => Normal (List.find _ (map_to_list (categories db)))))
    | apply (reads_pure (fun _ db => Normal (orders db !! _)))
    | match goal with
      | |- reads (match ?x with _ => _ end) => destruct x
      | |- reads (if ?x then _ else _) => destruct x
      | |- reads (let (_, _) := ?x in _) => destruct x
      end ].

(** [resolveCategoryRefs] reads only. *)
Lemma resolveCategoryRefs_reads (categorySlug subcategorySlug : option string) :
  reads (num := num) (resolveCategoryRefs categorySlug subcategorySlug).
Proof. unfold resolveCategoryRefs. reads. Qed.

(** Replacing a product by a document whose slug is its own or free
    keeps the slugs unique. *)
Lemma unique_slugs_insert (db : @Db num) (id : ObjectId)
    (current doc : @Product num) :
  unique_slugs db ->
  products db !! id = Some current ->
  p_slug doc = p_slug current \/ ~ taken db (Some id) (p_slug doc) ->
  unique_slugs (set_products <[id := doc]> db).
Proof.
  intros Huniq Hcur Hslug i j p q. simpl.
  assert (Hother : forall k r, k <> id -> products db !! k = Some r ->
                               p_slug r <> p_slug doc).
  { intros k r Hk Hr Heq. destruct Hslug as [Hsame|Hfree].
    - apply Hk. apply (Huniq k id r current Hr Hcur). congruence.
    - apply Hfree. exists k, r. repeat split; [done..|congruence]. }
  destruct (decide (i = id)) as [->|Hi], (decide (j = id)) as [->|Hj];
    [done|..].
  - rewrite lookup_insert_eq, lookup_insert_ne by done.
    intros [= <-] Hq Heq. by destruct (Hother j q Hj Hq).
  - rewrite lookup_insert_eq, lookup_insert_ne by done.
    intros Hp [= <-] Heq. by destruct (Hother i p Hi Hp).
  - rewrite !lookup_insert_ne by done. apply Huniq.
Qed.

(** The [try]/[catch] around [resolveCategoryRefs] in [createProduct] and
    [updateProduct]: the references, or the 400 answer with the message of
    what was thrown; nothing is written. *)
Lemma category_refs_caught (categorySlug subcategorySlug : option string)
    (env : Env) (db : @Db num) :
  exists r,
    try_catch
      (bind (resolveCategoryRefs categorySlug subcategorySlug)
         (fun r => ret (inr r)))
      (fun e =>
         bind (respond 400 (JsonMessage (err_message e)))
           (fun res => ret (inl res)))
      env (idle db)
    = (Normal r, idle db)
    /\ forall res : @Response num, r = inl res -> res_status res = 400%nat.
Proof.
  unfold try_catch, bind at 1.
  destruct (resolveCategoryRefs_reads categorySlug subcategorySlug env db)
    as ([r|e] & ->).
  - eexists. split; [reflexivity|]. by intros res [=].
  - eexists. split; [reflexivity|]. by intros res [= <-].
Qed.

(** The stock a product body asks for is not negative. *)
Lemma z_int_nonnegative_optional (r : Raw Z) (s : Z) :
  z_optional z_int_nonnegative r = Some (Some s) -> 0 <= s.
Proof.
  destruct r as [|x|]; simpl; try done.
  destruct (0 <=? x) eqn:Hx; simpl; [|done]. intros [= <-]. lia.
Qed.

Lemma updateSchema_stock (env : Env) (r : Raw (@RawUpdateProduct num))
    (data : @UpdateProductBody num) (s : Z) :
  updateSchema env r = Some data -> u_stock data = Some s -> 0 <= s.
Proof.
  destruct r as [|b|]; simpl; try done.
  destruct (z_optional (z_string_min 2) (raw_title b)); simpl; [|done].
  destruct (z_optional (z_string_min 2) (raw_slug b)); simpl; [|done].
  destruct (z_optional z_boolean (raw_regenerateSlug b)); simpl; [|done].
  destruct (z_optional z_string (raw_description b)); simpl; [|done].
  destruct (z_optional z_number_nonnegative (raw_price b)); simpl; [|done].
  destruct (z_optional z_int_nonnegative (raw_stock b)) as [stock|] eqn:Hs;
    simpl; [|done].
  destruct (z_optional (z_array_url env) (raw_images b)); simpl; [|done].
  destruct (z_optional z_boolean (raw_isActive b)); simpl; [|done].
  destruct (z_optional z_string (raw_categorySlug b)); simpl; [|done].
  destruct (z_optional z_string (raw_subcategorySlug b)); simpl; [|done].
  intros [= <-]. simpl. intros ->.
  by apply (z_int_nonnegative_optional (raw_stock b)).
Qed.

Lemma createSchema_stock (env : Env) (r : Raw (@RawUpdateProduct num))
    (data : @CreateProductBody num) (s : Z) :
  createSchema env r = Some data -> c_stock data = Some s -> 0 <= s.
Proof.
  destruct r as [|b|]; simpl; try done.
  destruct (z_string_min 2 (raw_title b)); simpl; [|done].
  destruct (z_optional (z_string_min 2) (raw_slug b)); simpl; [|done].
  destruct (z_optional z_string (raw_description b)); simpl; [|done].
  destruct (z_number_nonnegative (raw_price b)); simpl; [|done].
  destruct (z_optional z_int_nonnegative (raw_stock b)) as [stock|] eqn:Hs;
    simpl; [|done].
  destruct (z_optional (z_array_url env) (raw_images b)); simpl; [|done].
  destruct (z_optional z_string (raw_categorySlug b)); simpl; [|done].
  destruct (z_optional z_string (raw_subcategorySlug b)); simpl; [|done].
  intros [= <-]. simpl. intros ->.
  by apply (z_int_nonnegative_optional (raw_stock b)).
Qed.

(** [updateProduct] either leaves the database as it is, or has replaced
    the one product it found by a valid document whose slug is the
    product's own or free; the latter is what it answers 200 to. *)
Lemma updateProduct_effect (fuel : nat)
    (req : Request (@RawUpdateProduct num)) (env : Env) (db : @Db num) :
  exists r db',
    run (updateProduct fuel req) env db = (r, db')
    /\ ((db' = db
         /\ forall res, r = Normal (Some res) -> res_status res <> 200%nat)
        \/ exists id current doc,
             products db !! id = Some current
             /\ p_slug current = req_params_slug req
             /\ db' = set_products <[id := doc]> db
             /\ productSchema_valid doc = true
             /\ (p_slug doc = p_slug current
                 \/ ~ taken db (Some id) (p_slug doc))
             /\ (0 <= p_stock current -> 0 <= p_stock doc)
             /\ r = Normal (Some {| res_status := 200;
                                    res_body := JsonItem (Some (id, doc)) |})).
Proof.
  unfold run, updateProduct.
  unfold bind at 1, get_env at 1. unfold bind at 1, parse at 1.
  destruct (updateSchema env (req_body req)) as [data|] eqn:Hdata;
    [|eexists _, _; split; [reflexivity|by left]].
  unfold bind at 1, Product_findOne at 1. simpl.
  destruct (List.find _ (map_to_list (products db)))
    as [[id current]|] eqn:Hfind;
    [|eexists _, _; split; [reflexivity|left; split; [done|]];
      by intros res [= <-]].
  apply find_some in Hfind as [Hin Hq]. simpl in Hq.
  apply list_elem_of_In, elem_of_map_to_list in Hin.
  apply String.eqb_eq in Hq.
  fold (idle db). unfold bind at 1.
  assert (Hslug : exists x,
    match truthy (u_slug data) with
    | Some s => uniqueSlug fuel s (Some id)
    | None =>
        match u_regenerateSlug data, truthy (u_title data) with
        | Some true, Some t => uniqueSlug fuel t (Some id)
        | _, _ => ret (Some (p_slug current))
        end
    end env (idle db) = (Normal x, idle db)
    /\ forall slug, x = Some slug ->
         slug = p_slug current \/ ~ taken db (Some id) slug).
  { assert (Huniq : forall baseText, exists x,
      uniqueSlug fuel baseText (Some id) env (idle db) = (Normal x, idle db)
      /\ forall slug, x = Some slug ->
           slug = p_slug current \/ ~ taken db (Some id) slug).
    { intros baseText. unfold uniqueSlug, bind, get_env.
      destruct (uniqueSlug_loop_reads env db (Some id) (toSlug env baseText)
                  fuel (toSlug env baseText) 2) as (x & Hx).
      exists x. split; [done|]. intros slug ->. right.
      by apply uniqueSlug_loop_first in Hx as (_ & ? & _). }
    destruct (truthy (u_slug data)) as [s|]; [apply Huniq|].
    destruct (u_regenerateSlug data) as [[]|];
      try (eexists; split; [reflexivity|]; intros slug [= <-]; by left).
    destruct (truthy (u_title data)) as [t|]; [apply Huniq|].
    eexists; split; [reflexivity|]; intros slug [= <-]; by left. }
  destruct Hslug as (x & -> & Hx).
  destruct x as [slug|]; [|eexists _, _; split; [reflexivity|by left]].
  specialize (Hx slug eq_refl).
  unfold bind at 1.
  assert (Hrefs : exists r,
    match u_categorySlug data, u_subcategorySlug data with
    | None, None => ret (inr (p_category current, p_subcategory current))
    | _, _ =>
        try_catch
          (bind (resolveCategoryRefs (u_categorySlug data)
                   (u_subcategorySlug data)) (fun r => ret (inr r)))
          (fun e =>
             bind (respond 400 (JsonMessage (err_message e)))
               (fun res => ret (inl res)))
    end env (idle db) = (Normal r, idle db)
    /\ forall res, r = inl res -> res_status res = 400%nat).
  { pose proof (category_refs_caught (u_categorySlug data)
                  (u_subcategorySlug data) env db) as Htry.
    destruct (u_categorySlug data), (u_subcategorySlug data);
      try apply Htry.
    eexists. split; [reflexivity|]. by intros res [=]. }
  destruct Hrefs as (refs & -> & Hrefs).
  destruct refs as [res|[categoryId subcategoryId]].
  { eexists _, _. split; [reflexivity|]. left. split; [done|].
    intros res' [= <-]. by rewrite (Hrefs res eq_refl). }
  unfold bind at 1, Product_save at 1, db_call at 1.
  destruct (faults env OpProductSave);
    [eexists _, _; split; [reflexivity|by left]|].
  match goal with
  | |- context [productSchema_valid ?d] =>
      set (doc := d); destruct (productSchema_valid doc) eqn:Hvalid
  end; [|eexists _, _; split; [reflexivity|by left]].
  simpl. rewrite lookup_insert_eq. simpl.
  eexists _, _. split; [reflexivity|]. right.
  exists id, current, doc. repeat split; try done.
  intros Hpos. subst doc. simpl.
  destruct (u_stock data) as [s|] eqn:Hs; [|done]. simpl.
  by apply (updateSchema_stock env (req_body req) data).
Qed.

(** X11 — [updateProduct] keeps the slugs unique.  Whatever the body
    asks for (a new slug, a regenerated one, or none), whatever the
    handler answers and whatever fails, no two products have the same
    slug after it if none had before; and it changes at most the one
    product whose slug is in the URL, answering 200 only if the changed
    document is stored and valid. *)
Theorem updateProduct_keeps_slugs_unique (fuel : nat)
    (req : Request (@RawUpdateProduct num)) (env : Env) (db : @Db num) :
  unique_slugs db ->
  let '(r, db') := run (updateProduct fuel req) env db in
  unique_slugs db'
  /\ (forall id p, products db !! id = Some p ->
                   p_slug p <> req_params_slug req ->
                   products db' !! id = Some p)
  /\ dom (products db') = dom (products db)
  /\ forall res, r = Normal (Some res) -> res_status res = 200%nat ->
       exists id doc,
         res_body res = JsonItem (Some (id, doc))
         /\ products db' !! id = Some doc
         /\ productSchema_valid doc = true.
Proof.
  intros Huniq.
  destruct (updateProduct_effect fuel req env db)
    as (r & db' & -> & [[-> Hnot]|(id & current & doc & Hcur & Hslug & ->
                                    & Hvalid & Hfree & _ & ->)]).
  - split; [done|]. split; [done|]. split; [done|].
    intros res Hr Hst. by destruct (Hnot res Hr).
  - split; [by eapply unique_slugs_insert|]. split; [|split].
    + intros k p Hp Hne. simpl. rewrite lookup_insert_ne; [done|].
      intros <-. congruence.
    + simpl. rewrite dom_insert_L.
      apply subseteq_union_1_L, singleton_subseteq_l.
      by eapply elem_of_dom_2.
    + intros res [= <-] _. exists id, doc. simpl.
      by rewrite lookup_insert_eq.
Qed.

(** X12 — What [createProduct] does.  With more fuel than there are
    products and a driver that does not fail, [createProduct] is never
    cut short and has one of four outcomes: a [ZodError] for a body the
    schema rejects; 400 for category references that do not resolve; a
    validation error of the model; or 201, and then exactly one product
    has been added,
    under a new id, active, with the body's title and price, a stock and
    images that default to [0] and [[]], and a slug no other product
    has.  It never runs into the unique index on the slug, and nothing is
    written unless it answers 201. *)
Theorem createProduct_outcomes (fuel : nat)
    (req : Request (@RawUpdateProduct num)) (env : Env) (db : @Db num) :
  (size (products db) < fuel)%nat ->
  faults env OpProductSave = None ->
  exists r db',
    run (createProduct fuel req) env db = (r, db')
    /\ match r with
       | Normal None => False
       | Normal (Some res) =>
           (res_status res = 400%nat /\ db' = db)
           \/ exists data id p,
                createSchema env (req_body req) = Some data
                /\ res = {| res_status := 201;
                            res_body := JsonItem (Some (id, p)) |}
                /\ products db !! id = None
                /\ db' = set_products <[id := p]> db
                /\ (forall j q, products db !! j = Some q ->
                                p_slug q <> p_slug p)
                /\ p_title p = c_title data
                /\ p_price p = c_price data
                /\ p_stock p = default 0 (c_stock data)
                /\ p_images p = default [] (c_images data)
                /\ p_isActive p = true
                /\ (unique_slugs db -> unique_slugs db')
       | Throw e =>
           db' = db
           /\ ((createSchema env (req_body req) = None
                /\ e = ZodError env (createSchema_issues env (req_body req)))
               \/ e = new_Error "Product validation failed")
       end.
Proof.
  intros Hfuel Hfault. unfold run, createProduct.
  unfold bind at 1, get_env at 1. unfold bind at 1, parse at 1.
  destruct (createSchema env (req_body req)) as [data|] eqn:Hdata.
  2:{ eexists _, _. split; [reflexivity|]. split; [done|]. by left. }
  unfold bind at 1. fold (idle db).
  destruct (uniqueSlug_ends env db
              match truthy (c_slug data) with
              | Some s => toSlug env s
              | None => c_title data
              end None fuel Hfuel) as (slug & -> & Hfree).
  unfold bind at 1.
  destruct (category_refs_caught (c_categorySlug data)
              (c_subcategorySlug data) env db) as (refs & -> & Hrefs).
  destruct refs as [res|[categoryId subcategoryId]].
  { eexists _, _. split; [reflexivity|]. left.
    by rewrite (Hrefs res eq_refl). }
  unfold bind at 1, Product_create at 1, db_call at 1. rewrite Hfault.
  match goal with
  | |- context [productSchema_valid ?d] =>
      set (doc := d); destruct (productSchema_valid doc) eqn:Hvalid
  end.
  2:{ eexists _, _. split; [reflexivity|]. split; [done|]. by right. }
  assert (Hnone : forall j q, products db !! j = Some q ->
                              p_slug q <> p_slug doc).
  { intros j q Hq Heq. by specialize (Hfree j q Hq Heq). }
  simpl.
  destruct (List.find _ (map_to_list (products db))) as [[j q]|] eqn:Hfind.
  { apply find_some in Hfind as [Hin Heq]. simpl in Heq.
    apply list_elem_of_In, elem_of_map_to_list in Hin.
    apply String.eqb_eq in Heq. by destruct (Hnone j q Hin). }
  simpl. eexists _, _. split; [reflexivity|]. right.
  assert (Hnew : products db !! fresh (dom (products db)) = None)
    by apply not_elem_of_dom, is_fresh.
  exists data, (fresh (dom (products db))), doc.
  repeat split; try done.
  intros Huniq i j p q. simpl.
  destruct (decide (i = fresh (dom (products db)))) as [->|Hi],
           (decide (j = fresh (dom (products db)))) as [->|Hj]; [done|..].
  - rewrite lookup_insert_eq, lookup_insert_ne by done.
    intros [= <-] Hq Heq. by destruct (Hnone j q Hq).
  - rewrite lookup_insert_eq, lookup_insert_ne by done.
    intros Hp [= <-] Heq. by destruct (Hnone i p Hp).
  - rewrite !lookup_insert_ne by done. apply Huniq.
Qed.

(** With unique slugs, a query by slug finds the product that has it. *)
Lemma find_by_slug (db : @Db num) (id : ObjectId) (p : @Product num) :
  unique_slugs db ->
  products db !! id = Some p ->
  List.find (fun kv : ObjectId * Product =>
               String.eqb (p_slug kv.2) (p_slug p))
    (map_to_list (products db)) = Some (id, p).
Proof.
  intros Huniq Hp.
  destruct (List.find _ (map_to_list (products db))) as [[j q]|] eqn:Hfind.
  - apply find_some in Hfind as [Hin Heq]. simpl in Heq.
    apply list_elem_of_In, elem_of_map_to_list in Hin.
    apply String.eqb_eq in Heq.
    assert (j = id) as -> by (by apply (Huniq j id q p)).
    congruence.
  - assert (Hin : In (id, p) (map_to_list (products db)))
      by (by apply list_elem_of_In, elem_of_map_to_list).
    pose proof (find_none _ _ Hfind (id, p) Hin) as Hq. simpl in Hq.
    by rewrite String.eqb_refl in Hq.
Qed.

Lemma deleteProduct_unfold {B} (req : Request B) (env : Env) (db : @Db num) :
  run (deleteProduct req) env db =
  match List.find (fun kv : ObjectId * Product =>
                     String.eqb (p_slug kv.2) (req_params_slug req))
          (map_to_list (products db)) with
  | Some (id, p) =>
      (Normal {| res_status := 200; res_body := JsonOk |},
       set_products <[id := set_isActive false p]> db)
  | None =>
      (Normal {| res_status := 404; res_body := JsonMessage "Not found" |},
       db)
  end.
Proof.
  unfold run, deleteProduct, bind, Product_findOneAndUpdate. simpl.
  by destruct (List.find _ (map_to_list (products db))) as [[id p]|].
Qed.

(** A query for an active product by a slug that only inactive products
    have finds nothing. *)
Lemma find_active_None (db : @Db num) (slug : string) :
  (forall id p, products db !! id = Some p -> p_slug p = slug ->
                p_isActive p = false) ->
  List.find (fun kv : ObjectId * Product =>
               String.eqb (p_slug kv.2) slug && p_isActive kv.2)
    (map_to_list (products db)) = None.
Proof.
  intros Hoff.
  destruct (List.find _ (map_to_list (products db))) as [[j q]|] eqn:Hfind;
    [|done].
  apply find_some in Hfind as [Hin Hq]. simpl in Hq.
  apply list_elem_of_In, elem_of_map_to_list in Hin.
  apply andb_true_iff in Hq as [Hslug Hact].
  apply String.eqb_eq in Hslug. by rewrite (Hoff j q Hin Hslug) in Hact.
Qed.

(** What [deleteProduct] leaves of the products, when slugs are unique. *)
Lemma deleteProduct_products {B} (req : Request B) (env : Env)
    (db : @Db num) :
  unique_slugs db ->
  forall id,
    products (run (deleteProduct req) env db).2 !! id =
    (fun p => if String.eqb (p_slug p) (req_params_slug req)
              then set_isActive false p else p) <$> products db !! id.
Proof.
  intros Huniq id. rewrite deleteProduct_unfold.
  destruct (List.find _ (map_to_list (products db))) as [[j q]|] eqn:Hfind.
  - apply find_some in Hfind as [Hin Heq]. simpl in Heq.
    apply list_elem_of_In, elem_of_map_to_list in Hin. simpl.
    destruct (decide (id = j)) as [->|Hne].
    + by rewrite lookup_insert_eq, Hin; simpl; rewrite Heq.
    + rewrite lookup_insert_ne by done.
      destruct (products db !! id) as [p|] eqn:Hp; [|done]. simpl.
      destruct (String.eqb (p_slug p) (req_params_slug req)) eqn:Hs; [|done].
      apply String.eqb_eq in Hs, Heq. destruct Hne.
      apply (Huniq id j p q Hp Hin). congruence.
  - simpl. destruct (products db !! id) as [p|] eqn:Hp; [|done]. simpl.
    assert (Hin : In (id, p) (map_to_list (products db)))
      by (by apply list_elem_of_In, elem_of_map_to_list).
    pose proof (find_none _ _ Hfind (id, p) Hin) as Hq. simpl in Hq.
    by rewrite Hq.
Qed.

(** X13 — [deleteProduct] is a soft delete that hides the product.
    With unique slugs, the handler answers 200 exactly when a product
    has the slug, and then that product is stored inactive, every field
    of every product being otherwise kept and nothing else written; no
    product is removed.  From then on [getProduct] answers 404 for the
    slug, and [addItem] and [updateItem] answer 404 ['Product not found']
    for it, without writing. *)
Theorem deleted_product_hidden {B C} (req : Request B) (env : Env)
    (db : @Db num) :
  unique_slugs db ->
  let slug := req_params_slug req in
  let '(r, db') := run (deleteProduct req) env db in
  (forall id,
     products db' !! id =
     (fun p => if String.eqb (p_slug p) slug then set_isActive false p
               else p) <$> products db !! id)
  /\ same_but_products db db'
  /\ ((r = Normal {| res_status := 200; res_body := JsonOk |}
       /\ taken db None slug)
      \/ (r = Normal {| res_status := 404;
                        res_body := JsonMessage "Not found" |}
          /\ ~ taken db None slug /\ db' = db))
  /\ (forall env' (req' : Request C),
        req_params_slug req' = slug ->
        run (getProduct req') env' db' =
        (Normal {| res_status := 404; res_body := JsonMessage "Not found" |},
         db'))
  /\ (forall env' (req' : Request RawAddItem) data,
        addSchema (req_body req') = Some data ->
        add_productSlug data = slug ->
        run (addItem req') env' db' =
        (Normal {| cres_status := 404;
                   cres_body := CartMessage "Product not found" |}, db'))
  /\ (forall env' (req' : Request RawUpdateItem) qty,
        updateItemSchema (req_body req') = Some qty ->
        req_params_slug req' = slug ->
        run (updateItem req') env' db' =
        (Normal {| cres_status := 404;
                   cres_body := CartMessage "Product not found" |}, db')).
Proof.
  intros Huniq slug.
  pose proof (deleteProduct_products req env db Huniq) as Hprod.
  pose proof (deleteProduct_unfold req env db) as Hrun.
  destruct (run (deleteProduct req) env db) as [r db'] eqn:Hdel.
  simpl in Hprod. fold slug in Hprod.
  assert (Hoff : forall id p, products db' !! id = Some p ->
                              p_slug p = slug -> p_isActive p = false).
  { intros id p Hp Hs. rewrite Hprod in Hp.
    destruct (products db !! id) as [p0|]; [|done].
    injection Hp as <-.
    destruct (String.eqb (p_slug p0) slug) eqn:Heq; [done|].
    apply String.eqb_neq in Heq. by destruct Heq. }
  apply find_active_None in Hoff.
  split; [exact Hprod|]. split; [|split; [|split; [|split]]].
  - destruct (List.find _ (map_to_list (products db))) as [[j q]|];
      by injection Hrun as _ ->.
  - destruct (List.find _ (map_to_list (products db))) as [[j q]|] eqn:Hfind;
      injection Hrun as -> ->.
    + left. split; [done|].
      apply find_some in Hfind as [Hin Heq]. simpl in Heq.
      apply list_elem_of_In, elem_of_map_to_list in Hin.
      apply String.eqb_eq in Heq. by exists j, q.
    + right. split; [done|]. split; [|done].
      intros (id & p & Hp & Hs & _).
      assert (Hin : In (id, p) (map_to_list (products db)))
        by (by apply list_elem_of_In, elem_of_map_to_list).
      pose proof (find_none _ _ Hfind (id, p) Hin) as Hq. simpl in Hq.
      by rewrite Hs, String.eqb_refl in Hq.
  - intros env' req' Hs. unfold run, getProduct, bind, Product_findOne.
    simpl. by rewrite Hs, Hoff.
  - intros env' req' data Hdata Hs.
    unfold run, addItem, bind at 1, parse. rewrite Hdata.
    unfold bind, Product_findOne. simpl. by rewrite Hs, Hoff.
  - intros env' req' qty Hdata Hs.
    unfold run, updateItem, bind at 1, parse. rewrite Hdata.
    unfold bind, Product_findOne. simpl. by rewrite Hs, Hoff.
Qed.

(** A cart with a line the first loop rejects is answered 400, and
    nothing is written. *)
Lemma createOrder_rejects (env : Env) (req : Request RawCreateOrder)
    (db : @Db num) (body : CreateOrderBody) :
  createOrderSchema (req_body req) = Some body ->
  Exists (fun c => acceptable (populate db c) = false)
    (cart_lines db (user_id (req_user req))) ->
  exists msg,
    run (createOrder req) env db =
    (Normal {| res_status := 400; res_body := JsonMessage msg |}, db).
Proof.
  intros Hbody Hex. unfold cart_lines in Hex.
  destruct (carts db !! user_id (req_user req)) as [cart|] eqn:Hcart;
    [|by apply Exists_nil in Hex].
  simpl in Hex.
  apply first_failing in Hex as (pre & ci & post & Hitems & Hpre & Hci).
  eexists. rewrite createOrder_unfold, Hbody.
  apply createOrder_from_rejected. unfold cart_of. rewrite Hcart. simpl.
  rewrite Hitems, map_app. simpl.
  rewrite (build_snapshot_first (map (populate db) pre)
             (map (populate db) post) (populate db ci) num_zero []);
    [|by apply Forall_map|done].
  by destruct pre.
Qed.

(** X14 — A deleted product blocks the checkout of the carts that hold
    it.  Once [deleteProduct] has run for a product's slug (slugs being
    unique), every [createOrder] of a user whose cart has a line for that
    product is answered 400 and writes nothing, whatever else the cart
    holds: the line stays in the cart, and the product is not sold. *)
Theorem deleted_product_blocks_checkout {B} (req : Request B)
    (req' : Request RawCreateOrder) (env env' : Env) (db : @Db num)
    (id : ObjectId) (p : @Product num) (body : CreateOrderBody) :
  unique_slugs db ->
  products db !! id = Some p ->
  p_slug p = req_params_slug req ->
  createOrderSchema (req_body req') = Some body ->
  let db' := (run (deleteProduct req) env db).2 in
  In id (map ci_product (cart_lines db' (user_id (req_user req')))) ->
  carts db' = carts db
  /\ exists msg,
       run (createOrder req') env' db' =
       (Normal {| res_status := 400; res_body := JsonMessage msg |}, db').
Proof.
  intros Huniq Hp Hslug Hbody db' Hin.
  pose proof (deleteProduct_products req env db Huniq id) as Hoff.
  fold db' in Hoff. rewrite Hp in Hoff. simpl in Hoff.
  rewrite Hslug, String.eqb_refl in Hoff.
  split.
  { subst db'. rewrite deleteProduct_unfold.
    by destruct (List.find _ (map_to_list (products db))) as [[j q]|]. }
  apply (createOrder_rejects env' req' db' body Hbody).
  apply in_map_iff in Hin as (ci & Hid & Hci%list_elem_of_In).
  apply Exists_exists. exists ci. split; [done|].
  unfold acceptable, unavailable, populate. simpl.
  by rewrite Hid, Hoff.
Qed.

(** *** The cart handlers *)

Lemma same_but_cart_trans (user : ObjectId) (db1 db2 db3 : @Db num) :
  same_but_cart user db1 db2 -> same_but_cart user db2 db3 ->
  same_but_cart user db1 db3.
Proof.
  intros (Hp1 & Hc1 & Ho1 & Hu1) (Hp2 & Hc2 & Ho2 & Hu2).
  repeat split; try congruence. intros u Hu. by rewrite Hu2, Hu1.
Qed.

Lemma only_cart_reads (user : ObjectId) {A} (m : M A) :
  reads (num := num) m -> only_cart user m.
Proof.
  intros Hm env db. destruct (Hm env db) as (r & ->).
  exists r, db. by repeat split.
Qed.

Lemma only_cart_bind (user : ObjectId) {A B} (m : M A) (k : A -> M B) :
  only_cart (num := num) user m -> (forall a, only_cart user (k a)) ->
  only_cart user (bind m k).
Proof.
  intros Hm Hk env db. unfold bind.
  destruct (Hm env db) as ([a|e] & db1 & -> & H1).
  - destruct (Hk a env db1) as (r & db2 & -> & H2).
    exists r, db2. split; [done|]. by eapply same_but_cart_trans.
  - by exists (Throw e), db1.
Qed.

Lemma only_cart_Cart_save (user : ObjectId) (items : list CartItem) :
  only_cart (num := num) user (Cart_save user items false).
Proof.
  intros env db. unfold Cart_save, db_call.
  destruct (faults env OpCartSave).
  - eexists _, db. by repeat split.
  - eexists _, _. split; [reflexivity|]. repeat split; simpl.
    intros u Hu. by rewrite lookup_insert_ne.
Qed.

Lemma reads_parse {A B} (schema : Raw A -> option B)
    (issues : Raw A -> list (list string)) (body : Raw A) :
  reads (num := num) (parse schema issues body).
Proof. intros env db. unfold parse. destruct (schema body); by eexists. Qed.

Lemma reads_findIndex (product : ObjectId) (items : list (@CartDocItem num))
    (n : nat) :
  reads (num := num) (findIndex product items n).
Proof.
  revert n. induction items as [|i rest IH]; intros n; simpl; reads.
  apply IH.
Qed.

Lemma reads_filter_out (product : ObjectId)
    (items : list (@CartDocItem num)) :
  reads (num := num) (filter_out product items).
Proof. induction items as [|i rest IH]; simpl; reads. apply IH. Qed.

Lemma reads_computeTotals (cart : list (@CartDocItem num)) :
  reads (num := num) (computeTotals cart).
Proof. unfold computeTotals. reads. Qed.

Lemma reads_Cart_populate (cart : list (@CartDocItem num)) :
  reads (num := num) (Cart_populate cart).
Proof.
  apply (reads_pure
           (fun _ db => Normal (map (fun it => populate_doc db (depopulate it))
                                  cart))).
Qed.

Lemma reads_Cart_findOne_doc (user : ObjectId) :
  reads (num := num) (Cart_findOne_doc user).
Proof.
  apply (reads_pure
           (fun _ db => Normal ((fun c => map (populate_doc db) (cart_items c))
                                  <$> carts db !! user))).
Qed.

(** Decomposes a goal [only_cart user m] along the structure of [m]. *)
#[local] Ltac only_cart :=
  repeat first
    [ apply only_cart_bind; [|intros ?]
    | apply only_cart_Cart_save
    | apply only_cart_reads;
      first [ apply reads_parse | apply reads_findIndex
            | apply reads_filter_out | apply reads_computeTotals
            | apply reads_Cart_populate | apply reads_Cart_findOne_doc
            | apply (reads_pure (fun _ _ => Normal _))
            | apply (reads_pure (fun _ _ => Throw _))
            | apply (reads_pure
                       (fun _ db =>
                          Normal (List.find _ (map_to_list (products db))))) ]
    | match goal with
      | |- only_cart _ (match ?x with _ => _ end) => destruct x
      | |- only_cart _ (if ?x then _ else _) => destruct x
      | |- only_cart _ (let (_, _) := ?x in _) => destruct x
      end ].

Lemma only_cart_getOrCreateCart (user : ObjectId) :
  only_cart (num := num) user (getOrCreateCart user).
Proof. unfold getOrCreateCart. only_cart. Qed.

Lemma only_cart_Cart_save_doc (user : ObjectId)
    (cart : list (@CartDocItem num)) :
  only_cart (num := num) user (Cart_save_doc user cart).
Proof. unfold Cart_save_doc. only_cart. Qed.

Lemma only_cart_save_and_answer (user : ObjectId) (status : nat)
    (cart : list (@CartDocItem num)) :
  only_cart (num := num) user (save_and_answer user status cart).
Proof.
  unfold save_and_answer, respond_totals, cart_respond.
  apply only_cart_bind; [apply only_cart_Cart_save_doc|intros _].
  only_cart.
Qed.

Lemma only_cart_cart_router (user : User) (r : CartRequest) :
  only_cart (num := num) (user_id user) (cart_router user r).
Proof.
  destruct r; simpl;
    unfold getCart, addItem, updateItem, removeItem, clearCart,
      respond_totals, cart_respond, Product_findOne;
    simpl;
    repeat first
      [ apply only_cart_getOrCreateCart
      | apply only_cart_save_and_answer
      | apply only_cart_Cart_save_doc
      | apply only_cart_bind; [|intros ?]
      | progress only_cart ].
Qed.

(** X15 — A cart request touches one cart.  Whatever a request of the
    cart router is, whatever it answers and whatever fails, it ends with
    the products (so every stock and price), the orders, the categories
    and the carts of all other users exactly as they were. *)
Theorem cart_request_frame (user : User) (r : CartRequest) (env : Env)
    (db : @Db num) :
  exists res db',
    cart_router user r env (idle db) = (res, idle db')
    /\ products db' = products db
    /\ categories db' = categories db
    /\ orders db' = orders db
    /\ forall u, u <> user_id user -> carts db' !! u = carts db !! u.
Proof. exact (only_cart_cart_router user r env db). Qed.

(** Well-formedness of the carts depends on the products and on the
    stored lines only. *)
Lemma carts_wf_ext (db db' : @Db num) :
  products db' = products db ->
  (forall u, cart_lines db' u = cart_lines db u) ->
  carts_wf db -> carts_wf db'.
Proof.
  intros Hp Hl Hwf u. unfold cart_wf. rewrite Hl, Hp. apply Hwf.
Qed.

Lemma cart_lines_ensure_cart (user u : ObjectId) (db : @Db num) :
  cart_lines (ensure_cart user db) u = cart_lines db u.
Proof.
  unfold ensure_cart, cart_lines.
  destruct (carts db !! user) eqn:Hc; [done|]. simpl.
  destruct (decide (u = user)) as [->|Hne].
  - by rewrite lookup_insert_eq, Hc.
  - by rewrite lookup_insert_ne.
Qed.

Lemma products_ensure_cart (user : ObjectId) (db : @Db num) :
  products (ensure_cart user db) = products db.
Proof. unfold ensure_cart. by destruct (carts db !! user). Qed.

Lemma cart_lines_set_cart (user u : ObjectId) (items : list CartItem)
    (db : @Db num) :
  cart_lines (set_cart user items db) u =
  if decide (u = user) then items else cart_lines db u.
Proof.
  unfold cart_lines, set_cart. simpl. destruct (decide (u = user)) as [->|].
  - by rewrite lookup_insert_eq.
  - by rewrite lookup_insert_ne.
Qed.

(** [getOrCreateCart]: it answers the stored lines, populated, having
    created the cart if there was none; it fails only when that creation
    does, and then nothing is written. *)
Lemma getOrCreateCart_cases (user : ObjectId) (env : Env) (db : @Db num) :
  (getOrCreateCart user env (idle db) =
   (Normal (map (populate_doc db) (cart_lines db user)),
    idle (ensure_cart user db)))
  \/ (exists msg,
        faults env OpCartSave = Some msg /\ carts db !! user = None
        /\ getOrCreateCart user env (idle db)
           = (Throw (new_Error msg), idle db)).
Proof.
  unfold getOrCreateCart, bind, Cart_findOne_doc, ensure_cart, cart_lines.
  simpl. destruct (carts db !! user) as [c|] eqn:Hc; simpl; [by left|].
  unfold Cart_save, db_call.
  destruct (faults env OpCartSave) as [msg|]; [right; by exists msg|].
  by left.
Qed.

(** [findIndex]: the index it answers is that of a line for the
    product; when it answers none, no line is for the product; it fails
    only on a line whose product is [null]. *)
Lemma findIndex_cases (product : ObjectId) (items : list (@CartDocItem num))
    (n : nat) (env : Env) (w : @World num) :
  exists r,
    findIndex product items n env w = (r, w)
    /\ match r with
       | Normal (Some k) =>
           exists j i, k = (n + j)%nat /\ items !! j = Some i
                       /\ cd_ref i = product
       | Normal None => Forall (fun i => cd_ref i <> product) items
       | Throw _ => Exists (fun i => cd_product i = None) items
       end.
Proof.
  revert n. induction items as [|i rest IH]; intros n; simpl.
  { eexists. split; [reflexivity|]. by simpl. }
  destruct (cd_product i) eqn:Hi.
  2:{ eexists. split; [reflexivity|]. by left. }
  destruct (bool_decide (cd_ref i = product)) eqn:Href.
  - apply bool_decide_eq_true in Href. eexists. split; [reflexivity|].
    exists 0%nat, i. by rewrite Nat.add_0_r.
  - apply bool_decide_eq_false in Href.
    destruct (IH (S n)) as (r & -> & Hr). exists r. split; [done|].
    destruct r as [[k|]|e].
    + destruct Hr as (j & i' & -> & Hj & Hi').
      exists (S j), i'. split; [lia|]. by split.
    + by constructor.
    + by right.
Qed.

(** [filter_out]: the lines for other products, in their order. *)
Lemma filter_out_cases (product : ObjectId)
    (items : list (@CartDocItem num)) (env : Env) (w : @World num) :
  exists r,
    filter_out product items env w = (r, w)
    /\ match r with
       | Normal rest =>
           rest = List.filter
                    (fun i => negb (bool_decide (cd_ref i = product))) items
       | Throw _ => Exists (fun i => cd_product i = None) items
       end.
Proof.
  induction items as [|i rest IH]; simpl.
  { eexists. split; [reflexivity|]. by simpl. }
  destruct (cd_product i) eqn:Hi.
  2:{ eexists. split; [reflexivity|]. by left. }
  unfold bind. destruct IH as (r & -> & Hr). destruct r as [rest'|e].
  - destruct (bool_decide (cd_ref i = product)); simpl;
      eexists; (split; [reflexivity|]); simpl; by rewrite Hr.
  - eexists. split; [reflexivity|]. by right.
Qed.

(** [save_and_answer]: either nothing is written, or the cart passed the
    validators and is stored; the latter is the case, and the lines and
    their subtotal are answered, when the driver does not fail and the
    cart shows the products the database has. *)
Lemma save_and_answer_cases (user : ObjectId) (status : nat)
    (cart : list (@CartDocItem num)) (env : Env) (db : @Db num) :
  exists r db',
    save_and_answer user status cart env (idle db) = (r, idle db')
    /\ ((db' = db /\ forall res, r <> Normal res)
        \/ (forallb cartItemSchema_valid cart = true
            /\ faults env OpCartSave = None
            /\ db' = set_cart user (map depopulate cart) db))
    /\ (forallb cartItemSchema_valid cart = true ->
        Forall (populated_from db) cart ->
        faults env OpCartSave = None ->
        exists lines,
          mapM cart_line cart = Some lines
          /\ r = Normal {| cres_status := status;
                           cres_body := CartJson lines (subtotal_of lines) |}).
Proof.
  unfold save_and_answer, bind at 1, Cart_save_doc.
  destruct (forallb cartItemSchema_valid cart) eqn:Hvalid.
  2:{ eexists _, _. split; [reflexivity|]. split; [by left|done]. }
  unfold Cart_save, db_call.
  destruct (faults env OpCartSave) as [msg|] eqn:Hfault.
  { eexists _, _. split; [reflexivity|]. split; [by left|done]. }
  simpl. fold (set_cart user (map depopulate cart) db).
  fold (idle (set_cart user (map depopulate cart) db)).
  unfold bind at 1, Cart_populate at 1. simpl.
  unfold bind at 1, computeTotals.
  destruct (mapM cart_line _) as [lines|] eqn:Hlines.
  - eexists _, _. split; [reflexivity|]. split; [by right|].
    intros _ Hfrom _. exists lines. split; [|done].
    rewrite <- Hlines. f_equal.
    rewrite <- (map_id cart) at 1. apply map_ext_Forall.
    eapply Forall_impl; [exact Hfrom|]. intros i Hi.
    unfold populate_doc, depopulate. simpl. destruct i. simpl in *.
    by rewrite Hi.
  - eexists _, _. split; [reflexivity|]. split; [by right|].
    intros _ Hfrom _. exfalso.
    assert (Hsome : is_Some
              (mapM cart_line
                 (map (fun it => populate_doc
                                   (set_cart user (map depopulate cart) db)
                                   (depopulate it)) cart))).
    { apply mapM_is_Some. apply Forall_map.
      apply Forall_forall. intros i Hin. simpl.
      pose proof (proj1 (Forall_forall _ _) Hfrom i Hin) as Hi.
      pose proof (proj1 (forallb_forall _ _) Hvalid i
                    (proj1 (list_elem_of_In _ _) Hin)) as Hv.
      apply andb_true_iff in Hv as [Hsome%bool_decide_eq_true _].
      unfold cart_line, populate_doc, depopulate. simpl. rewrite <- Hi.
      by destruct Hsome as [p ->]. }
    rewrite Hlines in Hsome. by destruct Hsome.
Qed.

Lemma NoDup_map_filter {A B} (f : A -> B) (q : A -> bool) (l : list A) :
  NoDup (map f l) -> NoDup (map f (List.filter q l)).
Proof.
  induction l as [|a l IH]; simpl; [done|].
  intros [Hnotin Hnd]%NoDup_cons. destruct (q a); simpl; [|by apply IH].
  apply NoDup_cons. split; [|by apply IH].
  intros Hin. apply Hnotin.
  apply list_elem_of_In, in_map_iff in Hin as (x & <- & Hx).
  apply filter_In in Hx as [Hx _].
  apply list_elem_of_In, in_map_iff. by exists x.
Qed.

(** Storing a cart that passed the validators, shows the products of the
    database and has one line per product keeps the carts well formed. *)
Lemma carts_wf_set_cart (user : ObjectId) (cart : list (@CartDocItem num))
    (db : @Db num) :
  carts_wf db ->
  NoDup (map cd_ref cart) ->
  Forall (populated_from db) cart ->
  forallb cartItemSchema_valid cart = true ->
  carts_wf (set_cart user (map depopulate cart) db).
Proof.
  intros Hwf Hnd Hfrom Hvalid u. rewrite cart_lines_set_cart.
  destruct (decide (u = user)) as [->|]; [|apply Hwf].
  split.
  - by rewrite map_map.
  - apply Forall_map, Forall_forall. intros i Hin. simpl.
    pose proof (proj1 (Forall_forall _ _) Hfrom i Hin) as Hi.
    pose proof (proj1 (forallb_forall _ _) Hvalid i
                  (proj1 (list_elem_of_In _ _) Hin)) as Hv.
    apply andb_true_iff in Hv as [Hsome%bool_decide_eq_true Hq%Z.leb_le].
    split; [done|]. by rewrite <- Hi.
Qed.

(** The cart [getOrCreateCart] loads from well-formed carts. *)
Lemma loaded_cart_wf (user : ObjectId) (db : @Db num) :
  carts_wf db ->
  carts_wf (ensure_cart user db)
  /\ NoDup (map cd_ref (map (populate_doc db) (cart_lines db user)))
  /\ Forall (populated_from (ensure_cart user db))
       (map (populate_doc db) (cart_lines db user)).
Proof.
  intros Hwf. split; [|split].
  - eapply carts_wf_ext; [apply products_ensure_cart| |done].
    intros u. apply cart_lines_ensure_cart.
  - rewrite map_map. apply (Hwf user).
  - apply Forall_map, Forall_forall. intros i _.
    unfold populated_from. by rewrite products_ensure_cart.
Qed.

Lemma map_cd_ref_insert (cart : list (@CartDocItem num)) (k : nat)
    (i : @CartDocItem num) (q : Z) :
  cart !! k = Some i ->
  map cd_ref (<[k := set_qty q i]> cart) = map cd_ref cart.
Proof.
  intros Hk. change (map cd_ref ?l) with (cd_ref <$> l).
  rewrite list_fmap_insert. simpl. apply list_insert_id.
  by rewrite list_lookup_fmap, Hk.
Qed.

Lemma populated_from_insert (db : @Db num) (cart : list (@CartDocItem num))
    (k : nat) (i : @CartDocItem num) (q : Z) :
  cart !! k = Some i ->
  Forall (populated_from db) cart ->
  Forall (populated_from db) (<[k := set_qty q i]> cart).
Proof.
  intros Hk Hfrom. apply Forall_insert; [done|].
  by apply (proj1 (Forall_lookup _ _) Hfrom k i).
Qed.

(** What the active-product query of [addItem] and [updateItem] finds. *)
Lemma find_active_Some (db : @Db num) (slug : string) (id : ObjectId)
    (p : @Product num) :
  List.find (fun kv : ObjectId * Product =>
               String.eqb (p_slug kv.2) slug && p_isActive kv.2)
    (map_to_list (products db)) = Some (id, p) ->
  products db !! id = Some p /\ p_slug p = slug /\ p_isActive p = true.
Proof.
  intros [Hin Hq]%find_some. simpl in Hq.
  apply list_elem_of_In, elem_of_map_to_list in Hin.
  apply andb_true_iff in Hq as [Hslug Hact].
  by apply String.eqb_eq in Hslug.
Qed.

Lemma addItem_keeps_carts_wf (req : Request RawAddItem) (env : Env)
    (db : @Db num) :
  carts_wf db ->
  exists res db',
    addItem req env (idle db) = (res, idle db') /\ carts_wf db'.
Proof.
  intros Hwf. unfold addItem. unfold bind at 1, parse at 1.
  destruct (addSchema (req_body req)) as [data|]; [|by eexists _, _].
  unfold bind at 1, Product_findOne at 1. simpl.
  destruct (List.find _ (map_to_list (products db)))
    as [[product_id product]|] eqn:Hfind; [|by eexists _, _].
  apply find_active_Some in Hfind as (Hp & _ & _).
  destruct (p_stock product <? 1); [by eexists _, _|].
  fold (idle db). unfold bind at 1.
  destruct (loaded_cart_wf (user_id (req_user req)) db Hwf)
    as (Hwf1 & Hnd & Hfrom).
  destruct (getOrCreateCart_cases (user_id (req_user req)) env db)
    as [->|(msg & _ & _ & ->)]; [|by eexists _, _].
  set (db1 := ensure_cart (user_id (req_user req)) db) in *.
  set (cart := map (populate_doc db) _) in *.
  unfold bind at 1.
  destruct (findIndex_cases product_id cart 0 env (idle db1))
    as (r & -> & Hr).
  destruct r as [[k|]|e]; [| |by eexists _, _].
  - destruct Hr as (j & i & -> & Hj & Hi). simpl. rewrite Hj.
    destruct (p_stock product <? _); [by eexists _, _|].
    destruct (save_and_answer_cases (user_id (req_user req)) 201
                (<[j := set_qty (cd_qty i + add_qty data) i]> cart) env db1)
      as (r & db' & -> & [[-> _]|(Hvalid & _ & ->)] & _);
      [by eexists _, _|].
    eexists _, _. split; [reflexivity|].
    apply carts_wf_set_cart; [done| | |done].
    + by rewrite map_cd_ref_insert.
    + by apply populated_from_insert.
  - destruct (p_stock product <? _); [by eexists _, _|].
    destruct (save_and_answer_cases (user_id (req_user req)) 201
                (cart ++ [{| cd_ref := product_id;
                             cd_product := Some product;
                             cd_qty := add_qty data |}]) env db1)
      as (r & db' & -> & [[-> _]|(Hvalid & _ & ->)] & _);
      [by eexists _, _|].
    eexists _, _. split; [reflexivity|].
    apply carts_wf_set_cart; [done| | |done].
    + rewrite map_app. simpl. apply NoDup_app. split; [done|].
      split; [|apply NoDup_singleton].
      intros x Hx ->%list_elem_of_singleton.
      apply list_elem_of_In, in_map_iff in Hx as (i & Hi & Hin).
      apply list_elem_of_In in Hin.
      by apply (proj1 (Forall_forall _ _) Hr i Hin).
    + apply Forall_app. split; [done|]. apply Forall_singleton.
      unfold populated_from. simpl. subst db1.
      by rewrite products_ensure_cart.
Qed.

Lemma updateItem_keeps_carts_wf (req : Request RawUpdateItem) (env : Env)
    (db : @Db num) :
  carts_wf db ->
  exists res db',
    updateItem req env (idle db) = (res, idle db') /\ carts_wf db'.
Proof.
  intros Hwf. unfold updateItem. unfold bind at 1, parse at 1.
  destruct (updateItemSchema (req_body req)) as [qty|]; [|by eexists _, _].
  unfold bind at 1, Product_findOne at 1. simpl.
  destruct (List.find _ (map_to_list (products db)))
    as [[product_id product]|] eqn:Hfind; [|by eexists _, _].
  destruct (p_stock product <? qty); [by eexists _, _|].
  fold (idle db). unfold bind at 1.
  destruct (loaded_cart_wf (user_id (req_user req)) db Hwf)
    as (Hwf1 & Hnd & Hfrom).
  destruct (getOrCreateCart_cases (user_id (req_user req)) env db)
    as [->|(msg & _ & _ & ->)]; [|by eexists _, _].
  set (db1 := ensure_cart (user_id (req_user req)) db) in *.
  set (cart := map (populate_doc db) _) in *.
  unfold bind at 1.
  destruct (findIndex_cases product_id cart 0 env (idle db1))
    as (r & -> & Hr).
  destruct r as [[k|]|e]; [|by eexists _, _..].
  destruct Hr as (j & i & -> & Hj & Hi). simpl. rewrite Hj.
  destruct (save_and_answer_cases (user_id (req_user req)) 200
              (<[j := set_qty qty i]> cart) env db1)
    as (r & db' & -> & [[-> _]|(Hvalid & _ & ->)] & _);
    [by eexists _, _|].
  eexists _, _. split; [reflexivity|].
  apply carts_wf_set_cart; [done| | |done].
  - by rewrite map_cd_ref_insert.
  - by apply populated_from_insert.
Qed.

Lemma removeItem_keeps_carts_wf {B} (req : Request B) (env : Env)
    (db : @Db num) :
  carts_wf db ->
  exists res db',
    removeItem req env (idle db) = (res, idle db') /\ carts_wf db'.
Proof.
  intros Hwf. unfold removeItem.
  unfold bind at 1, Product_findOne at 1. simpl.
  destruct (List.find _ (map_to_list (products db)))
    as [[product_id product]|] eqn:Hfind; [|by eexists _, _].
  fold (idle db). unfold bind at 1.
  destruct (loaded_cart_wf (user_id (req_user req)) db Hwf)
    as (Hwf1 & Hnd & Hfrom).
  destruct (getOrCreateCart_cases (user_id (req_user req)) env db)
    as [->|(msg & _ & _ & ->)]; [|by eexists _, _].
  set (db1 := ensure_cart (user_id (req_user req)) db) in *.
  set (cart := map (populate_doc db) _) in *.
  unfold bind at 1.
  destruct (filter_out_cases product_id cart env (idle db1))
    as (r & -> & Hr).
  destruct r as [rest|e]; [|by eexists _, _]. subst rest.
  destruct (_ =? _)%nat; [by eexists _, _|].
  destruct (save_and_answer_cases (user_id (req_user req)) 200
              (List.filter
                 (fun i => negb (bool_decide (cd_ref i = product_id))) cart)
              env db1)
    as (r & db' & -> & [[-> _]|(Hvalid & _ & ->)] & _);
    [by eexists _, _|].
  eexists _, _. split; [reflexivity|].
  apply carts_wf_set_cart; [done| | |done].
  - by apply NoDup_map_filter.
  - apply Forall_forall. intros i Hin%list_elem_of_In%filter_In.
    destruct Hin as [Hin%list_elem_of_In _].
    by apply (proj1 (Forall_forall _ _) Hfrom i).
Qed.

Lemma clearCart_keeps_carts_wf {B} (req : Request B) (env : Env)
    (db : @Db num) :
  carts_wf db ->
  exists res db',
    clearCart req env (idle db) = (res, idle db') /\ carts_wf db'.
Proof.
  intros Hwf. unfold clearCart. unfold bind at 1.
  destruct (loaded_cart_wf (user_id (req_user req)) db Hwf) as (Hwf1 & _).
  destruct (getOrCreateCart_cases (user_id (req_user req)) env db)
    as [->|(msg & _ & _ & ->)]; [|by eexists _, _].
  unfold bind, Cart_save_doc, Cart_save, db_call. simpl.
  destruct (faults env OpCartSave); [by eexists _, _|].
  simpl. eexists _, _. split; [reflexivity|].
  by apply (carts_wf_set_cart _ []); [|constructor|constructor|].
Qed.

Lemma getCart_keeps_carts_wf {B} (req : Request B) (env : Env)
    (db : @Db num) :
  carts_wf db ->
  exists res db',
    getCart req env (idle db) = (res, idle db') /\ carts_wf db'.
Proof.
  intros Hwf. unfold getCart. unfold bind at 1.
  destruct (loaded_cart_wf (user_id (req_user req)) db Hwf) as (Hwf1 & _).
  destruct (getOrCreateCart_cases (user_id (req_user req)) env db)
    as [->|(msg & _ & _ & ->)]; [|by eexists _, _].
  unfold bind.
  destruct (reads_computeTotals
              (map (populate_doc db)
                 (cart_lines db (user_id (req_user req)))) env
              (ensure_cart (user_id (req_user req)) db)) as ([t|e] & ->);
    by eexists _, _.
Qed.

(** The cart requests keep the carts well formed. *)
Lemma cart_router_keeps_carts_wf (user : User) (r : CartRequest)
    (env : Env) (db : @Db num) :
  carts_wf db ->
  exists res db',
    cart_router user r env (idle db) = (res, idle db') /\ carts_wf db'.
Proof.
  intros Hwf. destruct r; simpl.
  - by apply getCart_keeps_carts_wf.
  - by apply addItem_keeps_carts_wf.
  - by apply updateItem_keeps_carts_wf.
  - by apply removeItem_keeps_carts_wf.
  - by apply clearCart_keeps_carts_wf.
Qed.

(** Quantities in lists of cart lines. *)
Lemma qty_of_absent (pid : ObjectId) (lines : list CartItem) :
  pid ∉ map ci_product lines -> qty_of pid lines = 0.
Proof.
  induction lines as [|it lines IH]; simpl; [done|].
  intros Hnotin. apply not_elem_of_cons in Hnotin as [Hne Hnotin].
  destruct (decide (ci_product it = pid)); [congruence|]. by apply IH.
Qed.


Lemma qty_of_insert (pid : ObjectId) (lines : list CartItem) (j : nat)
    (it it' : CartItem) :
  NoDup (map ci_product lines) ->
  lines !! j = Some it ->
  ci_product it' = ci_product it ->
  qty_of pid (<[j := it']> lines) =
  if decide (pid = ci_product it) then ci_qty it' else qty_of pid lines.
Proof.
  revert j. induction lines as [|x lines IH]; intros j Hnd Hj Href; [done|].
  simpl in Hnd. apply NoDup_cons in Hnd as [Hnotin Hnd].
  destruct j as [|j]; simpl in *.
  - injection Hj as ->. rewrite Href.
    destruct (decide (ci_product it = pid)) as [<-|Hne].
    + rewrite decide_True by done. rewrite qty_of_absent by done. lia.
    + by rewrite decide_False by congruence.
  - rewrite (IH j Hnd Hj Href).
    destruct (decide (pid = ci_product it)) as [->|Hne]; [|done].
    rewrite decide_False; [done|].
    intros Heq. apply Hnotin. rewrite Heq.
    apply list_elem_of_In, in_map, list_elem_of_In.
    by eapply list_elem_of_lookup_2.
Qed.



Lemma depopulate_populate (db : @Db num) (lines : list CartItem) :
  map depopulate (map (populate_doc db) lines) = lines.
Proof.
  rewrite map_map. rewrite <- (map_id lines) at 2.
  apply map_ext. by intros [].
Qed.

(** With unique slugs, the query for an active product by slug finds the
    active product that has the slug. *)
Lemma find_active_by_slug (db : @Db num) (id : ObjectId)
    (p : @Product num) :
  unique_slugs db ->
  products db !! id = Some p ->
  p_isActive p = true ->
  List.find (fun kv : ObjectId * Product =>
               String.eqb (p_slug kv.2) (p_slug p) && p_isActive kv.2)
    (map_to_list (products db)) = Some (id, p).
Proof.
  intros Huniq Hp Hact.
  destruct (List.find _ (map_to_list (products db))) as [[j q]|] eqn:Hfind.
  - apply find_active_Some in Hfind as (Hq & Hs & _).
    assert (j = id) as -> by (by apply (Huniq j id q p)).
    congruence.
  - assert (Hin : In (id, p) (map_to_list (products db)))
      by (by apply list_elem_of_In, elem_of_map_to_list).
    pose proof (find_none _ _ Hfind (id, p) Hin) as Hq. simpl in Hq.
    by rewrite String.eqb_refl, Hact in Hq.
Qed.

(** On a cart whose products exist, [findIndex] does not fail. *)
Lemma findIndex_wf (db : @Db num) (product : ObjectId)
    (lines : list CartItem) (env : Env) (w : @World num) :
  cart_wf db lines ->
  exists r,
    findIndex product (map (populate_doc db) lines) 0 env w = (Normal r, w)
    /\ match r with
       | Some j => exists it, lines !! j = Some it /\ ci_product it = product
       | None => product ∉ map ci_product lines
       end.
Proof.
  intros [_ Hwf].
  destruct (findIndex_cases product (map (populate_doc db) lines) 0 env w)
    as ([[k|]|e] & -> & Hr).
  - destruct Hr as (j & i & -> & Hj & Hi). eexists. split; [done|]. simpl.
    change (map ?f ?l) with (f <$> l) in Hj.
    rewrite list_lookup_fmap in Hj.
    destruct (lines !! j) as [it|]; [|done]. injection Hj as <-.
    by exists it.
  - eexists. split; [done|]. intros Hin.
    apply list_elem_of_In, in_map_iff in Hin as (it & Hit & Hin).
    apply (in_map (populate_doc db)), list_elem_of_In in Hin.
    by apply (proj1 (Forall_forall _ _) Hr _ Hin).
  - exfalso. apply Exists_exists in Hr as (i & Hin & Hnone).
    apply list_elem_of_In, in_map_iff in Hin as (it & <- & Hin).
    apply list_elem_of_In in Hin.
    destruct (proj1 (Forall_forall _ _) Hwf it Hin) as [_ [p Hp]].
    unfold populate_doc in Hnone. simpl in Hnone. congruence.
Qed.

(** The loaded lines of a well-formed cart pass the validators. *)
Lemma loaded_cart_valid (db : @Db num) (lines : list CartItem) :
  cart_wf db lines ->
  forallb cartItemSchema_valid (map (populate_doc db) lines) = true.
Proof.
  intros [_ Hwf]. apply forallb_forall. intros i Hin.
  apply in_map_iff in Hin as (it & <- & Hin%list_elem_of_In).
  destruct (proj1 (Forall_forall _ _) Hwf it Hin) as [Hq Hp].
  unfold cartItemSchema_valid, populate_doc. simpl.
  rewrite bool_decide_eq_true_2 by done. by apply Z.leb_le.
Qed.

Lemma forallb_insert {A} (f : A -> bool) (l : list A) (j : nat) (x : A) :
  forallb f l = true -> f x = true -> forallb f (<[j := x]> l) = true.
Proof.
  revert j. induction l as [|a l IH]; intros j; [done|]. simpl.
  intros [Ha Hl]%andb_true_iff Hx.
  destruct j; simpl; apply andb_true_iff; split; auto.
Qed.

Lemma depopulate_insert (db : @Db num) (lines : list CartItem) (j : nat)
    (it : CartItem) (q : Z) :
  map depopulate
    (<[j := set_qty q (populate_doc db it)]> (map (populate_doc db) lines))
  = <[j := {| ci_product := ci_product it; ci_qty := q |}]> lines.
Proof.
  change (map depopulate ?l) with (depopulate <$> l).
  rewrite list_fmap_insert. simpl.
  change (depopulate <$> ?l) with (map depopulate l).
  by rewrite depopulate_populate.
Qed.

Lemma z_int_min_max_bounds (lo hi : Z) (r : Raw Z) (x : Z) :
  z_int_min_max lo hi r = Some x -> lo <= x <= hi.
Proof.
  destruct r as [|v|]; simpl; try done.
  destruct (lo <=? v) eqn:Hlo, (v <=? hi) eqn:Hhi; simpl; try done.
  intros [= <-]. lia.
Qed.




(** X17 — [updateItem] sets the quantity, within the stock.  For a body
    the schema accepts and an active product, on a well-formed cart and
    with a driver that does not fail: a quantity above the stock is
    answered 400 ['Exceeds available stock'] without writing, before the
    cart is looked at; a product that is not in the cart is answered 404
    ['Item not in cart'] with the lines left as they are; otherwise the
    answer is 200 and the cart holds exactly the quantity asked for of
    the product, [1 <= qty <= stock], and the same quantity of every
    other product as before. *)
Theorem updateItem_effect (req : Request RawUpdateItem) (env : Env)
    (db : @Db num) (qty : Z) (id : ObjectId) (p : @Product num) :
  let user := user_id (req_user req) in
  updateItemSchema (req_body req) = Some qty ->
  unique_slugs db ->
  products db !! id = Some p ->
  p_slug p = req_params_slug req ->
  p_isActive p = true ->
  cart_wf db (cart_lines db user) ->
  faults env OpCartSave = None ->
  exists res db',
    run (updateItem req) env db = (Normal res, db')
    /\ if p_stock p <? qty then
         res = {| cres_status := 400;
                  cres_body := CartMessage "Exceeds available stock" |}
         /\ db' = db
       else if decide (id ∈ map ci_product (cart_lines db user)) then
         cres_status res = 200%nat
         /\ 1 <= qty <= p_stock p
         /\ forall pid,
              qty_of pid (cart_lines db' user) =
              if decide (pid = id) then qty
              else qty_of pid (cart_lines db user)
       else
         res = {| cres_status := 404;
                  cres_body := CartMessage "Item not in cart" |}
         /\ cart_lines db' user = cart_lines db user.
Proof.
  intros user Hdata Huniq Hp Hslug Hact Hwf Hfault.
  pose proof Hwf as [Hnd Hall].
  assert (Hqty : 1 <= qty <= 999).
  { destruct (req_body req) as [|b|]; try done.
    by apply z_int_min_max_bounds in Hdata. }
  unfold run, updateItem. unfold bind at 1, parse at 1. rewrite Hdata.
  unfold bind at 1, Product_findOne at 1. simpl.
  rewrite <- Hslug, (find_active_by_slug db id p Huniq Hp Hact).
  destruct (p_stock p <? qty) eqn:Hexceeds; [by eexists _, _|].
  fold (idle db). unfold bind at 1. fold user.
  destruct (getOrCreateCart_cases user env db) as [->|(msg & Hf & _)];
    [|congruence].
  pose proof (loaded_cart_valid db _ Hwf) as Hvalid.
  assert (Hfrom : Forall (populated_from (ensure_cart user db))
                    (map (populate_doc db) (cart_lines db user))).
  { apply Forall_map, Forall_forall. intros i _.
    unfold populated_from. by rewrite products_ensure_cart. }
  unfold bind at 1.
  destruct (findIndex_wf db id (cart_lines db user) env
              (idle (ensure_cart user db)) Hwf) as (r & -> & Hr).
  destruct r as [j|].
  - destruct Hr as (it & Hj & Hit).
    assert (Hlook : map (populate_doc db) (cart_lines db user) !! j
                    = Some (populate_doc db it)).
    { change (map ?f ?l) with (f <$> l). by rewrite list_lookup_fmap, Hj. }
    rewrite Hlook.
    destruct (decide (id ∈ map ci_product (cart_lines db user)))
      as [_|Hnotin].
    2:{ destruct Hnotin. rewrite <- Hit.
        apply list_elem_of_In, in_map, list_elem_of_In.
        by eapply list_elem_of_lookup_2. }
    destruct (save_and_answer_cases user 200
                (<[j := set_qty qty (populate_doc db it)]>
                   (map (populate_doc db) (cart_lines db user)))
                env (ensure_cart user db))
      as (r & db' & -> & Hdb & Hres).
    destruct Hres as (lines & _ & ->); [| |done|].
    { apply forallb_insert; [done|].
      unfold cartItemSchema_valid, set_qty, populate_doc. simpl.
      destruct (proj1 (Forall_forall _ _) Hall it
                  (list_elem_of_lookup_2 _ _ _ Hj)) as [_ Hsome].
      rewrite bool_decide_eq_true_2 by done. apply Z.leb_le. lia. }
    { by apply populated_from_insert. }
    destruct Hdb as [[_ Hno]|(_ & _ & ->)]; [by destruct (Hno _ eq_refl)|].
    eexists _, _. split; [reflexivity|]. split; [done|].
    apply Z.ltb_ge in Hexceeds. split; [lia|]. intros pid. simpl.
    rewrite !cart_lines_set_cart, decide_True by done.
    rewrite depopulate_insert.
    rewrite (qty_of_insert pid _ j it
               {| ci_product := ci_product it; ci_qty := qty |}
               Hnd Hj eq_refl).
    simpl. by rewrite Hit.
  - destruct (decide (id ∈ map ci_product (cart_lines db user)));
      [done|].
    eexists _, _. split; [reflexivity|]. split; [done|].
    apply cart_lines_ensure_cart.
Qed.

Lemma filter_length {A} (q : A -> bool) (l : list A) :
  (length (List.filter q l) <= length l)%nat
  /\ (length (List.filter q l) = length l -> Forall (fun x => q x = true) l).
Proof.
  induction l as [|a l [IH1 IH2]]; simpl; [by split|].
  destruct (q a) eqn:Ha; simpl.
  - split; [lia|]. intros [= Hlen]. constructor; auto.
  - split; [lia|]. intros Hlen. lia.
Qed.

Lemma filter_all {A} (q : A -> bool) (l : list A) :
  Forall (fun x => q x = true) l -> List.filter q l = l.
Proof.
  induction 1 as [|a l Ha _ IH]; simpl; [done|]. by rewrite Ha, IH.
Qed.

Lemma depopulate_filter (db : @Db num) (id : ObjectId)
    (lines : list CartItem) :
  map depopulate
    (List.filter (fun i => negb (bool_decide (cd_ref i = id)))
       (map (populate_doc db) lines))
  = List.filter (fun it => negb (bool_decide (ci_product it = id))) lines.
Proof.
  induction lines as [|[pid q] lines IH]; simpl; [done|].
  destruct (bool_decide (pid = id)); simpl; by rewrite IH.
Qed.

(** X18 — [removeItem] removes the product's line and nothing else.
    For a product that has the slug (active or not), on a well-formed
    cart and with a driver that does not fail: when the cart has a line
    for the product, the answer is 200 and the cart holds the other
    lines, in their order, and none for the product; when it has none,
    the answer is 404 ['Item not in cart'] and the lines are left as they
    are. *)
Theorem removeItem_effect {B} (req : Request B) (env : Env) (db : @Db num)
    (id : ObjectId) (p : @Product num) :
  let user := user_id (req_user req) in
  unique_slugs db ->
  products db !! id = Some p ->
  p_slug p = req_params_slug req ->
  cart_wf db (cart_lines db user) ->
  faults env OpCartSave = None ->
  exists res db',
    run (removeItem req) env db = (Normal res, db')
    /\ if decide (id ∈ map ci_product (cart_lines db user)) then
         cres_status res = 200%nat
         /\ cart_lines db' user =
            List.filter (fun it => negb (bool_decide (ci_product it = id)))
              (cart_lines db user)
         /\ id ∉ map ci_product (cart_lines db' user)
       else
         res = {| cres_status := 404;
                  cres_body := CartMessage "Item not in cart" |}
         /\ cart_lines db' user = cart_lines db user.
Proof.
  intros user Huniq Hp Hslug Hwf Hfault.
  pose proof Hwf as [Hnd Hall].
  unfold run, removeItem. unfold bind at 1, Product_findOne at 1. simpl.
  rewrite <- Hslug, (find_by_slug db id p Huniq Hp).
  fold (idle db). unfold bind at 1. fold user.
  destruct (getOrCreateCart_cases user env db) as [->|(msg & Hf & _)];
    [|congruence].
  pose proof (loaded_cart_valid db _ Hwf) as Hvalid.
  assert (Hfrom : Forall (populated_from (ensure_cart user db))
                    (map (populate_doc db) (cart_lines db user))).
  { apply Forall_map, Forall_forall. intros i _.
    unfold populated_from. by rewrite products_ensure_cart. }
  unfold bind at 1.
  destruct (filter_out_cases id (map (populate_doc db) (cart_lines db user))
              env (idle (ensure_cart user db))) as ([rest|e] & -> & Hr).
  2:{ exfalso. apply Exists_exists in Hr as (i & Hin & Hnone).
      apply list_elem_of_In, in_map_iff in Hin as (it & <- & Hin).
      apply list_elem_of_In in Hin.
      destruct (proj1 (Forall_forall _ _) Hall it Hin) as [_ [p' Hp']].
      unfold populate_doc in Hnone. simpl in Hnone. congruence. }
  subst rest.
  set (keep := fun i : @CartDocItem num =>
                 negb (bool_decide (cd_ref i = id))) in *.
  destruct (length (List.filter keep _) =? _)%nat eqn:Hlen.
  - apply Nat.eqb_eq in Hlen.
    apply (proj2 (filter_length keep _)) in Hlen.
    destruct (decide (id ∈ map ci_product (cart_lines db user)))
      as [Hin|_].
    { exfalso.
      apply list_elem_of_In, in_map_iff in Hin as (it & Hit & Hin).
      apply (in_map (populate_doc db)), list_elem_of_In in Hin.
      pose proof (proj1 (Forall_forall _ _) Hlen _ Hin) as Hk.
      unfold keep in Hk. simpl in Hk.
      apply negb_true_iff, bool_decide_eq_false in Hk. done. }
    eexists _, _. split; [reflexivity|]. split; [done|].
    apply cart_lines_ensure_cart.
  - apply Nat.eqb_neq in Hlen.
    destruct (decide (id ∈ map ci_product (cart_lines db user)))
      as [_|Hnotin].
    2:{ destruct Hlen. f_equal. apply filter_all.
        apply Forall_map, Forall_forall. intros it Hin.
        unfold keep. simpl. apply negb_true_iff, bool_decide_eq_false.
        intros Heq. apply Hnotin. rewrite <- Heq.
        by apply list_elem_of_In, in_map, list_elem_of_In. }
    destruct (save_and_answer_cases user 200
                (List.filter keep
                   (map (populate_doc db) (cart_lines db user)))
                env (ensure_cart user db))
      as (r & db' & -> & Hdb & Hres).
    destruct Hres as (lines & _ & ->); [| |done|].
    { apply forallb_forall. intros i [Hin _]%filter_In.
      by apply (proj1 (forallb_forall _ _) Hvalid). }
    { apply Forall_forall. intros i Hin%list_elem_of_In%filter_In.
      destruct Hin as [Hin%list_elem_of_In _].
      by apply (proj1 (Forall_forall _ _) Hfrom i). }
    destruct Hdb as [[_ Hno]|(_ & _ & ->)]; [by destruct (Hno _ eq_refl)|].
    eexists _, _. split; [reflexivity|]. split; [done|]. simpl.
    rewrite !cart_lines_set_cart, decide_True by done.
    unfold keep. rewrite depopulate_filter. split; [done|].
    intros Hin. apply list_elem_of_In, in_map_iff in Hin as (it & Hit & Hin).
    apply filter_In in Hin as [_ Hk].
    apply negb_true_iff, bool_decide_eq_false in Hk. done.
Qed.

Lemma ensure_cart_Some (user : ObjectId) (db : @Db num) :
  is_Some (carts (ensure_cart user db) !! user).
Proof.
  unfold ensure_cart. destruct (carts db !! user) eqn:Hc; [by rewrite Hc|].
  simpl. by rewrite lookup_insert_eq.
Qed.

(** [getCart] for a user who has a cart. *)
Lemma getCart_run {B} (req : Request B) (env : Env) (db : @Db num) :
  is_Some (carts db !! user_id (req_user req)) ->
  getCart req env (idle db) =
  match mapM cart_line
          (map (populate_doc db) (cart_lines db (user_id (req_user req)))) with
  | Some lines =>
      (Normal {| cres_status := 200;
                 cres_body := CartJson lines (subtotal_of lines) |}, idle db)
  | None =>
      (Throw (new_Error "Cannot read properties of null (reading 'slug')"),
       idle db)
  end.
Proof.
  intros [c Hc]. unfold getCart, bind at 1.
  destruct (getOrCreateCart_cases (user_id (req_user req)) env db)
    as [->|(msg & _ & Hnone & _)]; [|congruence].
  unfold ensure_cart. rewrite Hc. unfold bind, computeTotals.
  by destruct (mapM cart_line _).
Qed.

Lemma shown_save_and_answer (user : ObjectId) (status : nat)
    (cart : list (@CartDocItem num)) :
  shown_by_getCart user (save_and_answer user status cart).
Proof.
  intros env db res db' lines subtotal Hrun Hbody env'.
  unfold save_and_answer, bind at 1, Cart_save_doc in Hrun.
  destruct (forallb cartItemSchema_valid cart); [|done].
  unfold Cart_save, db_call in Hrun.
  destruct (faults env OpCartSave); [done|].
  simpl in Hrun. fold (set_cart user (map depopulate cart) db) in Hrun.
  fold (idle (set_cart user (map depopulate cart) db)) in Hrun.
  unfold bind at 1, Cart_populate at 1 in Hrun. simpl in Hrun.
  unfold bind at 1, computeTotals in Hrun.
  destruct (mapM cart_line _) as [lines'|] eqn:Hlines; [|done].
  injection Hrun as <- <-. simpl in Hbody. injection Hbody as <- <-.
  rewrite getCart_run; simpl.
  2:{ by rewrite lookup_insert_eq. }
  rewrite cart_lines_set_cart, decide_True by done.
  rewrite map_map. simpl in Hlines. fold (set_cart user (map depopulate cart) db).
  by rewrite Hlines.
Qed.

Lemma shown_bind (user : ObjectId) {A} (m : M A) (k : A -> M CartResponse) :
  only_cart (num := num) user m ->
  (forall a, shown_by_getCart user (k a)) ->
  shown_by_getCart user (bind m k).
Proof.
  intros Hm Hk env db res db' lines subtotal Hrun Hbody.
  unfold bind in Hrun.
  destruct (Hm env db) as ([a|e] & db1 & Hrun1 & _); rewrite Hrun1 in Hrun;
    [|done].
  by eapply Hk.
Qed.

Lemma shown_message (user : ObjectId) (status : nat) (message : string) :
  shown_by_getCart (num := num) user
    (cart_respond status (CartMessage message)).
Proof. by intros env db res db' lines subtotal [= <- <-]. Qed.

Lemma shown_throw (user : ObjectId) (e : Error) :
  shown_by_getCart (num := num) user (throw e).
Proof. by intros env db res db' lines subtotal. Qed.

Lemma shown_getCart {B} (req : Request B) :
  shown_by_getCart (num := num) (user_id (req_user req)) (getCart req).
Proof.
  intros env db res db' lines subtotal Hrun Hbody env'.
  unfold getCart, bind at 1 in Hrun.
  destruct (getOrCreateCart_cases (user_id (req_user req)) env db)
    as [Hget|(msg & _ & _ & Hget)]; rewrite Hget in Hrun; [|done].
  unfold bind, computeTotals in Hrun.
  destruct (mapM cart_line _) as [lines'|] eqn:Hlines; [|done].
  injection Hrun as <- <-. simpl in Hbody. injection Hbody as <- <-.
  rewrite getCart_run; simpl; [|apply ensure_cart_Some].
  rewrite cart_lines_ensure_cart.
  assert (Hsame : map (populate_doc
                         (ensure_cart (user_id (req_user req)) db))
                    (cart_lines db (user_id (req_user req)))
                  = map (populate_doc db)
                      (cart_lines db (user_id (req_user req)))).
  { apply map_ext. intros it. unfold populate_doc.
    by rewrite products_ensure_cart. }
  by rewrite Hsame, Hlines.
Qed.

(** Decomposes a goal [shown_by_getCart user m] along the structure of
    [m]. *)
#[local] Ltac shown :=
  repeat first
    [ apply shown_save_and_answer
    | apply shown_message
    | apply shown_throw
    | apply shown_bind;
      [ first [ apply only_cart_getOrCreateCart
              | apply only_cart_reads;
                first [ apply reads_parse | apply reads_findIndex
                      | apply reads_filter_out
                      | apply (reads_pure
                                 (fun _ db =>
                                    Normal (List.find _
                                              (map_to_list (products db))))) ] ]
      | intros ? ]
    | match goal with
      | |- shown_by_getCart _ (match ?x with _ => _ end) => destruct x
      | |- shown_by_getCart _ (if ?x then _ else _) => destruct x
      | |- shown_by_getCart _ (let (_, _) := ?x in _) => destruct x
      end ].

(** X19 — What a cart request answers is what the cart then shows.  The
    lines and the subtotal in the answer of any request of the cart
    router are exactly those a [getCart] of the same user answers next:
    the answer is computed from what was stored, with the prices and
    stocks of the products as they are. *)
Theorem cart_answer_is_getCart (user : User) (r : CartRequest)
    (env env' : Env) (db db' : @Db num) (res : @CartResponse num)
    (lines : list (@CartLine num)) (subtotal : num) :
  cart_router user r env (idle db) = (Normal res, idle db') ->
  cres_body res = CartJson lines subtotal ->
  cart_router user GetCart env' (idle db') =
  (Normal {| cres_status := 200; cres_body := CartJson lines subtotal |},
   idle db').
Proof.
  intros Hrun Hbody.
  assert (H : shown_by_getCart (user_id user) (cart_router user r)).
  { destruct r; simpl.
    - apply (shown_getCart
               {| req_user := user; req_params_id := 1%positive;
                  req_params_slug := ""; req_body := @Undefined unit |}).
    - unfold addItem. shown.
    - unfold updateItem. shown.
    - unfold removeItem. shown.
    - unfold clearCart.
      apply shown_bind; [apply only_cart_getOrCreateCart|intros ?].
      apply shown_bind; [apply only_cart_Cart_save_doc|intros ?].
      by intros ? ? ? ? ? ? [= <- <-]. }
  simpl. unfold shown_by_getCart in H.
  pose proof (H env db res db' lines subtotal Hrun Hbody env') as Hget.
  unfold getCart in *. simpl in *. exact Hget.
Qed.

(** The line the cart shows for a stored line and the line the checkout
    snapshots for it agree. *)
Lemma lines_agree (db db1 : @Db num) (stored : list CartItem)
    (lines : list (@CartLine num)) (snap : list (@OrderItem num)) :
  products db1 = products db ->
  mapM cart_line (map (populate_doc db) stored) = Some lines ->
  Forall2 line (map (populate db1) stored) snap ->
  Forall2 (fun l oi =>
             oi_slug oi = cl_slug l /\ oi_title oi = cl_title l
             /\ oi_price oi = cl_price l /\ oi_qty oi = cl_qty l
             /\ oi_lineTotal oi = cl_lineTotal l) lines snap.
Proof.
  intros Hp Hlines Hsnap. apply mapM_Some in Hlines.
  change (map (populate_doc db) stored)
    with (populate_doc db <$> stored) in Hlines.
  change (map (populate db1) stored) with (populate db1 <$> stored) in Hsnap.
  rewrite Forall2_fmap_l in Hlines. rewrite Forall2_fmap_l in Hsnap.
  revert snap Hsnap.
  induction Hlines as [|it l stored lines Hl _ IH]; intros snap Hsnap.
  - inversion Hsnap. constructor.
  - inversion Hsnap as [|? oi ? snap' (id & p & Hit & ->) Hrest]; subst.
    constructor; [|by apply IH].
    unfold populate in Hit. simpl in Hit. rewrite Hp in Hit.
    unfold cart_line, populate_doc in Hl. simpl in Hl.
    destruct (products db !! ci_product it) as [p'|]; [|done].
    simpl in Hit. injection Hit as <- <-. injection Hl as <-. by simpl.
Qed.

Lemma fold_lines (lines : list (@CartLine num)) (snap : list (@OrderItem num))
    (z : num) :
  Forall2 (fun l oi => oi_lineTotal oi = cl_lineTotal l) lines snap ->
  fold_left (fun s i => num_add s (cl_lineTotal i)) lines z
  = fold_left num_add (map oi_lineTotal snap) z.
Proof.
  intros H. revert z. induction H as [|l oi lines snap Hl _ IH]; intros z;
    [done|].
  simpl. by rewrite Hl, IH.
Qed.

(** X20 — The cart shows the order's subtotal.  When [getCart] answers a
    cart and the same user's checkout, run next, is answered 201, the
    order has one line per line shown, in the same order and with the
    same slug, title, price, quantity and line total, and its subtotal is
    the subtotal the cart showed. *)
Theorem cart_total_is_order_total {B} (reqC : Request B)
    (reqO : Request RawCreateOrder) (env env' : Env) (db db1 db2 : @Db num)
    (resC : @CartResponse num) (resO : @Response num)
    (lines : list (@CartLine num)) (subtotal : num) :
  user_id (req_user reqO) = user_id (req_user reqC) ->
  run (getCart reqC) env db = (Normal resC, db1) ->
  cres_body resC = CartJson lines subtotal ->
  run (createOrder reqO) env' db1 = (Normal resO, db2) ->
  res_status resO = 201%nat ->
  exists order,
    res_body resO = JsonOrder order
    /\ o_subtotal order.2 = subtotal
    /\ Forall2 (fun l oi =>
                  oi_slug oi = cl_slug l /\ oi_title oi = cl_title l
                  /\ oi_price oi = cl_price l /\ oi_qty oi = cl_qty l
                  /\ oi_lineTotal oi = cl_lineTotal l)
         lines (o_items order.2).
Proof.
  intros Huser Hcart Hbody Horder Hst.
  unfold run in Hcart. fold (idle db) in Hcart.
  unfold getCart, bind at 1 in Hcart.
  destruct (getOrCreateCart_cases (user_id (req_user reqC)) env db)
    as [Hget|(msg & _ & _ & Hget)]; rewrite Hget in Hcart; [|done].
  unfold bind, computeTotals in Hcart.
  destruct (mapM cart_line _) as [lines'|] eqn:Hlines; [|done].
  simpl in Hcart. injection Hcart as <- <-.
  simpl in Hbody. injection Hbody as <- <-.
  destruct (createOrder_committed env' reqO _ db2 resO Horder Hst)
    as (body & items & sub & snap & _ & Hitems & _ & Hb & -> & _).
  rewrite Huser in *.
  set (user := user_id (req_user reqC)) in *.
  apply build_snapshot_inr in Hb as (ls & -> & Hls & -> & _).
  assert (Hstored : items = map (populate (ensure_cart user db))
                             (cart_lines db user)).
  { unfold cart_of in Hitems.
    rewrite <- (cart_lines_ensure_cart user user db). unfold cart_lines.
    destruct (carts (ensure_cart user db) !! user); [|done].
    simpl in *. congruence. }
  subst items.
  pose proof (lines_agree db (ensure_cart user db) _ lines' ls
                (products_ensure_cart user db) Hlines Hls) as Hagree.
  eexists. split; [reflexivity|]. simpl. split; [|done].
  unfold subtotal_of. f_equal. symmetry. apply fold_lines.
  eapply Forall2_impl; [exact Hagree|]. by intros l oi (_ & _ & _ & _ & ?).
Qed.


(** X22 — [clearCart] leaves an empty cart, from which no order can be
    made.  A [clearCart] that is answered has stored the user's cart
    with no lines (creating it if there was none) and touched nothing
    else, and the user's next checkout, with any body the schema
    accepts, is answered 400 ['Cart is empty'] without writing. *)
Theorem clearCart_then_checkout {B} (reqC : Request B)
    (reqO : Request RawCreateOrder) (env env' : Env) (db db1 : @Db num)
    (res : @CartResponse num) (body : CreateOrderBody) :
  user_id (req_user reqO) = user_id (req_user reqC) ->
  createOrderSchema (req_body reqO) = Some body ->
  run (clearCart reqC) env db = (Normal res, db1) ->
  res = {| cres_status := 200; cres_body := CartOk |}
  /\ db1 = set_cart (user_id (req_user reqC)) [] db
  /\ run (createOrder reqO) env' db1 =
     (Normal {| res_status := 400; res_body := JsonMessage "Cart is empty" |},
      db1).
Proof.
  intros Huser Hbody Hrun.
  unfold run in Hrun. fold (idle db) in Hrun.
  unfold clearCart, bind at 1 in Hrun.
  destruct (getOrCreateCart_cases (user_id (req_user reqC)) env db)
    as [Hget|(msg & _ & _ & Hget)]; rewrite Hget in Hrun; [|done].
  unfold bind, Cart_save_doc, Cart_save, db_call in Hrun. simpl in Hrun.
  destruct (faults env OpCartSave); [done|].
  simpl in Hrun. injection Hrun as <- <-.
  assert (Hdb : set_carts
                  <[user_id (req_user reqC) := {| cart_items := [] |}]>
                  (ensure_cart (user_id (req_user reqC)) db)
                = set_cart (user_id (req_user reqC)) [] db).
  { unfold ensure_cart, set_cart, set_carts.
    destruct (carts db !! user_id (req_user reqC)); [done|]. simpl.
    by rewrite insert_insert_eq. }
  rewrite Hdb. split; [done|]. split; [done|].
  rewrite createOrder_unfold, Hbody, Huser.
  apply createOrder_from_rejected. unfold cart_of. simpl.
  by rewrite lookup_insert_eq.
Qed.

(** *** The invariants of the store *)

Lemma unique_slugs_same_slugs (db db' : @Db num) :
  same_slugs db db' -> unique_slugs db -> unique_slugs db'.
Proof.
  intros [Hdom Hslug] Huniq i j p' q' Hp' Hq' Heq.
  assert (is_Some (products db !! i)) as [p Hp].
  { apply elem_of_dom. rewrite <- Hdom. by apply elem_of_dom. }
  assert (is_Some (products db !! j)) as [q Hq].
  { apply elem_of_dom. rewrite <- Hdom. by apply elem_of_dom. }
  apply (Huniq i j p q Hp Hq).
  rewrite <- (Hslug i p p' Hp Hp'), <- (Hslug j q q' Hq Hq'). done.
Qed.

(** Carts stay well formed when no product is removed and every cart
    keeps its lines or loses them all. *)
Lemma carts_wf_kept (db db' : @Db num) :
  dom (products db) ⊆ dom (products db') ->
  (forall u, cart_lines db' u = cart_lines db u \/ cart_lines db' u = []) ->
  carts_wf db -> carts_wf db'.
Proof.
  intros Hdom Hlines Hwf u.
  destruct (Hlines u) as [-> | ->]; [|split; constructor].
  destruct (Hwf u) as [Hnd Hall]. split; [done|].
  eapply Forall_impl; [exact Hall|]. intros it [Hq Hsome].
  split; [done|]. apply elem_of_dom, Hdom, elem_of_dom. done.
Qed.

Lemma same_slugs_stock (db db' : @Db num) :
  (forall pid, exists s,
     products db' !! pid = set_stock s <$> products db !! pid) ->
  same_slugs db db'.
Proof.
  intros Hstock. split.
  - apply set_eq. intros pid. rewrite !elem_of_dom.
    destruct (Hstock pid) as (s & ->).
    by rewrite fmap_is_Some.
  - intros id p p' Hp Hp'. destruct (Hstock id) as (s & Hs).
    rewrite Hp in Hs. rewrite Hs in Hp'. by injection Hp' as <-.
Qed.

Lemma cancelMyOrder_stock {B} (req : Request B) (env : Env) (db : @Db num) :
  let db' := (run (cancelMyOrder req) env db).2 in
  carts db' = carts db
  /\ forall pid, exists s,
       products db' !! pid = set_stock s <$> products db !! pid.
Proof.
  assert (Hsame : forall pid, exists s,
            products db !! pid = set_stock s <$> products db !! pid).
  { intros pid. destruct (products db !! pid) as [p|] eqn:Hp;
      [|by exists 0].
    exists (p_stock p). simpl. by rewrite set_stock_same. }
  rewrite cancelMyOrder_unfold.
  destruct (orders db !! req_params_id req) as [order|]; [|done].
  destruct (negb (isOwner order (req_user req)) && _); [done|].
  destruct (o_cancelled order); [done|].
  destruct (negb (bool_decide (o_paymentStatus order = Unpaid)) || _);
    [done|].
  destruct (cancelMyOrder_try_open env (req_params_id req) order db)
    as (r & w' & -> & Hok & Hthrow & _).
  destruct r as [res|e]; simpl.
  - destruct (Hok res eq_refl) as (_ & Hp & _ & Hc & _). split; [done|].
    intros pid. rewrite Hp.
    destruct (products db !! pid) as [p|]; [|by exists 0]. by eexists.
  - by rewrite (Hthrow e eq_refl).
Qed.

(** [createProduct] either leaves the database as it is, or has added
    one product, under a new id, whose slug no product had. *)
Lemma createProduct_effect (fuel : nat)
    (req : Request (@RawUpdateProduct num)) (env : Env) (db : @Db num) :
  exists r db',
    run (createProduct fuel req) env db = (r, db')
    /\ (db' = db
        \/ exists doc,
             db' = set_products <[fresh (dom (products db)) := doc]> db
             /\ 0 <= p_stock doc
             /\ forall j q, products db !! j = Some q ->
                            p_slug q <> p_slug doc).
Proof.
  unfold run, createProduct.
  unfold bind at 1, get_env at 1. unfold bind at 1, parse at 1.
  destruct (createSchema env (req_body req)) as [data|] eqn:Hdata;
    [|eexists _, _; split; [reflexivity|by left]].
  unfold bind at 1, uniqueSlug at 1, bind at 1, get_env at 1.
  fold (idle db).
  match goal with
  | |- context [uniqueSlug_loop fuel None ?b ?c ?n env (idle db)] =>
      destruct (uniqueSlug_loop_reads env db None b fuel c n) as (x & ->)
  end.
  destruct x as [slug|]; [|eexists _, _; split; [reflexivity|by left]].
  unfold bind at 1.
  destruct (category_refs_caught (c_categorySlug data)
              (c_subcategorySlug data) env db) as (refs & -> & _).
  destruct refs as [res|[categoryId subcategoryId]];
    [eexists _, _; split; [reflexivity|by left]|].
  unfold bind at 1, Product_create at 1, db_call at 1.
  destruct (faults env OpProductSave);
    [eexists _, _; split; [reflexivity|by left]|].
  match goal with
  | |- context [productSchema_valid ?d] =>
      set (doc := d); destruct (productSchema_valid doc)
  end; [|eexists _, _; split; [reflexivity|by left]].
  simpl.
  destruct (List.find _ (map_to_list (products db))) as [[j q]|] eqn:Hfind;
    [eexists _, _; split; [reflexivity|by left]|].
  simpl. eexists _, _. split; [reflexivity|].
  right. exists doc. split; [done|]. split.
  { subst doc. simpl. destruct (c_stock data) as [s|] eqn:Hs; [|done].
    simpl. by apply (createSchema_stock env (req_body req) data). }
  intros j q Hq Heq.
  assert (Hin : In (j, q) (map_to_list (products db)))
    by (by apply list_elem_of_In, elem_of_map_to_list).
  pose proof (find_none _ _ Hfind (j, q) Hin) as Hne. simpl in Hne.
  apply String.eqb_neq in Hne. done.
Qed.

Lemma cart_lines_carts (db db' : @Db num) (u : ObjectId) :
  carts db' = carts db -> cart_lines db' u = cart_lines db u.
Proof. unfold cart_lines. by intros ->. Qed.

(** A checkout changes no more of the products than their stocks, and
    leaves every cart with its lines or with none. *)
Lemma createOrder_stock_only (env : Env) (req : Request RawCreateOrder)
    (db : @Db num) :
  let db' := (run (createOrder req) env db).2 in
  (forall u, cart_lines db' u = cart_lines db u \/ cart_lines db' u = [])
  /\ forall pid, exists s,
       products db' !! pid = set_stock s <$> products db !! pid.
Proof.
  assert (Hsame : forall r, run (createOrder req) env db = (r, db) ->
    let db' := (run (createOrder req) env db).2 in
    (forall u, cart_lines db' u = cart_lines db u \/ cart_lines db' u = [])
    /\ forall pid, exists s,
         products db' !! pid = set_stock s <$> products db !! pid).
  { intros r ->. simpl. split; [by left|]. intros pid.
    destruct (products db !! pid) as [p|]; [|by exists 0].
    exists (p_stock p). simpl. by rewrite set_stock_same. }
  destruct (createOrder_cases env req db)
    as [[_ H]|(body & Hbody & [[_ H]|(items & Hcart & Hne & [(r & Hb & H)|
         (sub & snap & Hb & [(e & w' & _ & H)|(db2 & H & Heff & _)])])])];
    try (by eapply Hsame).
  rewrite H. simpl.
  destruct Heff as (Hstock & _ & _ & Hcarts & _). split.
  - intros u. unfold cart_lines. rewrite Hcarts.
    destruct (decide (u = user_id (req_user req))) as [->|Hne'].
    + right. by rewrite lookup_insert_eq.
    + left. by rewrite lookup_insert_ne.
  - intros pid. rewrite Hstock.
    destruct (products db !! pid) as [p|]; [|by exists 0]. by eexists.
Qed.

(** Every request keeps the two invariants. *)
Lemma api_keeps_invariants (env : Env) (r : ApiRequest) (db : @Db num) :
  unique_slugs db /\ carts_wf db ->
  unique_slugs (api env r db) /\ carts_wf (api env r db).
Proof.
  intros [Huniq Hwf]. destruct r as [user r|req|req|req|req|req|fuel req|
                                      fuel req|req]; simpl.
  - destruct (only_cart_cart_router user r env db)
      as (res & db' & Hrun & Hp & _).
    destruct (cart_router_keeps_carts_wf user r env db Hwf)
      as (res' & db'' & Hrun' & Hwf').
    rewrite Hrun in Hrun'. injection Hrun' as <- <-.
    unfold run. fold (idle db). rewrite Hrun. simpl. split; [|done].
    intros i j p q. rewrite Hp. apply Huniq.
  - pose proof (createOrder_stock_only env req db) as (Hcarts & Hstock).
    split.
    + eapply unique_slugs_same_slugs; [|done]. by apply same_slugs_stock.
    + eapply carts_wf_kept; [| |done].
      * by rewrite (proj1 (same_slugs_stock _ _ Hstock)).
      * exact Hcarts.
  - by rewrite getOrder_unfold;
      destruct (orders db !! req_params_id req) as [o|];
      [destruct (negb (isOwner o (req_user req)) && _)|].
  - destruct (cancelMyOrder_stock req env db) as [Hcarts Hstock]. split.
    + eapply unique_slugs_same_slugs; [|done]. by apply same_slugs_stock.
    + eapply carts_wf_kept; [| |done].
      * by rewrite (proj1 (same_slugs_stock _ _ Hstock)).
      * intros u. left. by apply cart_lines_carts.
  - rewrite updateOrderStatus_unfold.
    destruct (updateStatusSchema (req_body req)) as [data|]; [|done].
    destruct (orders db !! req_params_id req) as [o|]; [|done].
    cbv zeta. destruct (faults env OpOrderSave); [done|]. simpl.
    split; [done|]. eapply carts_wf_kept; [| |done]; [done|by left].
  - unfold run, getProduct, bind, Product_findOne. simpl.
    by destruct (List.find _ (map_to_list (products db))).
  - destruct (createProduct_effect fuel req env db)
      as (r & db' & -> & [->|(doc & -> & _ & Hfree)]); [done|]. simpl.
    assert (Hnew : products db !! fresh (dom (products db)) = None)
      by apply not_elem_of_dom, is_fresh.
    split.
    + intros i j p q. simpl.
      destruct (decide (i = fresh (dom (products db)))) as [->|Hi],
               (decide (j = fresh (dom (products db)))) as [->|Hj]; [done|..].
      * rewrite lookup_insert_eq, lookup_insert_ne by done.
        intros [= <-] Hq Heq. by destruct (Hfree j q Hq).
      * rewrite lookup_insert_eq, lookup_insert_ne by done.
        intros Hp [= <-] Heq. by destruct (Hfree i p Hp).
      * rewrite !lookup_insert_ne by done. apply Huniq.
    + eapply carts_wf_kept; [| |done].
      * simpl. rewrite dom_insert. apply union_subseteq_r.
      * by left.
  - destruct (updateProduct_effect fuel req env db)
      as (r & db' & -> & [[-> _]|(id & current & doc & Hcur & _ & ->
                                   & _ & Hfree & _ & _)]); [done|].
    simpl. split; [by eapply unique_slugs_insert|].
    eapply carts_wf_kept; [| |done].
    + simpl. rewrite dom_insert. apply union_subseteq_r.
    + by left.
  - rewrite deleteProduct_unfold.
    destruct (List.find _ (map_to_list (products db))) as [[id p]|] eqn:Hfind;
      [|done].
    apply find_some in Hfind as [Hin _].
    apply list_elem_of_In, elem_of_map_to_list in Hin. simpl. split.
    + eapply unique_slugs_insert; [done..|by left].
    + eapply carts_wf_kept; [| |done].
      * simpl. rewrite dom_insert. apply union_subseteq_r.
      * by left.
Qed.

(** What a cancellation does to the database, whatever it answers. *)
Lemma cancelMyOrder_summary {B} (req : Request B) (env : Env) (db : @Db num) :
  let db' := (run (cancelMyOrder req) env db).2 in
  db' = db
  \/ exists order,
       orders db !! req_params_id req = Some order
       /\ (forall pid,
             products db' !! pid =
             (fun p => set_stock (restored pid (o_items order) (p_stock p)) p)
               <$> products db !! pid)
       /\ orders db' =
          <[req_params_id req := set_cancelled true (Some (now env)) order]>
            (orders db).
Proof.
  rewrite cancelMyOrder_unfold.
  destruct (orders db !! req_params_id req) as [order|] eqn:Horder;
    [|by left].
  destruct (negb (isOwner order (req_user req)) && _); [by left|].
  destruct (o_cancelled order); [by left|].
  destruct (negb (bool_decide (o_paymentStatus order = Unpaid)) || _);
    [by left|].
  destruct (cancelMyOrder_try_open env (req_params_id req) order db)
    as (r & w' & -> & Hok & Hthrow & _).
  destruct r as [res|e]; simpl.
  - destruct (Hok res eq_refl) as (_ & Hp & Ho & _). right. by exists order.
  - left. by apply (Hthrow e).
Qed.

Lemma same_snapshot_refl (o : @Order num) : same_snapshot o o.
Proof. by repeat split. Qed.

(** Every request keeps every stored order, with its snapshot. *)
Lemma api_keeps_orders (env : Env) (r : ApiRequest) (db : @Db num)
    (id : ObjectId) (o : @Order num) :
  orders db !! id = Some o ->
  exists o', orders (api env r db) !! id = Some o' /\ same_snapshot o o'.
Proof.
  intros Ho.
  assert (Hsame : forall db', orders db' = orders db ->
            exists o', orders db' !! id = Some o' /\ same_snapshot o o').
  { intros db' ->. exists o. split; [done|apply same_snapshot_refl]. }
  destruct r as [user r|req|req|req|req|req|fuel req|fuel req|req]; simpl.
  - destruct (only_cart_cart_router user r env db)
      as (res & db' & Hrun & _ & _ & Hord & _).
    unfold run. fold (idle db). rewrite Hrun. by apply Hsame.
  - destruct (createOrder_cases env req db)
      as [[_ H]|(body & Hbody & [[_ H]|(items & Hcart & Hne & [(r & Hb & H)|
           (sub & snap & Hb & [(e & w' & _ & H)|(db2 & H & Heff & _)])])])];
      rewrite H; simpl; try (by apply Hsame).
    destruct Heff as (_ & Hnew & Hord & _). simpl in *.
    exists o. split; [|apply same_snapshot_refl].
    rewrite Hord, lookup_insert_ne; [done|]. congruence.
  - rewrite getOrder_unfold.
    destruct (orders db !! req_params_id req) as [o0|]; [|by apply Hsame].
    destruct (negb (isOwner o0 (req_user req)) && _); by apply Hsame.
  - destruct (cancelMyOrder_summary req env db)
      as [->|(order & Horder & _ & ->)]; [by apply Hsame|].
    destruct (decide (id = req_params_id req)) as [->|Hne].
    + rewrite lookup_insert_eq. eexists. split; [done|].
      rewrite Horder in Ho. injection Ho as <-. by repeat split.
    + rewrite lookup_insert_ne by done. exists o.
      split; [done|apply same_snapshot_refl].
  - rewrite updateOrderStatus_unfold.
    destruct (updateStatusSchema (req_body req)) as [data|];
      [|by apply Hsame].
    destruct (orders db !! req_params_id req) as [o0|] eqn:Ho0;
      [|by apply Hsame].
    cbv zeta. destruct (faults env OpOrderSave); [by apply Hsame|]. simpl.
    destruct (decide (id = req_params_id req)) as [->|Hne].
    + rewrite lookup_insert_eq. eexists. split; [done|].
      rewrite Ho0 in Ho. injection Ho as <-.
      by destruct (paymentStatus data), (status data).
    + rewrite lookup_insert_ne by done. exists o.
      split; [done|apply same_snapshot_refl].
  - unfold run, getProduct, bind, Product_findOne. simpl.
    destruct (List.find _ (map_to_list (products db))); by apply Hsame.
  - destruct (createProduct_effect fuel req env db)
      as (r & db' & -> & [->|(doc & -> & _)]); by apply Hsame.
  - destruct (updateProduct_effect fuel req env db)
      as (r & db' & -> & [[-> _]|(pid & current & doc & _ & _ & -> & _)]);
      by apply Hsame.
  - rewrite deleteProduct_unfold.
    destruct (List.find _ (map_to_list (products db))) as [[pid p]|];
      by apply Hsame.
Qed.

(** Every request keeps the stocks non-negative and the order lines
    positive. *)
Lemma api_keeps_stock_ok (env : Env) (r : ApiRequest) (db : @Db num) :
  stock_ok db -> stock_ok (api env r db).
Proof.
  intros [Hstock Hlines].
  destruct r as [user r|req|req|req|req|req|fuel req|fuel req|req]; simpl.
  - destruct (only_cart_cart_router user r env db)
      as (res & db' & Hrun & Hp & _ & Hord & _).
    unfold run. fold (idle db). rewrite Hrun. simpl.
    split; intros ? ?; rewrite ?Hp, ?Hord; [apply Hstock|apply Hlines].
  - rewrite createOrder_unfold.
    destruct (createOrderSchema (req_body req)) as [body|]; [|done].
    destruct (createOrder_from_cases env (user_id (req_user req)) body
                (cart_of db (user_id (req_user req))) db)
      as [[_ H]|(items & Hcart & Hne & [(r & Hb & H)|
           (sub & snap & Hb & [(e & w' & _ & H)|(db2 & H & Heff & Hkept
                                                 & Hvalid & _)])])];
      rewrite H; simpl; try done.
    destruct Heff as (Hdec & Hnew & Hord & _). simpl in *. split.
    + intros pid p'. rewrite Hdec.
      destruct (products db !! pid) as [p|] eqn:Hp; [|done].
      intros [= <-]. simpl.
      apply (Hkept pid p Hp), (Hstock pid p Hp).
    + intros id o'. rewrite Hord.
      destruct (decide (id = fresh (dom (orders db)))) as [->|Hne'].
      * rewrite lookup_insert_eq. intros [= <-]. simpl.
        apply Forall_forall. intros it Hin.
        pose proof (proj1 (forallb_forall _ _) Hvalid it
                      (proj1 (list_elem_of_In _ _) Hin)) as Hv.
        unfold orderItemSchema_valid in Hv.
        apply andb_true_iff in Hv as [_ Hq]. by apply Z.leb_le.
      * rewrite lookup_insert_ne by done. apply Hlines.
  - rewrite getOrder_unfold.
    destruct (orders db !! req_params_id req) as [o0|]; [|done].
    by destruct (negb (isOwner o0 (req_user req)) && _).
  - destruct (cancelMyOrder_summary req env db)
      as [->|(order & Horder & Hp & Ho)]; [done|]. split.
    + intros pid p'. rewrite Hp.
      destruct (products db !! pid) as [p|] eqn:Hpid; [|done].
      intros [= <-]. simpl.
      apply restored_nonneg; [by apply (Hstock pid)|].
      eapply Forall_impl; [exact (Hlines _ _ Horder)|].
      simpl. intros it Hit. lia.
    + intros id o'. rewrite Ho.
      destruct (decide (id = req_params_id req)) as [->|Hne].
      * rewrite lookup_insert_eq. intros [= <-]. simpl.
        by apply (Hlines _ _ Horder).
      * rewrite lookup_insert_ne by done. apply Hlines.
  - rewrite updateOrderStatus_unfold.
    destruct (updateStatusSchema (req_body req)) as [data|]; [|done].
    destruct (orders db !! req_params_id req) as [o0|] eqn:Ho0; [|done].
    cbv zeta. destruct (faults env OpOrderSave); [done|]. simpl.
    split; [done|]. intros id o'. simpl.
    destruct (decide (id = req_params_id req)) as [->|Hne].
    + rewrite lookup_insert_eq. intros [= <-].
      pose proof (Hlines _ _ Ho0).
      by destruct (paymentStatus data), (status data).
    + rewrite lookup_insert_ne by done. apply Hlines.
  - unfold run, getProduct, bind, Product_findOne. simpl.
    by destruct (List.find _ (map_to_list (products db))).
  - destruct (createProduct_effect fuel req env db)
      as (r & db' & -> & [->|(doc & -> & Hpos & _)]); [done|]. simpl.
    split; [|done]. intros pid p'. simpl.
    destruct (decide (pid = fresh (dom (products db)))) as [->|Hne].
    + rewrite lookup_insert_eq. by intros [= <-].
    + rewrite lookup_insert_ne by done. apply Hstock.
  - destruct (updateProduct_effect fuel req env db)
      as (r & db' & -> & [[-> _]|(pid & current & doc & Hcur & _ & -> & _
                                   & _ & Hpos & _)]); [done|]. simpl.
    split; [|done]. intros pid' p'. simpl.
    destruct (decide (pid' = pid)) as [->|Hne].
    + rewrite lookup_insert_eq. intros [= <-]. apply Hpos.
      by apply (Hstock pid).
    + rewrite lookup_insert_ne by done. apply Hstock.
  - rewrite deleteProduct_unfold.
    destruct (List.find _ (map_to_list (products db))) as [[pid p]|] eqn:Hfind;
      [|done].
    apply find_some in Hfind as [Hin _].
    apply list_elem_of_In, elem_of_map_to_list in Hin. simpl.
    split; [|done]. intros pid' p'. simpl.
    destruct (decide (pid' = pid)) as [->|Hne].
    + rewrite lookup_insert_eq. intros [= <-]. simpl. by apply (Hstock pid).
    + rewrite lookup_insert_ne by done. apply Hstock.
Qed.

(** X23 — The invariants of the store.  If no two products have the
    same slug and every cart has at most one line per product, each for
    a product that exists and with a quantity of at least 1, then so it
    is after any sequence of requests to the cart, order and product
    handlers, whatever the requests are, whatever they answer and
    whatever fails on the way: no handler removes a product, duplicates
    a slug or stores a malformed cart. *)
Theorem serve_keeps_invariants (l : list (Env * ApiRequest)) (db : @Db num) :
  unique_slugs db -> carts_wf db ->
  unique_slugs (serve l db) /\ carts_wf (serve l db).
Proof.
  intros Huniq Hwf. assert (H : unique_slugs db /\ carts_wf db) by done.
  clear Huniq Hwf. revert db H.
  induction l as [|[env r] l IH]; intros db H; [done|].
  simpl. apply IH. by apply api_keeps_invariants.
Qed.

(** Two ways to check the invariants on a given database. *)
Lemma unique_slugs_NoDup (db : @Db num) :
  NoDup (map (fun kv : ObjectId * Product => p_slug kv.2)
           (map_to_list (products db))) ->
  unique_slugs db.
Proof.
  intros Hnd i j p q Hp Hq Heq.
  apply elem_of_map_to_list in Hp, Hq.
  assert (Hinj : forall (l : list (ObjectId * @Product num)) x y,
            NoDup (map (fun kv : ObjectId * Product => p_slug kv.2) l) ->
            x ∈ l -> y ∈ l -> p_slug x.2 = p_slug y.2 -> x = y).
  { induction l as [|a l IH]; intros x y Hl Hx Hy Hxy;
      [by apply elem_of_nil in Hx|].
    simpl in Hl. apply NoDup_cons in Hl as [Ha Hl].
    apply elem_of_cons in Hx as [->|Hx], Hy as [->|Hy]; [done| | |by apply IH].
    - destruct Ha. rewrite Hxy. apply list_elem_of_In.
      apply (in_map (fun kv : ObjectId * Product => p_slug kv.2) l y).
      by apply list_elem_of_In.
    - destruct Ha. rewrite <- Hxy. apply list_elem_of_In.
      apply (in_map (fun kv : ObjectId * Product => p_slug kv.2) l x).
      by apply list_elem_of_In. }
  by injection (Hinj _ (i, p) (j, q) Hnd Hp Hq Heq).
Qed.

Lemma carts_wf_list (db : @Db num) :
  Forall (fun uc : ObjectId * Cart => cart_wf db (cart_items uc.2))
    (map_to_list (carts db)) ->
  carts_wf db.
Proof.
  intros Hall user. unfold cart_lines.
  destruct (carts db !! user) as [c|] eqn:Hc; [|split; constructor].
  apply elem_of_map_to_list in Hc.
  by apply (proj1 (Forall_forall _ _) Hall (user, c)).
Qed.

(** X24 — Orders are kept, with their snapshot.  Whatever sequence of
    requests is served, whatever they answer and whatever fails, every
    order that was stored is still stored under its id, for the same
    buyer and with the same line items, prices, line totals, subtotal,
    fees and grand total: no handler deletes an order or recomputes
    it. *)
Theorem serve_keeps_orders (l : list (Env * ApiRequest)) (db : @Db num)
    (id : ObjectId) (o : @Order num) :
  orders db !! id = Some o ->
  exists o', orders (serve l db) !! id = Some o' /\ same_snapshot o o'.
Proof.
  revert db o. induction l as [|[env r] l IH]; intros db o Ho.
  { exists o. split; [done|apply same_snapshot_refl]. }
  simpl. destruct (api_keeps_orders env r db id o Ho) as (o1 & Ho1 & H1).
  destruct (IH _ o1 Ho1) as (o' & Ho' & H').
  exists o'. split; [done|].
  destruct H1 as (? & ? & ? & ? & ? & ?), H' as (? & ? & ? & ? & ? & ?).
  repeat split; congruence.
Qed.

(** X25 — No stock goes negative.  If no product has a negative stock
    and every line of every stored order is for at least one unit, then
    so it is after any sequence of requests, whatever they answer and
    whatever fails: a checkout's [$inc] subtracts, in binary64, a
    quantity the stock covers, a cancellation's adds one that is
    positive, neither rounds below zero, and the product handlers store
    only stocks the schemas accept. *)
Theorem serve_keeps_stock_ok (l : list (Env * ApiRequest)) (db : @Db num) :
  stock_ok db -> stock_ok (serve l db).
Proof.
  revert db. induction l as [|[env r] l IH]; intros db H; [done|].
  simpl. apply IH. by apply api_keeps_stock_ok.
Qed.

Lemma stock_ok_list (db : @Db num) :
  Forall (fun kv : ObjectId * Product => 0 <= p_stock kv.2)
    (map_to_list (products db)) ->
  Forall (fun kv : ObjectId * Order =>
            Forall (fun it => 1 <= oi_qty it) (o_items kv.2))
    (map_to_list (orders db)) ->
  stock_ok db.
Proof.
  intros Hp Ho. split.
  - intros id p Hid. apply elem_of_map_to_list in Hid.
    by apply (proj1 (Forall_forall _ _) Hp (id, p)).
  - intros id o Hid. apply elem_of_map_to_list in Hid.
    by apply (proj1 (Forall_forall _ _) Ho (id, o)).
Qed.

End Properties.

(** * The specification's scenarios, in binary64 *)

Import Float64.

(** Rounding as the engine does it: [0.1 * 3] is not [0.3] before it is
    rounded, and the tie [0.125] goes up. *)
Example round2_drift :
  num_mul (cents 10) (num_of_int 3) <> cents 30
  /\ num_round2 (num_mul (cents 10) (num_of_int 3)) = cents 30.
Proof.
  split; [|by vm_compute]. intros Heq.
  apply (f_equal (fun x => PrimFloat.eqb x (cents 30))) in Heq.
  vm_compute in Heq. discriminate.
Qed.

Example round2_tie :
  num_round2 (PrimFloat.div (of_int 1) (of_int 8)) = cents 13.
Proof. by vm_compute. Qed.

(** [add64] is the engine's addition on integral values: small sums are
    exact, [2^53 + 1] and [2^54 - 1] are ties that go to the even
    significand, [2^54 + 2] stays [2^54], [2^53 + 3] goes up to
    [2^53 + 4]. *)
Example add64_binary64 :
  Forall (fun xy : Z * Z =>
            to_int (PrimFloat.add (of_int xy.1) (of_int xy.2))
            = add64 xy.1 xy.2)
    [(5, -2); (3, 2); (2 ^ 53, 1); (2 ^ 53, 2); (2 ^ 53, 3);
     (2 ^ 53 + 2, -1); (2 ^ 53 + 2, 1); (2 ^ 54, -1); (2 ^ 54, -2);
     (2 ^ 54, 1); (2 ^ 54, 2); (2 ^ 54, 3); (2 ^ 54, -3); (2 ^ 55, -2);
     (- 2 ^ 54, 1); (- 2 ^ 54, -2); (- 2 ^ 54, -3); (2 ^ 60, 999);
     (2 ^ 63, 999); (2 ^ 63, 1025); (2 ^ 100, 2 ^ 47); (2 ^ 100, 2 ^ 48);
     (3 * 2 ^ 99, 2 ^ 47); (2 ^ 54, - 2 ^ 54); (2 ^ 54 - 2, -1);
     (2 ^ 64 - 2 ^ 11, 1024); (2 ^ 64 - 2 ^ 11, 1023)]
  /\ add64 (2 ^ 54) (-1) = 2 ^ 54
  /\ add64 (2 ^ 54) 2 = 2 ^ 54
  /\ add64 (2 ^ 53 + 2) (-1) = 2 ^ 53
  /\ add64 (2 ^ 53) 3 = 2 ^ 53 + 4.
Proof.
  split; [|by vm_compute].
  repeat (constructor; [by vm_compute|]). constructor.
Qed.

(** The databases of the large stock are reached from those of the
    scenario through the handlers. *)
Example db_big_reached :
  serve [(env0, UpdateProductReq 8 (restock (2 ^ 54)));
         (env0, CartReq alice (UpdateItem "product-a" (qty_body 1)))] db0
  = db_big
  /\ serve [(env0, UpdateProductReq 8 (restock (2 ^ 54)))] db1 = db1_big.
Proof. split; vm_compute; reflexivity. Qed.

(** C3 — Successful checkout.  (1) Whatever the arithmetic of the
    prices, when [createOrder] answers 201 the answer is the order, which
    is persisted under a new [_id] with [status = pending] and
    [paymentStatus = unpaid]; the stock of every product has gone through
    the [$inc] of every line of the cart that asks for it, which
    computes in binary64, and nothing else of the product has changed; a
    product whose stock was at most [2^53] has the stock it had minus the
    quantity the cart ordered of it; the user's cart has an empty item
    list.  (2) In binary64, with no injected
    failure, for a cart of one line of quantity 2 of an active product of
    price 10.00 and stock 5, [createOrder] answers 201 with subtotal
    20.00 and grand total 20.00, the product's stock becomes 3 and the
    cart becomes empty. *)
Theorem checkout_success :
  (forall (num : Type) (Num : Number num) (env : Env)
          (req : Request RawCreateOrder) (db db' : Db) (res : Response),
     run (createOrder req) env db = (Normal res, db') ->
     res_status res = 201%nat ->
     exists order items,
       res_body res = JsonOrder order
       /\ o_status order.2 = Pending
       /\ o_paymentStatus order.2 = Unpaid
       /\ orders db !! order.1 = None
       /\ orders db' !! order.1 = Some order.2
       /\ cart_of db (user_id (req_user req)) = Some items
       /\ (forall pid p,
             products db !! pid = Some p ->
             products db' !! pid
             = Some (set_stock (decremented pid items (p_stock p)) p)
             /\ (p_stock p <= 2 ^ 53 ->
                 products db' !! pid
                 = Some (set_stock (p_stock p - ordered pid items) p)))
       /\ carts db' !! user_id (req_user req) = Some {| cart_items := [] |})
  /\ (forall (env : Env) (req : Request RawCreateOrder) (db : Db)
             (body : CreateOrderBody) (idA : positive) (A : Product),
        (forall op, faults env op = None) ->
        createOrderSchema (req_body req) = Some body ->
        carts db !! user_id (req_user req)
        = Some {| cart_items := [{| ci_product := idA; ci_qty := 2 |}] |} ->
        products db !! idA = Some A ->
        p_isActive A = true ->
        p_price A = cents 1000 ->
        p_stock A = 5 ->
        p_title A <> "" -> p_slug A <> "" ->
        exists order db',
          run (createOrder req) env db =
          (Normal {| res_status := 201; res_body := JsonOrder order |}, db')
          /\ o_subtotal order.2 = cents 2000
          /\ o_grandTotal order.2 = cents 2000
          /\ products db' !! idA = Some (set_stock 3 A)
          /\ carts db' !! user_id (req_user req)
             = Some {| cart_items := [] |}).
Proof.
  split.
  - intros num Num env req db db' res Hrun Hstatus.
    pose proof (createOrder_cases env req db) as Hcases.
    cbv zeta in Hcases.
    destruct Hcases
      as [[_ Hr]|(body & _ & [[_ Hr]|(items & Hcart & _ &
           [(res' & Hb & Hr)|(sub & snap & _ &
             [(e & w' & _ & Hr)|(db'' & Hr & Heff & _)])])])];
      try (rewrite Hr in Hrun;
           first [discriminate|injection Hrun as <- <-; done]).
    { rewrite Hr in Hrun. injection Hrun as <- <-.
      by apply build_snapshot_inl in Hb
        as (pre & it & post & _ & _ & [[_ ->]|(id & p & _ & _ & _ & ->)]). }
    pose proof (createOrder_decrements env req db db'' _ items Hr eq_refl
                  Hcart) as Hdec.
    rewrite Hr in Hrun. injection Hrun as <- <-.
    destruct Heff as (Hstock & Hnew & Hord & Hcarts & _).
    eexists _, items. split; [reflexivity|]. simpl in *.
    split; [done|]. split; [done|]. split; [done|].
    split; [by rewrite Hord, lookup_insert_eq|]. split; [done|].
    split; [|by rewrite Hcarts, lookup_insert_eq].
    intros pid p Hp. rewrite Hstock, Hp. simpl. split; [done|].
    intros Hsafe. destruct (Hdec pid p Hp) as [_ Hexact].
    by destruct (Hexact Hsafe) as (-> & _).
  - intros env req db body idA A Hnofault Hparse Hcart HA Hact Hprice Hstock
      Ht Hs.
    eexists _, _. split.
    { apply (createOrder_single_line env req db body idA A 2);
        try done. lia. }
    simpl. rewrite Hprice, Hstock.
    repeat split; try by rewrite lookup_insert_eq.
    all: by vm_compute.
Qed.

(** ** Instances of the theorems *)

(** Alice checks out while the driver fails on the insertion of the order,
    after her product's stock was decremented in the transaction: she is
    answered 500 with the driver's message, and the database is as it
    was. *)
Lemma checkout_all_or_nothing_witness :
  run (createOrder (checkout_of alice (Value no_body))) env_fault db0 =
  (Normal {| res_status := 500;
             res_body := JsonMessage "connection lost" |}, db0).
Proof.
  destruct (checkout_all_or_nothing env_fault
              (checkout_of alice (Value no_body)) db0)
    as (r & db' & Hrun & _ & Hthrow & _).
  rewrite Hrun.
  edestruct Hthrow as [-> ->].
  - reflexivity.
  - vm_compute. reflexivity.
  - discriminate.
  - vm_compute. reflexivity.
  - vm_compute. reflexivity.
  - reflexivity.
Defined.

(** C1, as the claim states it, fails.  Product A has a stock of [2^54]
    and Alice's cart asks for one unit: her checkout is answered 201,
    the order is persisted and her cart is emptied, and the stock,
    [2^54 - 1] in binary64, is stored as [2^54]: of the three effects,
    two hold and the decrement does not. *)
Lemma checkout_without_decrement :
  cart_of db_big 7
  = Some [{| it_product := Some (1%positive, set_stock (2 ^ 54) productA);
             it_qty := 1 |}]
  /\ exists order db',
       run (createOrder (checkout_of alice (Value no_body))) env0 db_big
       = (Normal {| res_status := 201; res_body := JsonOrder order |}, db')
       /\ orders db_big !! order.1 = None
       /\ orders db' !! order.1 = Some order.2
       /\ carts db' !! 7%positive = Some {| cart_items := [] |}
       /\ products db' = products db_big
       /\ db' <> db_big.
Proof.
  split; [reflexivity|].
  eexists _, _. split; [vm_compute; reflexivity|].
  split; [reflexivity|]. split; [reflexivity|]. split; [reflexivity|].
  split; [by vm_compute|].
  intros Heq. apply (f_equal (fun db => carts db !! 7%positive)) in Heq.
  vm_compute in Heq. discriminate.
Qed.

(** C3, as the claim states it, fails: after that checkout, answered 201
    for one unit of product A, the stock of product A is what it was,
    [2^54], and not one less. *)
Lemma checkout_stock_not_reduced :
  exists order db',
    run (createOrder (checkout_of alice (Value no_body))) env0 db_big
    = (Normal {| res_status := 201; res_body := JsonOrder order |}, db')
    /\ map (fun oi => (oi_product oi, oi_qty oi)) (o_items order.2)
       = [(1%positive, 1)]
    /\ p_stock <$> products db_big !! 1%positive = Some (2 ^ 54)
    /\ p_stock <$> products db' !! 1%positive = Some (2 ^ 54)
    /\ p_stock <$> products db' !! 1%positive <> Some (2 ^ 54 - 1).
Proof.
  eexists _, _. split; [vm_compute; reflexivity|].
  split; [reflexivity|]. split; [reflexivity|].
  split; [by vm_compute|]. by vm_compute.
Qed.

(** Alice's checkout of two A at 10.00, stock 5. *)
Lemma checkout_success_witness :
  exists order db',
    run (createOrder (checkout_of alice (Value no_body))) env0 db0 =
    (Normal {| res_status := 201; res_body := JsonOrder order |}, db')
    /\ o_subtotal order.2 = cents 2000
    /\ o_grandTotal order.2 = cents 2000
    /\ products db' !! 1%positive = Some (set_stock 3 productA)
    /\ carts db' !! 7%positive = Some {| cart_items := [] |}.
Proof.
  apply (proj2 checkout_success env0 (checkout_of alice (Value no_body)) db0
           {| shippingAddress := None; paymentMethod := None |}
           1%positive productA);
    try reflexivity; try discriminate.
Defined.

(** Bob asks for two B when one is left: 400, and nothing changes. *)
Lemma checkout_validation_no_mutation_witness :
  run (createOrder (checkout_of bob (Value no_body))) env0 db0 =
  (Normal {| res_status := 400;
             res_body := JsonMessage "Insufficient stock for product-b" |},
   db0).
Proof.
  refine (proj1 (proj2 (proj2
            (checkout_validation_no_mutation env0
               (checkout_of bob (Value no_body)) db0
               {| shippingAddress := None; paymentMethod := None |}
               eq_refl)))
            {| cart_items := [{| ci_product := 2; ci_qty := 2 |}] |}
            [] {| ci_product := 2; ci_qty := 2 |} [] productB
            _ _ _ _ _ _).
  - reflexivity.
  - reflexivity.
  - constructor.
  - reflexivity.
  - reflexivity.
  - simpl. lia.
Defined.

(** Alice's cart of two A is a validated cart: her checkout is answered
    201 with an order of 20.00, whose totals are those of the claim. *)
Lemma order_totals_witness :
  exists id order db',
    run (createOrder (checkout_of alice (Value no_body))) env0 db0
    = (Normal {| res_status := 201; res_body := JsonOrder (id, order) |}, db')
    /\ orders db' !! id = Some order
    /\ map oi_lineTotal (o_items order) = [cents 2000]
    /\ o_subtotal order =
       num_round2
         (fold_left num_add (map oi_lineTotal (o_items order)) num_zero)
    /\ o_subtotal order = cents 2000
    /\ o_shippingFee order = num_zero
    /\ o_tax order = num_zero
    /\ o_grandTotal order =
       num_round2
         (num_add (num_add (o_subtotal order) (o_shippingFee order))
            (o_tax order))
    /\ o_grandTotal order = cents 2000.
Proof.
  destruct (order_totals env0 (checkout_of alice (Value no_body)) db0
              {| shippingAddress := None; paymentMethod := None |}
              {| cart_items := [{| ci_product := 1; ci_qty := 2 |}] |}
              eq_refl eq_refl) as [Htotals Hmade].
  destruct Hmade as (res & db' & Hrun & Hst).
  - reflexivity.
  - discriminate.
  - apply (bool_decide_unpack _). vm_compute. exact I.
  - apply Forall_singleton. exists productA. simpl.
    repeat split; try reflexivity; try discriminate; lia.
  - destruct (Htotals res db' Hrun Hst)
      as (id & order & Hbody & Hstored & Hlines & Hsub & Hship & Htax
          & Hgrand).
    destruct res as [status body]. simpl in Hst, Hbody. subst status body.
    exists id, order, db'. split; [exact Hrun|]. split; [exact Hstored|].
    assert (Hl : map oi_lineTotal (o_items order) = [cents 2000]).
    { inversion Hlines as [|ci oi l l' (p & Hp & _ & _ & _ & Hlt) Hrest H1 H2].
      inversion Hrest. subst. simpl. f_equal. rewrite Hlt.
      injection Hp as <-. vm_compute. reflexivity. }
    split; [exact Hl|]. split; [exact Hsub|].
    assert (Hs : o_subtotal order = cents 2000)
      by (rewrite Hsub, Hl; vm_compute; reflexivity).
    split; [exact Hs|]. split; [exact Hship|]. split; [exact Htax|].
    split; [exact Hgrand|].
    rewrite Hgrand, Hs, Hship, Htax. vm_compute. reflexivity.
Defined.

(** Alice's checkout leads from [db0] to [db1]. *)
Example alice_checks_out :
  run (createOrder (checkout_of alice (Value no_body))) env0 db0 =
  (Normal {| res_status := 201; res_body := JsonOrder (1%positive, orderA) |},
   db1).
Proof. vm_compute. reflexivity. Qed.

(** The second buyer of the last B is answered with the stock conflict, no
    order is created for her and her cart is left as it was. *)
Example last_unit_race :
  let '(res1, db_1) := checkout (last_B 8) db0 in
  let '(res2, db_2) := checkout (last_B 7) db_1 in
  is_201 res1 = true
  /\ res2 = Normal {| res_status := 500;
                      res_body :=
                        JsonMessage "Stock update failed for product-b" |}
  /\ db_2 = db_1
  /\ p_stock <$> products db_2 !! 2%positive = Some 0.
Proof. vm_compute. repeat split. Qed.

(** The last B is sold once. *)
Lemma no_oversell_witness :
  exists p',
    products (checkouts 2 [last_B 8; last_B 7] db0).1 !! 2%positive = Some p'
    /\ 0 <= p_stock p'
    /\ p_stock p' = 1 - (checkouts 2 [last_B 8; last_B 7] db0).2
    /\ 0 <= (checkouts 2 [last_B 8; last_B 7] db0).2 <= 1.
Proof.
  destruct (proj2 (proj2 (no_oversell (num := PrimFloat.float)))
              [last_B 8; last_B 7] db0 2%positive productB)
    as (p' & Hp' & Hpos & Hexact).
  - reflexivity.
  - simpl. lia.
  - exists p'. split; [exact Hp'|]. split; [exact Hpos|].
    apply Hexact. simpl. lia.
Defined.

(** A checkout of one unit of product A at a stock of [2^54] is answered
    201 and leaves the stock at [2^54], whatever else the database
    holds; so is every checkout of a sequence of them. *)
Lemma unit_sale (db : @Db PrimFloat.float) :
  products db !! 1%positive = Some (set_stock (2 ^ 54) productA) ->
  exists r db',
    checkout (buy_A 1) db = (r, db')
    /\ is_201 r = true
    /\ products db' !! 1%positive = Some (set_stock (2 ^ 54) productA).
Proof.
  intros Hp. unfold checkout, buy_A.
  simpl a_user. simpl a_body. simpl a_cart. simpl a_env.
  erewrite createOrder_from_validated; [|done|vm_compute; reflexivity].
  unfold checkout_try, createOrder_try. cbn [decrement_stock it_product].
  unfold bind at 1. unfold bind at 1. rewrite Product_updateOne_open.
  simpl faults. rewrite Hp. simpl.
  eexists _, _. split; [reflexivity|]. split; [reflexivity|].
  simpl. rewrite lookup_insert_eq. reflexivity.
Qed.

Lemma unit_sales (n : nat) (db : @Db PrimFloat.float) :
  products db !! 1%positive = Some (set_stock (2 ^ 54) productA) ->
  (checkouts 1 (repeat (buy_A 1) n) db).2 = Z.of_nat n
  /\ products (checkouts 1 (repeat (buy_A 1) n) db).1 !! 1%positive
     = Some (set_stock (2 ^ 54) productA).
Proof.
  revert db. induction n as [|n IH]; intros db Hp; [done|].
  cbn [repeat checkouts].
  destruct (unit_sale db Hp) as (r & db' & -> & -> & Hp').
  destruct (IH db' Hp') as [Hsold Hstock].
  destruct (checkouts 1 (repeat (buy_A 1) n) db') as [db2 sold].
  simpl in *. split; [lia|done].
Qed.

(** C2, as the claim states it, fails.  Product A has a stock of [2^54].
    A buyer checks out one unit: the conditional write matches, and
    [2^54 - 1] is stored as [2^54].  A second buyer checks out [2^54]
    units: the stock covers them and becomes [0].  Both checkouts are
    answered 201, and the quantities decremented add up to [2^54 + 1],
    one more than the initial stock.  Buyers of one unit each do the
    same: each of their checkouts is answered 201 and leaves the stock
    at [2^54], and after [2^54 + 1] of them more is sold than there
    was. *)
Lemma sold_more_than_stock :
  p_stock <$> products db_big !! 1%positive = Some (2 ^ 54)
  /\ (let '(res1, db_1) := checkout (buy_A 1) db_big in
      let '(res2, db_2) := checkout (buy_A (2 ^ 54)) db_1 in
      is_201 res1 = true
      /\ p_stock <$> products db_1 !! 1%positive = Some (2 ^ 54)
      /\ is_201 res2 = true
      /\ p_stock <$> products db_2 !! 1%positive = Some 0)
  /\ (checkouts 1 [buy_A 1; buy_A (2 ^ 54)] db_big).2 = 2 ^ 54 + 1
  /\ ~ (checkouts 1 [buy_A 1; buy_A (2 ^ 54)] db_big).2 <= 2 ^ 54
  /\ (checkouts 1 (repeat (buy_A 1) (Z.to_nat (2 ^ 54 + 1))) db_big).2
     = 2 ^ 54 + 1.
Proof.
  split; [reflexivity|]. split; [by vm_compute|].
  split; [by vm_compute|]. split.
  - assert ((checkouts 1 [buy_A 1; buy_A (2 ^ 54)] db_big).2 = 2 ^ 54 + 1)
      as -> by (by vm_compute).
    lia.
  - rewrite (proj1 (unit_sales (Z.to_nat (2 ^ 54 + 1)) db_big eq_refl)).
    apply Z2Nat.id. lia.
Qed.

(** Once paid, the order cannot be cancelled by its owner. *)
Lemma cancellation_eligibility_witness :
  run (cancelMyOrder (on_order1 alice (@Undefined unit))) env0 db_paid =
  (Normal {| res_status := 400;
             res_body :=
               JsonMessage "Cannot cancel after payment or processing" |},
   db_paid).
Proof.
  refine (proj2 (proj2 (cancellation_eligibility env0
                          (on_order1 alice (@Undefined unit)) db_paid
                          (set_paymentStatus PaymentPaid orderA) _) _) _ _).
  - reflexivity.
  - left. reflexivity.
  - reflexivity.
  - left. discriminate.
Defined.

(** Alice cancels her order: the two A go back to the stock. *)
Lemma cancellation_symmetry_witness :
  exists db',
    run (cancelMyOrder (on_order1 alice (@Undefined unit))) env0 db1 =
    (Normal {| res_status := 200; res_body := JsonOk |}, db')
    /\ products db' !! 1%positive = Some productA
    /\ orders db' !! 1%positive
       = Some (set_cancelled true (Some (now env0)) orderA).
Proof.
  destruct (cancellation_symmetry env0 (on_order1 alice (@Undefined unit))
              db1 orderA)
    as (res & db' & Hrun
        & [(-> & _ & Hexact & Hord & _)|(_ & _ & op & msg & Hfault)] & _);
    try reflexivity; [by left| |discriminate].
  exists db'. split; [exact Hrun|]. split.
  - rewrite (Hexact 1%positive (set_stock 3 productA)).
    + reflexivity.
    + reflexivity.
    + simpl. lia.
    + apply Forall_singleton. simpl. lia.
    + simpl. lia.
  - rewrite Hord. reflexivity.
Defined.

(** C4, as the claim states it, fails.  Alice's order records two A and
    product A has a stock of [2^54]: her cancellation is answered 200
    and flags the order, and the stock, [2^54 + 2] in binary64, is
    stored as [2^54]: it has not increased. *)
Lemma cancellation_without_increment :
  recorded 1 (o_items orderA) = 2
  /\ p_stock <$> products db1_big !! 1%positive = Some (2 ^ 54)
  /\ exists db',
       run (cancelMyOrder (on_order1 alice (@Undefined unit))) env0 db1_big
       = (Normal {| res_status := 200; res_body := JsonOk |}, db')
       /\ o_cancelled <$> orders db' !! 1%positive = Some true
       /\ p_stock <$> products db' !! 1%positive = Some (2 ^ 54)
       /\ p_stock <$> products db' !! 1%positive <> Some (2 ^ 54 + 2).
Proof.
  split; [reflexivity|]. split; [reflexivity|].
  eexists. split; [vm_compute; reflexivity|].
  split; [reflexivity|]. split; [by vm_compute|]. by vm_compute.
Qed.

(** The price of A is raised after Alice's order: she still sees the order
    with its price of 10.00 and its total of 20.00. *)
Lemma price_immutability_witness :
  let db' := (run (updateProduct 8 raise_price) env0 db1).2 in
  (p_price <$> products db' !! 1%positive = Some (cents 1250))
  /\ run (getOrder (on_order1 alice (@Undefined unit))) env0 db' =
     (Normal {| res_status := 200;
                res_body := JsonOrder (1%positive, orderA) |}, db').
Proof.
  split; [by vm_compute|].
  apply (proj2 (proj2 (price_immutability 8 env0 env0 raise_price
                         (on_order1 alice (@Undefined unit)) db1))).
  - reflexivity.
  - left. reflexivity.
Defined.

(** A delivered, cancelled order is put back to pending and marked paid;
    it stays cancelled. *)
Lemma status_update_permissive_witness :
  exists order',
    run (updateOrderStatus
           (on_order1 root
              (Value {| raw_status := Value "pending";
                        raw_paymentStatus := Value "paid" |})))
      env0 db_delivered_cancelled =
    (Normal {| res_status := 200;
               res_body := JsonOrder (1%positive, order') |},
     set_orders <[1%positive := order']> db_delivered_cancelled)
    /\ o_status order' = Pending
    /\ o_paymentStatus order' = PaymentPaid
    /\ o_cancelled order' = true.
Proof.
  destruct (proj1 (status_update_permissive (num := PrimFloat.float)) env0
              (on_order1 root
                 (Value {| raw_status := Value "pending";
                           raw_paymentStatus := Value "paid" |}))
              db_delivered_cancelled
              (set_cancelled true (Some 0) (set_status Delivered orderA))
              {| status := Some Pending; paymentStatus := Some PaymentPaid |})
    as (order' & Hrun & Hst & Hps & Hc & _); try reflexivity.
  exists order'. repeat split; assumption.
Defined.

(** A body with an unknown payment method is answered 500 by the error
    handler, with the path of the field in the message. *)
Lemma validation_error_surfaced_witness :
  app (createOrder (checkout_of alice (Value bad_body))) env0 db0 =
  ({| res_status := 500;
      res_body := JsonError 500 "paymentMethod" None |}, db0).
Proof.
  refine (proj2 (proj2
            (proj1 (validation_error_surfaced (num := PrimFloat.float)) env0
               (checkout_of alice (Value bad_body)) db0 _))).
  reflexivity.
Defined.

(** C9, as the claim states it, fails: the body [bad_body] does not pass
    [createOrderSchema], yet the answer has status 500, not 400; and the
    400 answer to a user without a cart has a body with the single key
    [message], without [status]. *)
Lemma validation_error_not_400 :
  createOrderSchema (Value bad_body) = None
  /\ (exists err,
        run (createOrder (checkout_of alice (Value bad_body))) env0 db0
        = (Throw err, db0)
        /\ err_status err = None
        /\ res_status (errorHandler (num := PrimFloat.float) env0 err)
           = 500%nat)
  /\ res_status
       (app (createOrder (checkout_of alice (Value bad_body))) env0 db0).1
     = 500%nat
  /\ res_status
       (app (createOrder (checkout_of alice (Value bad_body))) env0 db0).1
     <> 400%nat
  /\ (let res := (app (createOrder (checkout_of root (Value no_body)))
                    env0 db0).1 in
      res_status res = 400%nat
      /\ json_keys (res_body res) = ["message"]
      /\ ~ In "status" (json_keys (res_body res))).
Proof.
  split; [reflexivity|]. split.
  { eexists. split; [vm_compute; reflexivity|]. by split. }
  vm_compute. repeat split; try discriminate.
  intros [H|[]]. discriminate.
Qed.

(** ** Instances of the further properties *)

(** The invariants hold in the databases of the scenarios. *)
Lemma unique_slugs_db0 : unique_slugs db0.
Proof.
  apply unique_slugs_NoDup. apply (bool_decide_unpack _). vm_compute. exact I.
Qed.

Lemma carts_wf_db0 : carts_wf db0.
Proof.
  apply carts_wf_list. unfold cart_wf.
  apply (bool_decide_unpack _). vm_compute. exact I.
Qed.

(** Alice reads her new order back; Bob is refused. *)
Lemma order_read_back_witness :
  exists order,
    orders db0 !! order.1 = None
    /\ run (getOrder (on_order1 alice (@Undefined unit))) env0 db1
       = (Normal {| res_status := 200; res_body := JsonOrder order |}, db1)
    /\ run (getOrder (on_order1 bob (@Undefined unit))) env0 db1
       = (Normal {| res_status := 403; res_body := JsonMessage "Forbidden" |},
          db1).
Proof.
  destruct (order_read_back (B := unit) env0 env0
              (checkout_of alice (Value no_body)) db0 db1 _
              alice_checks_out eq_refl)
    as (order & Hbody & Hnew & Hget).
  simpl in Hbody. injection Hbody as <-.
  exists (1%positive, orderA). split; [exact Hnew|]. split.
  - exact (Hget (on_order1 alice Undefined) eq_refl).
  - exact (Hget (on_order1 bob Undefined) eq_refl).
Defined.

(** Alice cannot cancel her order twice. *)
Lemma cancel_is_final_witness :
  let db' := (run (cancelMyOrder (on_order1 alice (@Undefined unit)))
                env0 db1).2 in
  exists order,
    orders db' !! 1%positive = Some order
    /\ o_cancelled order = true
    /\ run (cancelMyOrder (on_order1 alice (@Undefined unit))) env0 db' =
       (Normal
          (if isOwner order alice || isAdmin alice
           then {| res_status := 400;
                   res_body := JsonMessage "Already cancelled" |}
           else {| res_status := 403;
                   res_body := JsonMessage "Forbidden" |}), db').
Proof.
  intros db'.
  apply (cancel_is_final env0 env0 (on_order1 alice (@Undefined unit))
           (on_order1 alice (@Undefined unit)) db1 db'
           {| res_status := 200; res_body := JsonOk |}).
  - vm_compute. reflexivity.
  - reflexivity.
  - reflexivity.
Defined.

(** The stocks of [db0] are in the range in which [$inc] is exact. *)
Lemma stocks_db0 (pid : ObjectId) (p : Product) :
  products db0 !! pid = Some p -> 0 <= p_stock p <= 2 ^ 53.
Proof.
  intros Hp. apply elem_of_map_to_list in Hp.
  assert (Hall : Forall (fun kv : ObjectId * Product =>
                           0 <= p_stock kv.2 <= 2 ^ 53)
                   (map_to_list (products db0)))
    by (apply (bool_decide_unpack _); vm_compute; exact I).
  by apply (proj1 (Forall_forall _ _) Hall (pid, p)).
Qed.

(** Alice's checkout and cancellation leave the stock of [db0]. *)
Lemma checkout_cancel_round_trip_witness :
  exists db'',
    run (cancelMyOrder (on_order1 alice (@Undefined unit))) env0 db1 =
    (Normal {| res_status := 200; res_body := JsonOk |}, db'')
    /\ products db'' = products db0
    /\ carts db'' = carts db1
    /\ cart_lines db'' 7%positive = []
    /\ orders db'' =
       <[1%positive := set_cancelled true (Some (now env0)) orderA]>
         (orders db1).
Proof.
  apply (checkout_cancel_round_trip env0 env0
           (checkout_of alice (Value no_body))
           (on_order1 alice (@Undefined unit)) db0 db1 orderA).
  - exact stocks_db0.
  - exact alice_checks_out.
  - left. reflexivity.
  - reflexivity.
Defined.

(** Once the admin has marked it paid, Alice cannot cancel her order. *)
Lemma processed_order_not_cancellable_witness :
  exists res',
    run (cancelMyOrder (on_order1 alice (@Undefined unit))) env0 db_paid
    = (Normal res', db_paid)
    /\ (res_status res' = 400%nat \/ res_status res' = 403%nat).
Proof.
  apply (processed_order_not_cancellable env0 env0 mark_paid
           (on_order1 alice (@Undefined unit)) db1 db_paid
           {| res_status := 200;
              res_body :=
                JsonOrder (1%positive, set_paymentStatus PaymentPaid orderA) |}
           {| status := None; paymentStatus := Some PaymentPaid |}).
  - reflexivity.
  - right. exists PaymentPaid. split; [reflexivity|discriminate].
  - vm_compute. reflexivity.
  - reflexivity.
  - reflexivity.
Defined.

(** Alice's second checkout finds her cart empty. *)
Lemma checkout_empties_cart_witness :
  carts db1 !! 7%positive = Some {| cart_items := [] |}
  /\ run (createOrder (checkout_of alice (Value no_body))) env0 db1 =
     (Normal {| res_status := 400; res_body := JsonMessage "Cart is empty" |},
      db1).
Proof.
  apply (checkout_empties_cart env0 env0 (checkout_of alice (Value no_body))
           (checkout_of alice (Value no_body)) db0 db1 _
           {| shippingAddress := None; paymentMethod := None |}
           alice_checks_out); reflexivity.
Defined.

(** Alice's token lets her through; a token the verifier does not know
    is answered 401 ['Invalid token'], and so is Alice's token under
    another scheme, with ['Missing token']. *)
Lemma requireAuth_guard_witness :
  let guard authorization :=
    requireAuth (num := PrimFloat.float) verify0 authorization
      (fun status message => respond status (JsonMessage message))
      (fun payload => getOrder (on_order1 payload (@Undefined unit))) in
  guard (Some "Bearer token-of-alice")
  = getOrder (on_order1 alice (@Undefined unit))
  /\ guard (Some "Bearer token-of-nobody")
     = respond 401 (JsonMessage "Invalid token")
  /\ guard (Some "Basic token-of-alice")
     = respond 401 (JsonMessage "Missing token").
Proof.
  destruct (requireAuth_guard (num := PrimFloat.float) verify0
              (fun status message => respond status (JsonMessage message))
              (fun payload => getOrder (on_order1 payload (@Undefined unit))))
    as (_ & Haccepted & Hrejected & Hmissing & _).
  split; [|split].
  - apply (Haccepted "token-of-alice" alice); [discriminate|reflexivity].
  - apply (Hrejected "token-of-nobody"); [discriminate|reflexivity].
  - apply (Hmissing "Basic token-of-alice"). reflexivity.
Defined.

(** The slug [product-a] is taken in [db0]: the next one is
    [product-a-2]. *)
Lemma uniqueSlug_first_free_witness :
  exists slug,
    uniqueSlug (num := PrimFloat.float) 3 "product-a" None env0 (idle db0)
    = (Normal (Some slug), idle db0)
    /\ ~ taken db0 None slug
    /\ (slug = "product-a"
        \/ (taken db0 None "product-a"
            /\ exists m,
                 (2 <= m)%N /\ slug = "product-a" +:+ "-" +:+ pretty m
                 /\ forall k, (2 <= k < m)%N ->
                              taken db0 None
                                ("product-a" +:+ "-" +:+ pretty k))).
Proof.
  apply (uniqueSlug_first_free env0 db0 "product-a" None 3).
  vm_compute. lia.
Defined.

(** Raising the price of A keeps the slugs of [db1] unique. *)
Lemma updateProduct_keeps_slugs_unique_witness :
  let '(r, db') := run (updateProduct 8 raise_price) env0 db1 in
  unique_slugs db'
  /\ (forall id p, products db1 !! id = Some p ->
                   p_slug p <> req_params_slug raise_price ->
                   products db' !! id = Some p)
  /\ dom (products db') = dom (products db1)
  /\ forall res, r = Normal (Some res) -> res_status res = 200%nat ->
       exists id doc,
         res_body res = JsonItem (Some (id, doc))
         /\ products db' !! id = Some doc
         /\ productSchema_valid doc = true.
Proof.
  apply (updateProduct_keeps_slugs_unique 8 raise_price env0 db1).
  apply unique_slugs_NoDup. apply (bool_decide_unpack _). vm_compute. exact I.
Defined.

(** The admin creates a second [product-a]: it is stored under the slug
    [product-a-2], or one of the other outcomes is the case. *)
Lemma createProduct_outcomes_witness :
  exists r db',
    run (createProduct 3 new_product) env0 db0 = (r, db')
    /\ match r with
       | Normal None => False
       | Normal (Some res) =>
           (res_status res = 400%nat /\ db' = db0)
           \/ exists data id p,
                createSchema env0 (req_body new_product) = Some data
                /\ res = {| res_status := 201;
                            res_body := JsonItem (Some (id, p)) |}
                /\ products db0 !! id = None
                /\ db' = set_products <[id := p]> db0
                /\ (forall j q, products db0 !! j = Some q ->
                                p_slug q <> p_slug p)
                /\ p_title p = c_title data
                /\ p_price p = c_price data
                /\ p_stock p = default 0 (c_stock data)
                /\ p_images p = default [] (c_images data)
                /\ p_isActive p = true
                /\ (unique_slugs db0 -> unique_slugs db')
       | Throw e =>
           db' = db0
           /\ ((createSchema env0 (req_body new_product) = None
                /\ e = ZodError env0
                         (createSchema_issues env0 (req_body new_product)))
               \/ e = new_Error "Product validation failed")
       end.
Proof.
  apply (createProduct_outcomes 3 new_product env0 db0).
  - vm_compute. lia.
  - reflexivity.
Defined.

Example created_product_slug :
  p_slug <$> products (run (createProduct 3 new_product) env0 db0).2
               !! 3%positive
  = Some "product-a-2".
Proof. vm_compute. reflexivity. Qed.

(** Product A is deleted from [db0]: it is then hidden from the shop and
    from the carts. *)
Lemma deleted_product_hidden_witness :
  let slug := "product-a" in
  let '(r, db') :=
    run (deleteProduct (on_slug root "product-a" (@Undefined unit)))
      env0 db0 in
  (forall id,
     products db' !! id =
     (fun p => if String.eqb (p_slug p) slug then set_isActive false p
               else p) <$> products db0 !! id)
  /\ same_but_products db0 db'
  /\ ((r = Normal {| res_status := 200; res_body := JsonOk |}
       /\ taken db0 None slug)
      \/ (r = Normal {| res_status := 404;
                        res_body := JsonMessage "Not found" |}
          /\ ~ taken db0 None slug /\ db' = db0))
  /\ (forall env' (req' : Request unit),
        req_params_slug req' = slug ->
        run (getProduct req') env' db' =
        (Normal {| res_status := 404; res_body := JsonMessage "Not found" |},
         db'))
  /\ (forall env' (req' : Request RawAddItem) data,
        addSchema (req_body req') = Some data ->
        add_productSlug data = slug ->
        run (addItem req') env' db' =
        (Normal {| cres_status := 404;
                   cres_body := CartMessage "Product not found" |}, db'))
  /\ (forall env' (req' : Request RawUpdateItem) qty,
        updateItemSchema (req_body req') = Some qty ->
        req_params_slug req' = slug ->
        run (updateItem req') env' db' =
        (Normal {| cres_status := 404;
                   cres_body := CartMessage "Product not found" |}, db')).
Proof.
  apply (deleted_product_hidden (C := unit)
           (on_slug root "product-a" (@Undefined unit)) env0 db0).
  exact unique_slugs_db0.
Defined.

(** Once product A is deleted, Alice, who has two A in her cart, cannot
    check out. *)
Lemma deleted_product_blocks_checkout_witness :
  let db' := (run (deleteProduct (on_slug root "product-a" (@Undefined unit)))
                env0 db0).2 in
  carts db' = carts db0
  /\ exists msg,
       run (createOrder (checkout_of alice (Value no_body))) env0 db' =
       (Normal {| res_status := 400; res_body := JsonMessage msg |}, db').
Proof.
  apply (deleted_product_blocks_checkout
           (on_slug root "product-a" (@Undefined unit))
           (checkout_of alice (Value no_body)) env0 env0 db0 1%positive
           productA {| shippingAddress := None; paymentMethod := None |}).
  - exact unique_slugs_db0.
  - reflexivity.
  - reflexivity.
  - reflexivity.
  - vm_compute. left. reflexivity.
Defined.


(** Alice sets the quantity of A to four. *)
Lemma updateItem_effect_witness :
  exists res db',
    run (updateItem (on_slug alice "product-a" (qty_body 4))) env0 db0
    = (Normal res, db')
    /\ cres_status res = 200%nat
    /\ 1 <= 4 <= 5
    /\ forall pid,
         qty_of pid (cart_lines db' 7%positive) =
         if decide (pid = 1%positive) then 4
         else qty_of pid (cart_lines db0 7%positive).
Proof.
  apply (updateItem_effect (on_slug alice "product-a" (qty_body 4)) env0 db0
           4 1%positive productA).
  - reflexivity.
  - exact unique_slugs_db0.
  - reflexivity.
  - reflexivity.
  - reflexivity.
  - exact (carts_wf_db0 7%positive).
  - reflexivity.
Defined.

(** Alice removes A from her cart, which is then empty. *)
Lemma removeItem_effect_witness :
  exists res db',
    run (removeItem (on_slug alice "product-a" (@Undefined unit))) env0 db0
    = (Normal res, db')
    /\ cres_status res = 200%nat
    /\ cart_lines db' 7%positive = []
    /\ 1%positive ∉ map ci_product (cart_lines db' 7%positive).
Proof.
  apply (removeItem_effect (on_slug alice "product-a" (@Undefined unit))
           env0 db0 1%positive productA).
  - exact unique_slugs_db0.
  - reflexivity.
  - reflexivity.
  - exact (carts_wf_db0 7%positive).
  - reflexivity.
Defined.

(** What Alice is answered when she adds an A is what her cart shows
    next. *)
Lemma cart_answer_is_getCart_witness :
  cart_router alice GetCart env0
    (idle (set_cart 7 [{| ci_product := 1; ci_qty := 3 |}] db0))
  = (Normal {| cres_status := 200;
               cres_body := CartJson [lineA 3 3000] (cents 3000) |},
     idle (set_cart 7 [{| ci_product := 1; ci_qty := 3 |}] db0)).
Proof.
  apply (cart_answer_is_getCart alice (AddItem (add_body "product-a" 1))
           env0 env0 db0 _
           {| cres_status := 201;
              cres_body := CartJson [lineA 3 3000] (cents 3000) |}).
  - vm_compute. reflexivity.
  - reflexivity.
Defined.

(** The subtotal of 20.00 Alice's cart shows is that of her order. *)
Lemma cart_total_is_order_total_witness :
  exists order,
    JsonOrder (1%positive, orderA) = JsonOrder order
    /\ o_subtotal order.2 = cents 2000
    /\ Forall2 (fun l oi =>
                  oi_slug oi = cl_slug l /\ oi_title oi = cl_title l
                  /\ oi_price oi = cl_price l /\ oi_qty oi = cl_qty l
                  /\ oi_lineTotal oi = cl_lineTotal l)
         [lineA 2 2000] (o_items order.2).
Proof.
  apply (cart_total_is_order_total (on_slug alice "" (@Undefined unit))
           (checkout_of alice (Value no_body)) env0 env0 db0 db0 db1
           {| cres_status := 200;
              cres_body := CartJson [lineA 2 2000] (cents 2000) |}
           {| res_status := 201;
              res_body := JsonOrder (1%positive, orderA) |}).
  - reflexivity.
  - vm_compute. reflexivity.
  - reflexivity.
  - exact alice_checks_out.
  - reflexivity.
Defined.


(** Alice clears her cart and cannot check out. *)
Lemma clearCart_then_checkout_witness :
  {| cres_status := 200; cres_body := @CartOk PrimFloat.float |}
  = {| cres_status := 200; cres_body := CartOk |}
  /\ set_cart 7 [] db0 = set_cart 7 [] db0
  /\ run (createOrder (checkout_of alice (Value no_body))) env0
       (set_cart 7 [] db0) =
     (Normal {| res_status := 400; res_body := JsonMessage "Cart is empty" |},
      set_cart 7 [] db0).
Proof.
  apply (clearCart_then_checkout (on_slug alice "" (@Undefined unit))
           (checkout_of alice (Value no_body)) env0 env0 db0
           (set_cart 7 [] db0)
           {| cres_status := 200; cres_body := CartOk |}
           {| shippingAddress := None; paymentMethod := None |}).
  - reflexivity.
  - reflexivity.
  - vm_compute. reflexivity.
Defined.

(** Alice adds an A, the admin deletes A and creates another one, Alice's
    checkout fails, Bob's fails at the driver: the invariants hold. *)
Lemma serve_keeps_invariants_witness :
  let l :=
    [(env0, CartReq alice (AddItem (add_body "product-a" 1)));
     (env0, DeleteProductReq (on_slug root "product-a" (@Undefined unit)));
     (env0, CreateProductReq 8 new_product);
     (env0, CreateOrderReq (checkout_of alice (Value no_body)));
     (env_fault, CreateOrderReq (checkout_of bob (Value no_body)))] in
  unique_slugs (serve l db0) /\ carts_wf (serve l db0).
Proof.
  intros l. apply (serve_keeps_invariants l db0).
  - exact unique_slugs_db0.
  - exact carts_wf_db0.
Defined.

(** Whatever is done to product A and to order 1, the order keeps its
    snapshot. *)
Lemma serve_keeps_orders_witness :
  let l :=
    [(env0, UpdateProductReq 8 raise_price);
     (env0, UpdateStatusReq mark_paid);
     (env0, DeleteProductReq (on_slug root "product-a" (@Undefined unit)));
     (env0, CancelOrderReq (on_order1 alice (@Undefined unit)))] in
  exists o',
    orders (serve l db1) !! 1%positive = Some o' /\ same_snapshot orderA o'.
Proof.
  intros l. apply (serve_keeps_orders l db1 1%positive orderA). reflexivity.
Defined.

Lemma stock_ok_db0 : stock_ok db0.
Proof.
  apply stock_ok_list; apply (bool_decide_unpack _); vm_compute; exact I.
Qed.

(** The admin sets the stock of A to [2^54], Alice and Bob check out,
    Alice cancels her order, the admin raises the price of A: no stock is
    negative. *)
Lemma serve_keeps_stock_ok_witness :
  let l :=
    [(env0, UpdateProductReq 8 (restock (2 ^ 54)));
     (env0, CreateOrderReq (checkout_of alice (Value no_body)));
     (env0, CreateOrderReq (checkout_of bob (Value no_body)));
     (env0, CancelOrderReq (on_order1 alice (@Undefined unit)));
     (env0, UpdateProductReq 8 raise_price)] in
  stock_ok (serve l db0).
Proof.
  intros l. apply (serve_keeps_stock_ok l db0). exact stock_ok_db0.
Defined.
